(** * groq-search: tool routing, text tool-call detection and the turn state machine

    A shallow embedding of [src/tools/calculate.py], [src/tools/tool_manager.py]
    and [src/main.py], followed by the properties of the specification that
    were checked against it.

    Text is a Rocq [string] of 8-bit characters.  The character classes and the
    case mappings follow Python on the ASCII range; a character above 127 is
    kept as it is and belongs to no class. *)

From Stdlib Require Import Bool Arith ZArith List Ascii String DecimalString Lia.
Import ListNotations.
Open Scope string_scope.

(** The double quote and the line feed, which a Rocq literal cannot hold. *)
Definition dq : string := String "034"%char EmptyString.
Definition nl : string := String "010"%char EmptyString.

(** A Python call either returns a value or raises; [Raise] carries [str(e)]. *)
Inductive outcome (A : Type) : Type :=
| Ret (a : A)
| Raise (e : string).
Arguments Ret {A} a.
Arguments Raise {A} e.

(** ** Python's [str] methods used by the sources *)
Module Py.

Definition code (c : ascii) : nat := nat_of_ascii c.

Definition between (lo hi : nat) (c : ascii) : bool :=
  Nat.leb lo (code c) && Nat.leb (code c) hi.

Definition isdigit (c : ascii) : bool := between 48 57 c.
Definition isupper (c : ascii) : bool := between 65 90 c.
Definition islower (c : ascii) : bool := between 97 122 c.

(** [str.isspace] and the class [\s]: tab to carriage return, the four
    separators 28..31, and the space. *)
Definition isspace (c : ascii) : bool := between 9 13 c || between 28 32 c.

(** The class [\w]. *)
Definition isword (c : ascii) : bool :=
  isdigit c || isupper c || islower c || Nat.eqb (code c) 95.

Definition lower_char (c : ascii) : ascii :=
  if isupper c then ascii_of_nat (code c + 32) else c.

Definition upper_char (c : ascii) : ascii :=
  if islower c then ascii_of_nat (code c - 32) else c.

Fixpoint map_chars (f : ascii -> ascii) (s : string) : string :=
  match s with
  | EmptyString => EmptyString
  | String c s' => String (f c) (map_chars f s')
  end.

(** [s.lower()] and [s.upper()] *)
Definition lower : string -> string := map_chars lower_char.
Definition upper : string -> string := map_chars upper_char.

Fixpoint mem_char (c : ascii) (chars : string) : bool :=
  match chars with
  | EmptyString => false
  | String d chars' => Ascii.eqb c d || mem_char c chars'
  end.

Fixpoint lstrip_by (p : ascii -> bool) (s : string) : string :=
  match s with
  | EmptyString => EmptyString
  | String c s' => if p c then lstrip_by p s' else s
  end.

Fixpoint rstrip_by (p : ascii -> bool) (s : string) : string :=
  match s with
  | EmptyString => EmptyString
  | String c s' =>
      match rstrip_by p s' with
      | EmptyString => if p c then EmptyString else String c EmptyString
      | t => String c t
      end
  end.

Definition strip_by (p : ascii -> bool) (s : string) : string :=
  rstrip_by p (lstrip_by p s).

(** [s.strip()] *)
Definition strip : string -> string := strip_by isspace.

(** [s.strip(chars)] *)
Definition strip_chars (chars : string) : string -> string :=
  strip_by (fun c => mem_char c chars).

(** Every character of [s] satisfies [p]. *)
Fixpoint all_chars (p : ascii -> bool) (s : string) : bool :=
  match s with
  | EmptyString => true
  | String c s' => p c && all_chars p s'
  end.

(** [sub in s] *)
Fixpoint contains (sub s : string) : bool :=
  String.prefix sub s ||
  match s with
  | EmptyString => false
  | String _ s' => contains sub s'
  end.

(** [s.replace(old, new)] for a one-character [old] *)
Fixpoint replace (old : ascii) (new s : string) : string :=
  match s with
  | EmptyString => EmptyString
  | String c s' =>
      if Ascii.eqb c old then new ++ replace old new s'
      else String c (replace old new s')
  end.

(** [sep.join(items)] *)
Fixpoint join (sep : string) (items : list string) : string :=
  match items with
  | [] => EmptyString
  | [x] => x
  | x :: rest => x ++ sep ++ join sep rest
  end.

End Py.

(** ** The fragment of Python's [re] the sources use

    A backtracking matcher in continuation-passing style: alternatives are
    tried in the order Python tries them, so the first success is the match
    [re.search] reports.  Every repetition in the sources ranges over a
    character class, which is what [Star] stands for. *)
Module Re.

Inductive regex : Type :=
| Chr (c : ascii)                        (* a literal character *)
| Cls (neg : bool) (p : ascii -> bool)   (* a class [...] or [^...], also the dot *)
| Eps                                    (* the empty pattern *)
| Cat (r1 r2 : regex)
| Alt (r1 r2 : regex)                    (* r1|r2 *)
| Star (greedy neg : bool) (p : ascii -> bool)   (* class* and class*? *)
| Group (n : nat) (r : regex)            (* the n-th capturing group *)
| Bol                                    (* ^ *)
| Eol.                                   (* $ *)

Definition seq (rs : list regex) : regex := fold_right Cat Eps rs.

Fixpoint lit (s : string) : regex :=
  match s with
  | EmptyString => Eps
  | String c s' => Cat (Chr c) (lit s')
  end.

(** class+ and class+? *)
Definition plus (greedy neg : bool) (p : ascii -> bool) : regex :=
  Cat (Cls neg p) (Star greedy neg p).

(** (?:r)? *)
Definition opt (r : regex) : regex := Alt r Eps.

Definition any_char (_ : ascii) : bool := true.
Definition one_of (chars : string) (c : ascii) : bool := Py.mem_char c chars.

(** The number of capturing groups, [len(match.groups())]. *)
Fixpoint ngroups (r : regex) : nat :=
  match r with
  | Cat r1 r2 | Alt r1 r2 => ngroups r1 + ngroups r2
  | Group _ r1 => S (ngroups r1)
  | _ => 0
  end.

Definition captures : Type := list (nat * string).

Fixpoint lookup (n : nat) (caps : captures) : option string :=
  match caps with
  | [] => None
  | (m, s) :: caps' => if Nat.eqb n m then Some s else lookup n caps'
  end.

Definition chr_eq (icase : bool) (c d : ascii) : bool :=
  if icase then Ascii.eqb (Py.lower_char c) (Py.lower_char d) else Ascii.eqb c d.

(** Under IGNORECASE a class holds a character when it holds one of its
    case variants; the negation of [^...] applies after that. *)
Definition cls_in (icase neg : bool) (p : ascii -> bool) (c : ascii) : bool :=
  xorb neg
    (if icase then p c || p (Py.lower_char c) || p (Py.upper_char c) else p c).

(** [$] without MULTILINE: the end of the text, or just before a final
    line feed. *)
Definition at_end (s : string) : bool :=
  match s with
  | EmptyString => true
  | String c EmptyString => Ascii.eqb c "010"%char
  | _ => false
  end.

Section Matcher.
Context {A : Type}.

Fixpoint star_greedy (p : ascii -> bool) (k : nat -> string -> option A)
    (pos : nat) (s : string) : option A :=
  match s with
  | String c s' =>
      if p c then
        match star_greedy p k (S pos) s' with
        | Some a => Some a
        | None => k pos s
        end
      else k pos s
  | EmptyString => k pos s
  end.

Fixpoint star_lazy (p : ascii -> bool) (k : nat -> string -> option A)
    (pos : nat) (s : string) : option A :=
  match k pos s with
  | Some a => Some a
  | None =>
      match s with
      | String c s' => if p c then star_lazy p k (S pos) s' else None
      | EmptyString => None
      end
  end.

(** [run icase r pos s caps k]: match [r] at offset [pos], where [s] is
    the text from [pos] on, and hand the offset, the rest and the groups
    to [k]; when [k] fails the next alternative is tried. *)
Fixpoint run (icase : bool) (r : regex) (pos : nat) (s : string)
    (caps : captures) (k : nat -> string -> captures -> option A) : option A :=
  match r with
  | Chr c =>
      match s with
      | String d s' => if chr_eq icase c d then k (S pos) s' caps else None
      | EmptyString => None
      end
  | Cls neg p =>
      match s with
      | String d s' => if cls_in icase neg p d then k (S pos) s' caps else None
      | EmptyString => None
      end
  | Eps => k pos s caps
  | Cat r1 r2 =>
      run icase r1 pos s caps (fun pos' s' caps' => run icase r2 pos' s' caps' k)
  | Alt r1 r2 =>
      match run icase r1 pos s caps k with
      | Some a => Some a
      | None => run icase r2 pos s caps k
      end
  | Star greedy neg p =>
      (if greedy then star_greedy else star_lazy)
        (cls_in icase neg p) (fun pos' s' => k pos' s' caps) pos s
  | Group n r1 =>
      run icase r1 pos s caps
        (fun pos' s' caps' => k pos' s' ((n, substring 0 (pos' - pos) s) :: caps'))
  | Bol => if Nat.eqb pos 0 then k pos s caps else None
  | Eol => if at_end s then k pos s caps else None
  end.
End Matcher.

(** A match object: where it starts, [group(0)] and the numbered groups. *)
Record rmatch : Type := {
  m_start : nat;
  m_whole : string;
  m_caps : captures
}.

(** Whether group [n] took part in the match. *)
Definition group_set (m : rmatch) (n : nat) : bool :=
  match lookup n (m_caps m) with Some _ => true | None => false end.

(** [match.group(n)] for [n >= 1], for a group that took part in the match.
    The sources read only groups that every match of their pattern sets
    (see [mandatory] and the lemmas on it), so the default is never read. *)
Definition group (m : rmatch) (n : nat) : string :=
  match lookup n (m_caps m) with Some g => g | None => EmptyString end.

Definition match_at (icase : bool) (r : regex) (pos : nat) (s : string)
    : option rmatch :=
  run icase r pos s []
    (fun pos' _ caps =>
       Some {| m_start := pos; m_whole := substring 0 (pos' - pos) s; m_caps := caps |}).

Fixpoint search_from (icase : bool) (r : regex) (pos : nat) (s : string)
    : option rmatch :=
  match match_at icase r pos s with
  | Some m => Some m
  | None =>
      match s with
      | String _ s' => search_from icase r (S pos) s'
      | EmptyString => None
      end
  end.

(** [re.search(r, text)], with [icase] for [re.IGNORECASE]; [re.DOTALL]
    is in the class chosen for the dot. *)
Definition search (icase : bool) (r : regex) (text : string) : option rmatch :=
  search_from icase r 0 text.

(** [re.match(r, text)] *)
Definition match_ (icase : bool) (r : regex) (text : string) : option rmatch :=
  match_at icase r 0 text.

(** The groups every match of [r] sets. *)
Fixpoint mandatory (r : regex) : list nat :=
  match r with
  | Cat r1 r2 => mandatory r1 ++ mandatory r2
  | Alt r1 r2 => filter (fun n => existsb (Nat.eqb n) (mandatory r2)) (mandatory r1)
  | Group n r1 => n :: mandatory r1
  | _ => []
  end.

End Re.

(** ** [json.dumps] on the values the sources encode *)
Module Json.

Definition hex_digit (n : nat) : ascii :=
  if Nat.ltb n 10 then ascii_of_nat (48 + n) else ascii_of_nat (87 + n).

(** One character of a string under [ensure_ascii]: the quote and the
    backslash are escaped, and so is everything outside space..tilde. *)
Definition escape_char (c : ascii) : string :=
  let n := Py.code c in
  if Nat.eqb n 34 then "\" ++ dq
  else if Nat.eqb n 92 then "\\"
  else if Nat.eqb n 10 then "\n"
  else if Nat.eqb n 13 then "\r"
  else if Nat.eqb n 9 then "\t"
  else if Nat.eqb n 8 then "\b"
  else if Nat.eqb n 12 then "\f"
  else if Nat.leb 32 n && Nat.leb n 126 then String c EmptyString
  else "\u00" ++ String (hex_digit (n / 16)) (String (hex_digit (n mod 16)) EmptyString).

Fixpoint escape (s : string) : string :=
  match s with
  | EmptyString => EmptyString
  | String c s' => escape_char c ++ escape s'
  end.

(** [json.dumps(s)] for a string [s] *)
Definition dumps_str (s : string) : string := dq ++ escape s ++ dq.

(** [json.dumps({key: v})], given the encoding of [v] *)
Definition dumps_obj1 (key encoded_value : string) : string :=
  "{" ++ dumps_str key ++ ": " ++ encoded_value ++ "}".

(** The text is a JSON object whose only key is [key]. *)
Definition has_key (key text : string) : Prop :=
  exists encoded_value, text = dumps_obj1 key encoded_value.

End Json.

(** ** [src/tools/calculate.py] *)
Module Calculate.

(** The class of the whitelist: digits, the operators, the parentheses, the
    dot, white space, the caret and the percent sign. *)
Definition allowed (c : ascii) : bool :=
  Py.isdigit c || Re.one_of "+-*/()." c || Py.isspace c || Re.one_of "^%" c.

(** The pattern of line 17: the class repeated between [^] and [$]. *)
Definition whitelist : Re.regex :=
  Re.seq [Re.Bol; Re.Star true false allowed; Re.Eol].

Section Calculate.
(** The objects [eval] can produce. *)
Variable pyobj : Type.
(** [eval(expression, {"__builtins__": {}})]: Python's evaluator. *)
Variable py_eval : string -> outcome pyobj.
(** [json.dumps] on the value of the expression; it raises on a value that
    has no JSON form. *)
Variable json_dumps : pyobj -> outcome string.

Definition error_json (msg : string) : string :=
  Json.dumps_obj1 "error" (Json.dumps_str msg).

(** The whole body is inside [try], so whatever is raised after the
    whitelist test comes back as the error object of line 27. *)
Definition calculate (expression : string) : string :=
  match Re.match_ false whitelist expression with
  | None => error_json "Invalid characters in expression"
  | Some _ =>
      let expression := Py.replace "^"%char "**" expression in
      match py_eval expression with
      | Raise e => error_json ("Error calculating: " ++ e)
      | Ret result =>
          match json_dumps result with
          | Raise e => error_json ("Error calculating: " ++ e)
          | Ret encoded => Json.dumps_obj1 "result" encoded
          end
      end
  end.
End Calculate.

End Calculate.

(** ** An evaluator to run [calculate] with

    Python's integer arithmetic on one line of whitelisted characters, as
    one instance of the evaluator [calculate] is given.  It follows Python's
    grammar for the operators it knows (the caret is exclusive or and binds
    looser than the sum, the power binds tighter than a sign on its left);
    what leaves the integers or the line is reported as an exception. *)
Module PyInt.

Inductive token : Type :=
| TNum (z : Z)
| TPlus | TMinus | TStar | TPow | TFloorDiv | TSlash | TPercent | TCaret
| TLParen | TRParen.

Definition digit_value (c : ascii) : Z := Z.of_nat (Py.code c - 48).

(** The digits at the head of the text, as a number, and the rest. *)
Fixpoint lex_number (acc : Z) (s : string) : Z * string :=
  match s with
  | String c s' =>
      if Py.isdigit c then lex_number (10 * acc + digit_value c)%Z s' else (acc, s)
  | EmptyString => (acc, s)
  end.

Fixpoint lex (fuel : nat) (s : string) : outcome (list token) :=
  match fuel with
  | O => Ret []
  | S fuel' =>
      match s with
      | EmptyString => Ret []
      | String c s' =>
          let cons (t : token) (rest : string) :=
            match lex fuel' rest with
            | Ret ts => Ret (t :: ts)
            | Raise e => Raise e
            end in
          if Ascii.eqb c " " || Ascii.eqb c "009" then lex fuel' s'
          else if Py.isdigit c then
            let (z, rest) := lex_number 0 s in
            if Ascii.eqb c "0" && negb (z =? 0)%Z
            then Raise "leading zeros in decimal integer literals are not permitted"
            else cons (TNum z) rest
          else if Ascii.eqb c "+" then cons TPlus s'
          else if Ascii.eqb c "-" then cons TMinus s'
          else if Ascii.eqb c "%" then cons TPercent s'
          else if Ascii.eqb c "^" then cons TCaret s'
          else if Ascii.eqb c "(" then cons TLParen s'
          else if Ascii.eqb c ")" then cons TRParen s'
          else if Ascii.eqb c "*" then
            match s' with
            | String "*" s'' => cons TPow s''
            | _ => cons TStar s'
            end
          else if Ascii.eqb c "/" then
            match s' with
            | String "/" s'' => cons TFloorDiv s''
            | _ => cons TSlash s'
            end
          else Raise "invalid syntax"
      end
  end.

Inductive level : Type := LXor | LArith | LTerm | LFactor | LPower | LAtom.

(** Parse at a level, or continue a left-associative chain with the value
    read so far. *)
Inductive job : Type :=
| Parse (l : level)
| Rest (l : level) (acc : Z).

Definition then_ {A B : Type} (x : outcome A) (f : A -> outcome B) : outcome B :=
  match x with
  | Ret a => f a
  | Raise e => Raise e
  end.

Fixpoint eval_tokens (fuel : nat) (j : job) (ts : list token)
    : outcome (Z * list token) :=
  match fuel with
  | O => Raise "maximum recursion depth exceeded"
  | S fuel' =>
      let parse l ts := eval_tokens fuel' (Parse l) ts in
      let rest l acc ts := eval_tokens fuel' (Rest l acc) ts in
      match j with
      | Parse LXor => then_ (parse LArith ts) (fun '(v, ts') => rest LXor v ts')
      | Parse LArith => then_ (parse LTerm ts) (fun '(v, ts') => rest LArith v ts')
      | Parse LTerm => then_ (parse LFactor ts) (fun '(v, ts') => rest LTerm v ts')
      | Parse LFactor =>
          match ts with
          | TMinus :: ts' =>
              then_ (parse LFactor ts') (fun '(v, ts'') => Ret ((- v)%Z, ts''))
          | TPlus :: ts' => parse LFactor ts'
          | _ => parse LPower ts
          end
      | Parse LPower =>
          then_ (parse LAtom ts) (fun '(base, ts') =>
            match ts' with
            | TPow :: ts'' =>
                then_ (parse LFactor ts'') (fun '(e, ts3) =>
                  if (e <? 0)%Z then Raise "not an integer"
                  else Ret ((base ^ e)%Z, ts3))
            | _ => Ret (base, ts')
            end)
      | Parse LAtom =>
          match ts with
          | TNum z :: ts' => Ret (z, ts')
          | TLParen :: ts' =>
              then_ (parse LXor ts') (fun '(v, ts'') =>
                match ts'' with
                | TRParen :: ts3 => Ret (v, ts3)
                | _ => Raise "invalid syntax"
                end)
          | _ => Raise "invalid syntax"
          end
      | Rest LXor acc =>
          match ts with
          | TCaret :: ts' =>
              then_ (parse LArith ts') (fun '(v, ts'') => rest LXor (Z.lxor acc v) ts'')
          | _ => Ret (acc, ts)
          end
      | Rest LArith acc =>
          match ts with
          | TPlus :: ts' =>
              then_ (parse LTerm ts') (fun '(v, ts'') => rest LArith (acc + v)%Z ts'')
          | TMinus :: ts' =>
              then_ (parse LTerm ts') (fun '(v, ts'') => rest LArith (acc - v)%Z ts'')
          | _ => Ret (acc, ts)
          end
      | Rest LTerm acc =>
          match ts with
          | TStar :: ts' =>
              then_ (parse LFactor ts') (fun '(v, ts'') => rest LTerm (acc * v)%Z ts'')
          | TFloorDiv :: ts' =>
              then_ (parse LFactor ts') (fun '(v, ts'') =>
                if (v =? 0)%Z then Raise "integer division or modulo by zero"
                else rest LTerm (acc / v)%Z ts'')
          | TPercent :: ts' =>
              then_ (parse LFactor ts') (fun '(v, ts'') =>
                if (v =? 0)%Z then Raise "integer division or modulo by zero"
                else rest LTerm (acc mod v)%Z ts'')
          | TSlash :: _ => Raise "not an integer"
          | _ => Ret (acc, ts)
          end
      | Rest _ acc => Ret (acc, ts)
      end
  end.

(** The evaluator: the value of an integer expression. *)
Definition py_eval (expression : string) : outcome Z :=
  then_ (lex (S (String.length expression)) expression) (fun ts =>
    then_ (eval_tokens (8 * List.length ts + 8) (Parse LXor) ts) (fun '(v, rest) =>
      match rest with
      | [] => Ret v
      | _ => Raise "invalid syntax"
      end)).

(** [json.dumps] of an integer: its decimal digits. *)
Definition json_dumps (z : Z) : outcome string :=
  Ret (NilEmpty.string_of_int (Z.to_int z)).

(** [calculate] over this evaluator. *)
Definition calculate : string -> string := Calculate.calculate Z py_eval json_dumps.

End PyInt.

(** ** [src/tools/tool_manager.py] *)
Module ToolManager.

(** A tool definition as [get_tool_definition] builds it: a function with
    one required string parameter. *)
Record ToolDefinition : Type := {
  td_name : string;
  td_description : string;
  td_parameter : string;
  td_parameter_description : string
}.

Definition web_search_definition : ToolDefinition :=
  {| td_name := "web_search";
     td_description := "Search the web for current information on a topic";
     td_parameter := "query";
     td_parameter_description := "The search query to look up" |}.

Definition calculate_definition : ToolDefinition :=
  {| td_name := "calculate";
     td_description := "Evaluate a mathematical expression";
     td_parameter := "expression";
     td_parameter_description := "The mathematical expression to evaluate" |}.

(** A Python [dict] with string keys: the entries in insertion order. *)
Definition dict (V : Type) : Type := list (string * V).

Section Dict.
Context {V : Type}.

(** [d.get(key)] *)
Fixpoint get (d : dict V) (key : string) : option V :=
  match d with
  | [] => None
  | (k, v) :: d' => if String.eqb key k then Some v else get d' key
  end.

(** [key in d] *)
Definition has (d : dict V) (key : string) : bool :=
  match get d key with Some _ => true | None => false end.

(** [d[key] = v]: an existing key keeps its place. *)
Fixpoint set (d : dict V) (key : string) (v : V) : dict V :=
  match d with
  | [] => [(key, v)]
  | (k, w) :: d' =>
      if String.eqb key k then (k, v) :: d' else (k, w) :: set d' key v
  end.

(** [list(d.values())] *)
Definition values (d : dict V) : list V := map snd d.
End Dict.

(** The two module-level dictionaries, [_tools] and [_tool_definitions]. *)
Record Registry (F : Type) : Type := {
  _tools : dict F;
  _tool_definitions : dict ToolDefinition
}.
Arguments _tools {F} r.
Arguments _tool_definitions {F} r.

Section Registry.
Context {F : Type}.

Definition empty_registry : Registry F :=
  {| _tools := []; _tool_definitions := [] |}.

Definition register_tool (r : Registry F) (name : string) (function : F)
    (definition : ToolDefinition) : Registry F :=
  {| _tools := set (_tools r) name function;
     _tool_definitions := set (_tool_definitions r) name definition |}.

Definition get_all_tool_definitions (r : Registry F) : list ToolDefinition :=
  values (_tool_definitions r).

Definition get_tool_definitions (r : Registry F) (tool_names : list string)
    : list ToolDefinition :=
  flat_map
    (fun name =>
       match get (_tool_definitions r) name with
       | Some d => [d]
       | None => []
       end)
    tool_names.

Definition get_tool_function (r : Registry F) (name : string) : option F :=
  get (_tools r) name.

(** [load_tools], run when the module is imported. *)
Definition load_tools (web_search calculate : F) : Registry F :=
  register_tool
    (register_tool empty_registry "web_search" web_search web_search_definition)
    "calculate" calculate calculate_definition.
End Registry.

(** *** The patterns of [detect_tool_call]

    Each pattern is kept with its source text, which the loop compares
    against, next to its syntax tree.  All are searched under IGNORECASE
    and DOTALL. *)
Record pattern : Type := {
  source : string;
  re : Re.regex
}.

Definition word1 : Re.regex := Re.plus true false Py.isword.
Definition spaces1 : Re.regex := Re.plus true false Py.isspace.
Definition quote : Re.regex := Re.Cls false (Re.one_of (dq ++ "'")).
Definition unquoted1 : Re.regex := Re.plus true true (Re.one_of (dq ++ "'")).
Definition dquote : Re.regex := Re.Chr "034"%char.
Definition lazy_any : Re.regex := Re.Star false false Re.any_char.

(** function=name followed by a bracketed blob *)
Definition p_function_bracket : pattern :=
  {| source := "<function=(\w+)\s+\[(.*?)\]";
     re := Re.seq [Re.lit "<function="; Re.Group 1 word1; spaces1; Re.Chr "[";
                   Re.Group 2 lazy_any; Re.Chr "]"] |}.

(** the same, closed by an end tag *)
Definition p_function_bracket_closed : pattern :=
  {| source := "<function=(\w+)\s+\[(.*?)\](?:.*?)</function>";
     re := Re.seq [Re.lit "<function="; Re.Group 1 word1; spaces1; Re.Chr "[";
                   Re.Group 2 lazy_any; Re.Chr "]"; lazy_any; Re.lit "</function>"] |}.

(** function=name followed by a braced blob *)
Definition p_function_brace : pattern :=
  {| source := "<function=(\w+)\s+({.*?})>";
     re := Re.seq [Re.lit "<function="; Re.Group 1 word1; spaces1;
                   Re.Group 2 (Re.seq [Re.Chr "{"; lazy_any; Re.Chr "}"]);
                   Re.Chr ">"] |}.

(** the word function, then name(args) *)
Definition p_function_call : pattern :=
  {| source := "function\s+(\w+)\(([^)]*)\)";
     re := Re.seq [Re.lit "function"; spaces1; Re.Group 1 word1; Re.Chr "(";
                   Re.Group 2 (Re.Star true true (Re.one_of ")")); Re.Chr ")"] |}.

(** name(args) *)
Definition p_call : pattern :=
  {| source := "(\w+)\(([^)]*)\)";
     re := Re.seq [Re.Group 1 word1; Re.Chr "(";
                   Re.Group 2 (Re.Star true true (Re.one_of ")")); Re.Chr ")"] |}.

(** a tool tag with its text *)
Definition p_tool_tag : pattern :=
  {| source := "<tool:(\w+)[^>]*>([^<]*)</tool>";
     re := Re.seq [Re.lit "<tool:"; Re.Group 1 word1;
                   Re.Star true true (Re.one_of ">"); Re.Chr ">";
                   Re.Group 2 (Re.Star true true (Re.one_of "<"));
                   Re.lit "</tool>"] |}.

(** Using name to search, query or calculate a quoted payload *)
Definition p_using : pattern :=
  {| source := "Using (\w+) to (?:search|query|calculate) (?:for )?"
               ++ dq ++ "([^" ++ dq ++ "]*)" ++ dq;
     re := Re.seq [Re.lit "Using "; Re.Group 1 word1; Re.lit " to ";
                   Re.Alt (Re.lit "search") (Re.Alt (Re.lit "query") (Re.lit "calculate"));
                   Re.Chr " "; Re.opt (Re.lit "for "); dquote;
                   Re.Group 2 (Re.Star true true (Re.one_of dq)); dquote] |}.

(** I'll search for, or about, a quoted payload *)
Definition p_ill_search : pattern :=
  {| source := "I\'ll search (?:for|about) [" ++ dq ++ "\']([^" ++ dq ++ "\']+)["
               ++ dq ++ "\']";
     re := Re.seq [Re.lit "I'll search "; Re.Alt (Re.lit "for") (Re.lit "about");
                   Re.Chr " "; quote; Re.Group 1 unquoted1; quote] |}.

(** Let me search, or calculate, a quoted payload *)
Definition p_let_me : pattern :=
  {| source := "Let me (search|calculate) [" ++ dq ++ "\']([^" ++ dq ++ "\']+)["
               ++ dq ++ "\']";
     re := Re.seq [Re.lit "Let me ";
                   Re.Group 1 (Re.Alt (Re.lit "search") (Re.lit "calculate"));
                   Re.Chr " "; quote; Re.Group 2 unquoted1; quote] |}.

(** Let me use name, then a double-quoted payload on the same line *)
Definition p_let_me_use : pattern :=
  {| source := "Let me use (\w+)[^\n]+" ++ dq ++ "([^" ++ dq ++ "]+)" ++ dq;
     re := Re.seq [Re.lit "Let me use "; Re.Group 1 word1;
                   Re.plus true true (Re.one_of nl); dquote;
                   Re.Group 2 (Re.plus true true (Re.one_of dq)); dquote] |}.

Definition patterns : list pattern :=
  [ p_function_bracket; p_function_bracket_closed; p_function_brace;
    p_function_call; p_call; p_tool_tag; p_using; p_ill_search; p_let_me;
    p_let_me_use ].

(** The patterns of the argument blob, searched without flags: the quoted
    value of the key, and the first quoted string. *)
Definition keyed_value (key : string) : Re.regex :=
  Re.seq [Re.lit (dq ++ key ++ dq ++ ":"); Re.Star true false Py.isspace; dquote;
          Re.Group 1 (Re.plus true true (Re.one_of dq)); dquote].

Definition first_quoted : Re.regex :=
  Re.seq [dquote; Re.Group 1 (Re.plus true true (Re.one_of dq)); dquote].

(** The dot without DOTALL. *)
Definition lazy_line : Re.regex := Re.Star false true (Re.one_of nl).

Definition indicator (phrase : string) : Re.regex :=
  Re.seq [Re.lit phrase; Re.Group 1 lazy_line; Re.Cls false (Re.one_of ("." ++ nl))].

(** [search_indicators], searched under IGNORECASE only. *)
Definition search_indicators : list Re.regex :=
  [ indicator "I need to search for ";
    indicator "I should search for ";
    indicator "I will search for ";
    indicator "Let me search for ";
    indicator "I would need to look up " ].

(** The dictionary [detect_tool_call] returns; [None] is Python's [None]. *)
Record DetectionResult : Type := {
  tool_name : option string;
  arguments : option (dict string);
  original_text : option string
}.

Definition detected (name parameter value : string) (m : Re.rmatch)
    : DetectionResult :=
  {| tool_name := Some name;
     arguments := Some [(parameter, value)];
     original_text := Some (Re.m_whole m) |}.

Definition no_detection : DetectionResult :=
  {| tool_name := None; arguments := None; original_text := None |}.

(** What the detector returns when it returns from a loop: one of the two
    tools with its own parameter. *)
Inductive detection : DetectionResult -> Prop :=
| detection_search (value : string) (m : Re.rmatch) :
    detection (detected "web_search" "query" value m)
| detection_calculate (value : string) (m : Re.rmatch) :
    detection (detected "calculate" "expression" value m).

(** Lines 129-139 and 149-158: the value of the key, else the first quoted
    string, else the blob stripped of quotes, braces, brackets and spaces. *)
Definition extract_argument (key args_text : string) : string :=
  match Re.search false (keyed_value key) args_text with
  | Some query_match => Re.group query_match 1
  | None =>
      match Re.search false first_quoted args_text with
      | Some query_match => Re.group query_match 1
      | None => Py.strip_chars (dq ++ "'{}[] ") args_text
      end
  end.

(** A [for] loop that returns from its body: the first [Some]. *)
Fixpoint first_return {X R : Type} (body : X -> option R) (xs : list X) : option R :=
  match xs with
  | [] => None
  | x :: xs' =>
      match body x with
      | Some r => Some r
      | None => first_return body xs'
      end
  end.

Section Detect.
Context {F : Type}.
Variable registry : Registry F.

(** Lines 114-164: the name is normalised and looked up; [None] when
    control falls out of the [if] and the loop goes on. *)
Definition standard_case (p : pattern) (m : Re.rmatch) : option DetectionResult :=
  if Nat.leb 2 (Re.ngroups (re p)) then
    let tool_name := Py.lower (Re.group m 1) in
    let args_text := Re.group m 2 in
    let tool_name :=
      if existsb (String.eqb tool_name) ["websearch"; "search"; "googlesearch"]
      then "web_search"
      else if existsb (String.eqb tool_name) ["calc"; "calculator"]
      then "calculate"
      else tool_name in
    if has (_tools registry) tool_name then
      if String.eqb tool_name "web_search" then
        Some (detected "web_search" "query" (extract_argument "query" args_text) m)
      else if String.eqb tool_name "calculate" then
        Some (detected "calculate" "expression"
                (extract_argument "expression" args_text) m)
      else None
    else None
  else None.

(** Lines 96-111: the special case of the Let-me pattern; [None] when
    neither verb is recognised and control goes on to the standard case. *)
Definition let_me_case (m : Re.rmatch) : option DetectionResult :=
  let tool_type := Py.lower (Re.group m 1) in
  let value := Re.group m 2 in
  if String.eqb tool_type "search" then Some (detected "web_search" "query" value m)
  else if String.eqb tool_type "calculate" then
    Some (detected "calculate" "expression" value m)
  else None.

(** The body of the first loop for one pattern: [Some] is a [return],
    [None] lets the loop continue. *)
Definition try_pattern (text : string) (p : pattern) : option DetectionResult :=
  match Re.search true (re p) text with
  | None => None
  | Some m =>
      if String.eqb (source p) (source p_ill_search) then
        Some (detected "web_search" "query" (Re.group m 1) m)
      else
        match
          (if String.eqb (source p) (source p_let_me) then let_me_case m else None)
        with
        | Some r => Some r
        | None => standard_case p m
        end
  end.

(** The body of the second loop for one indicator. *)
Definition try_indicator (text : string) (r : Re.regex) : option DetectionResult :=
  match Re.search true r text with
  | None => None
  | Some m =>
      let query := Py.strip_chars (dq ++ "'") (Py.strip (Re.group m 1)) in
      Some (detected "web_search" "query" query m)
  end.

(** Lines 83-185 over a list of patterns: the first loop, then the second,
    then the empty result. *)
Definition detect_with (candidates : list pattern) (text : string) : DetectionResult :=
  match first_return (try_pattern text) candidates with
  | Some r => r
  | None =>
      match first_return (try_indicator text) search_indicators with
      | Some r => r
      | None => no_detection
      end
  end.

Definition detect_tool_call (text : string) : DetectionResult :=
  detect_with patterns text.

(** The order the specification describes, in its words: the pseudo-function
    syntax, the call-to-action and the first-person phrasings first, the
    generic call syntax as the last resort. *)
Definition patterns_generic_last : list pattern :=
  [ p_function_bracket; p_function_bracket_closed; p_function_brace;
    p_function_call; p_tool_tag; p_using; p_ill_search; p_let_me;
    p_let_me_use; p_call ].

Definition detect_tool_call_generic_last (text : string) : DetectionResult :=
  detect_with patterns_generic_last text.
End Detect.

End ToolManager.

(** ** [src/main.py] *)
Module Main.
Import ToolManager.

Definition MODEL : string := "llama-3.3-70b-versatile".
Definition ROUTING_MODEL : string := "llama-3.1-8b-instant".
Definition GENERAL_MODEL : string := "llama-3.3-70b-versatile".

(** *** Messages *)

Inductive Role : Type := system | user | assistant | tool.

(** A tool call of type function: its id, the function's name and its
    JSON-encoded arguments. *)
Record ToolCall : Type := {
  tc_id : string;
  tc_name : string;
  tc_arguments : string
}.

(** A message of the history.  [tool_calls] is empty where the dictionary
    has no such key and where the API object holds [None]. *)
Record Message : Type := {
  role : Role;
  content : option string;
  tool_calls : list ToolCall;
  tool_call_id : option string;
  name : option string
}.

Definition text_message (r : Role) (c : option string) : Message :=
  {| role := r; content := c; tool_calls := []; tool_call_id := None; name := None |}.

(** The dictionary of lines 323-336, 362-375 and 437-450. *)
Definition tool_call_message (call_id tool_name arguments_json : string) : Message :=
  {| role := assistant; content := None;
     tool_calls := [ {| tc_id := call_id; tc_name := tool_name;
                        tc_arguments := arguments_json |} ];
     tool_call_id := None; name := None |}.

(** The dictionary of lines 253-260, 339-344, 378-383 and 453-458. *)
Definition tool_message (call_id tool_name result : string) : Message :=
  {| role := tool; content := Some result; tool_calls := [];
     tool_call_id := Some call_id; name := Some tool_name |}.

(** *** The completion API *)

(** [response.choices[0].message]: the API gives it the assistant role. *)
Record ApiMessage : Type := {
  am_content : option string;
  am_tool_calls : list ToolCall
}.

Definition as_message (m : ApiMessage) : Message :=
  {| role := assistant; content := am_content m; tool_calls := am_tool_calls m;
     tool_call_id := None; name := None |}.

Inductive ToolChoice : Type :=
| auto
| function (tool_name : string).

(** A request to [client.chat.completions.create].  The sampling parameters
    are constants of each call site and are left out. *)
Record Request : Type := {
  req_model : string;
  req_messages : list Message;
  req_tools : option (list ToolDefinition);
  req_tool_choice : option ToolChoice
}.

(** *** Decoded arguments *)

(** A value [json.loads] can put in a dictionary, as far as the sources
    tell them apart; [PyOther] keeps the value's [str()]. *)
Inductive pyval : Type :=
| PyNone
| PyStr (s : string)
| PyOther (text : string).

Definition py_str (v : pyval) : string :=
  match v with
  | PyNone => "None"
  | PyStr s => s
  | PyOther text => text
  end.

(** What [json.loads] returns: a dictionary, or a value of another type. *)
Inductive decoded : Type :=
| Dict (d : dict pyval)
| NotDict (type_name : string).

(** [function_args.get(key)] *)
Definition args_get (function_args : decoded) (key : string) : outcome pyval :=
  match function_args with
  | Dict d => Ret (match get d key with Some v => v | None => PyNone end)
  | NotDict type_name =>
      Raise ("'" ++ type_name ++ "' object has no attribute 'get'")
  end.

(** *** The texts *)

Definition routing_prompt (query : string) : string :=
  nl ++ Py.join nl
    [ "    Given the following user query, determine if any tools are needed to answer it.";
      "    ";
      "    Available tools:";
      "    1. CALCULATE: For mathematical calculations and arithmetic";
      "    2. WEB_SEARCH: For current information, facts, news, or data that requires searching the web";
      "    ";
      "    For each query, respond with one of:";
      "    - " ++ dq ++ "TOOL: CALCULATE" ++ dq ++ " if a calculation tool is needed";
      "    - " ++ dq ++ "TOOL: WEB_SEARCH" ++ dq
        ++ " if a web search tool is needed for current information";
      "    - " ++ dq ++ "TOOL: WEB_SEARCH, CALCULATE" ++ dq
        ++ " if both tools might be needed";
      "    - " ++ dq ++ "NO TOOL" ++ dq
        ++ " if no tools are needed and you can answer from your knowledge";
      "    ";
      "    User query: " ++ dq ++ query ++ dq;
      "    ";
      "    Response (ONLY respond with one of the allowed formats above):";
      "    " ].

Definition routing_system_prompt : string :=
  "You are a routing assistant that decides which tools are needed to answer user queries.".

Definition default_system_prompt : string :=
  Py.join nl
    [ "You are a helpful AI assistant with web search and calculation capabilities.";
      "";
      "IMPORTANT: When you need current information or facts, use the web_search function by calling it properly, NOT by writing it as text.";
      "DO NOT write things like '<function=web_search>' or 'I'll use web_search' in your response.";
      "Instead, use the provided function calling mechanism to actually invoke the tool.";
      "";
      "Similarly, for calculations, use the calculate function properly through function calling.";
      "";
      "Remember:";
      "- For current information: Use web_search function";
      "- For calculations: Use calculate function";
      "- For questions you can answer from your knowledge: Just respond directly" ].

Definition apology_first_call : string :=
  "I encountered an error processing your request. Please try again.".
Definition apology_search_results : string :=
  "I encountered an error processing the search results. Please try again.".
Definition apology_results : string :=
  "I encountered an error processing the results. Please try again.".

(** [json.dumps({"error": msg})] *)
Definition error_json (msg : string) : string :=
  Json.dumps_obj1 "error" (Json.dumps_str msg).

(** [json.dumps({key: value})] for a string [value] *)
Definition args_json (key value : string) : string :=
  Json.dumps_obj1 key (Json.dumps_str value).

(** *** The turn *)

(** The [return] statement a turn leaves by (or the exception that leaves
    it); Python does not return it, the statements below read it. *)
Inductive Exit : Type :=
| FirstCallFailed        (* line 197 *)
| Structured             (* line 282 *)
| StructuredSecondFailed (* line 287 *)
| TextDetected           (* line 404 *)
| TextSecondFailed       (* line 409 *)
| Forced                 (* line 487 *)
| ForcedSecondFailed     (* line 492 *)
| Direct                 (* line 505 *)
| Uncaught.              (* an exception leaves the function *)

(** Lines 112-129: the list the caller passed, or a fresh one. *)
Definition initial_history (history : option (list Message)) : list Message :=
  match history with
  | None => [text_message system (Some default_system_prompt)]
  | Some h => h
  end.

(** The request of lines 65-77. *)
Definition routing_request (query : string) : Request :=
  let messages :=
    [ text_message system (Some routing_system_prompt);
      text_message user (Some (routing_prompt query)) ] in
  {| req_model := ROUTING_MODEL; req_messages := messages;
     req_tools := None; req_tool_choice := None |}.

(** Lines 152-168. *)
Definition choose_tool_choice (suggested_tools : list string) : ToolChoice :=
  match suggested_tools with
  | [] => auto
  | [only] => function only
  | _ => auto
  end.

(** Lines 171-174. *)
Definition select_model (suggested_tools : list string) : string :=
  match suggested_tools with
  | [] => GENERAL_MODEL
  | _ => MODEL
  end.

(** The request of lines 182-190: every registered definition is attached. *)
Definition first_request (tools : list ToolDefinition) (suggested_tools : list string)
    (history : list Message) : Request :=
  {| req_model := select_model suggested_tools;
     req_messages := history;
     req_tools := Some tools;
     req_tool_choice := Some (choose_tool_choice suggested_tools) |}.

(** The request of lines 267-270, 390-393 and 473-476. *)
Definition second_request (history : list Message) : Request :=
  {| req_model := MODEL; req_messages := history;
     req_tools := None; req_tool_choice := None |}.

Section Turn.
(** Everything outside the process: the model behind the API, the web. *)
Variable World : Type.

(** [client.chat.completions.create] *)
Variable create : Request -> World -> outcome ApiMessage * World.

(** [json.loads] on the arguments of a tool call *)
Variable json_loads : string -> outcome decoded.

(** A registered callable: one argument, a text back or an exception. *)
Definition Tool : Type := pyval -> World -> outcome string * World.

Variable registry : Registry Tool.

(** The mutable state of a turn: the outside world, the history list,
    which is mutated in place and so outlives an exception, and the
    feedback list. *)
Record State : Type := {
  world : World;
  conversation_history : list Message;
  feedback_messages : list string
}.

Definition set_world (st : State) (w : World) : State :=
  {| world := w; conversation_history := conversation_history st;
     feedback_messages := feedback_messages st |}.

(** [conversation_history.append(m)] *)
Definition append_message (st : State) (m : Message) : State :=
  {| world := world st; conversation_history := conversation_history st ++ [m];
     feedback_messages := feedback_messages st |}.

(** [if show_feedback: feedback_messages.append(text)] *)
Definition feedback (show_feedback : bool) (st : State) (text : string) : State :=
  if show_feedback then
    {| world := world st; conversation_history := conversation_history st;
       feedback_messages := feedback_messages st ++ [text] |}
  else st.

(** Lines 34-95.  Everything after the prompt is inside [try]: a failed
    call and a response without text both end in the handler. *)
Definition route_query (query : string) (w : World) : list string * World :=
  match create (routing_request query) w with
  | (Raise _, w') => ([], w')
  | (Ret response, w') =>
      match am_content response with
      | None => ([], w')
      | Some text =>
          let routing_decision := Py.upper (Py.strip text) in
          let tools : list string := [] in
          let tools :=
            if Py.contains "WEB_SEARCH" routing_decision
            then (tools ++ ["web_search"])%list else tools in
          let tools :=
            if Py.contains "CALCULATE" routing_decision
            then (tools ++ ["calculate"])%list else tools in
          (tools, w')
      end
  end.

(** A call of a registry entry inside [try]: a missing entry is [None],
    and calling it raises. *)
Definition call_tool (f : option Tool) (arg : pyval) (w : World)
    : outcome string * World :=
  match f with
  | Some tool_function => tool_function arg w
  | None => (Raise "'NoneType' object is not callable", w)
  end.

(** [try: r = f(arg) except Exception as e: r = json.dumps({"error": ...})] *)
Definition call_caught (f : option Tool) (arg : pyval) (failed : string)
    (st : State) : string * State :=
  match call_tool f arg (world st) with
  | (Ret r, w') => (r, set_world st w')
  | (Raise e, w') => (error_json (failed ++ ": " ++ e), set_world st w')
  end.

(** What a turn leaves behind: the text it returns (or the exception that
    leaves it), and the state, whose history and feedback lists are the
    other two components of the returned tuple. *)
Record Turn : Type := {
  exit : Exit;
  response : outcome (option string);
  final : State
}.

(** The second completion call, lines 263-287, 386-409 and 469-492: the
    three copies differ in the feedback text and in the apology. *)
Definition second_call (show_feedback : bool) (failed apology : string)
    (done failed_exit : Exit) (st : State) : Turn :=
  match create (second_request (conversation_history st)) (world st) with
  | (Ret second_response, w') =>
      let final_response := am_content second_response in
      let st := append_message (set_world st w')
                  (text_message assistant final_response) in
      {| exit := done; response := Ret final_response; final := st |}
  | (Raise e, w') =>
      let st := feedback show_feedback (set_world st w') (failed ++ ": " ++ e) in
      {| exit := failed_exit; response := Ret (Some apology); final := st |}
  end.

(** The body of the loop of lines 208-260 for one tool call.  The first
    component is the exception that leaves the loop, if any: decoding the
    arguments is outside every [try]. *)
Definition process_tool_call (show_feedback : bool) (tool_call : ToolCall)
    (st : State) : option string * State :=
  let function_name := tc_name tool_call in
  match get_tool_function registry function_name with
  | None =>
      (None, feedback show_feedback st ("Unknown tool called: " ++ function_name))
  | Some tool_function =>
      match json_loads (tc_arguments tool_call) with
      | Raise e => (Some e, st)
      | Ret function_args =>
          if String.eqb function_name "web_search" then
            match args_get function_args "query" with
            | Raise e => (Some e, st)
            | Ret query =>
                let st := feedback show_feedback st
                  ("Assistant is using WebSearch, query is " ++ dq ++ py_str query ++ dq) in
                let (function_response, st) :=
                  call_caught (Some tool_function) query "Search failed" st in
                (None, append_message st
                         (tool_message (tc_id tool_call) function_name function_response))
            end
          else if String.eqb function_name "calculate" then
            match args_get function_args "expression" with
            | Raise e => (Some e, st)
            | Ret expression =>
                let st := feedback show_feedback st
                  ("Assistant is using Calculator, expression is "
                     ++ dq ++ py_str expression ++ dq) in
                let (function_response, st) :=
                  call_caught (Some tool_function) expression "Calculation failed" st in
                (None, append_message st
                         (tool_message (tc_id tool_call) function_name function_response))
            end
          else
            let function_response := error_json ("Unknown function: " ++ function_name) in
            let st := feedback show_feedback st
              ("Unknown function called: " ++ function_name) in
            (None, append_message st
                     (tool_message (tc_id tool_call) function_name function_response))
      end
  end.

Fixpoint process_tool_calls (show_feedback : bool) (tool_calls : list ToolCall)
    (st : State) : option string * State :=
  match tool_calls with
  | [] => (None, st)
  | tool_call :: rest =>
      match process_tool_call show_feedback tool_call st with
      | (Some e, st') => (Some e, st')
      | (None, st') => process_tool_calls show_feedback rest st'
      end
  end.

(** [arguments.get(key, "")] on the dictionary of the detector; on [None]
    the attribute lookup raises. *)
Definition detected_get (arguments : option (dict string)) (key : string)
    : outcome string :=
  match arguments with
  | Some d => Ret (match get d key with Some v => v | None => EmptyString end)
  | None => Raise "'NoneType' object has no attribute 'get'"
  end.

(** Lines 307-344 and 346-383: the tool is called, then the synthetic
    tool call and its result are appended. *)
Definition run_detected_tool (show_feedback : bool) (tool_name display parameter
    failed call_id : string) (value : string) (st : State) : State :=
  let st := feedback show_feedback st
    ("Assistant is using " ++ display ++ " via text pattern, " ++ parameter
       ++ " is " ++ dq ++ value ++ dq) in
  let st := feedback show_feedback st "Converting text pattern to proper tool call" in
  let (results, st) :=
    call_caught (get_tool_function registry tool_name) (PyStr value) failed st in
  let st := append_message st
    (tool_call_message call_id tool_name (args_json parameter value)) in
  append_message st (tool_message call_id tool_name results).

(** Lines 295-409: the branch of a text-detected tool call. *)
Definition text_detected_branch (show_feedback : bool) (tool_name : string)
    (arguments : option (dict string)) (st : State) : Turn :=
  let after_tool : outcome State :=
    if String.eqb tool_name "web_search" then
      match detected_get arguments "query" with
      | Raise e => Raise e
      | Ret query =>
          Ret (run_detected_tool show_feedback "web_search" "WebSearch" "query"
                 "Search failed" "manual_web_search_call" query st)
      end
    else if String.eqb tool_name "calculate" then
      match detected_get arguments "expression" with
      | Raise e => Raise e
      | Ret expression =>
          Ret (run_detected_tool show_feedback "calculate" "Calculator" "expression"
                 "Calculation failed" "manual_calculate_call" expression st)
      end
    else Ret st in
  match after_tool with
  | Raise e => {| exit := Uncaught; response := Raise e; final := st |}
  | Ret st =>
      second_call show_feedback "Error in second API call after text tool detection"
        apology_results TextDetected TextSecondFailed st
  end.

(** Lines 420-458: the forced web search on the user's own text. *)
Definition force_web_search (show_feedback : bool) (user_prompt : string)
    (st : State) : State :=
  let search_query := user_prompt in
  let (search_results, st) :=
    call_caught (get_tool_function registry "web_search") (PyStr search_query)
      "Search failed" st in
  let st := feedback show_feedback st
    ("Forcing WebSearch, query is " ++ dq ++ search_query ++ dq) in
  let st := append_message st
    (tool_call_message "forced_web_search_call" "web_search"
       (args_json "query" search_query)) in
  append_message st (tool_message "forced_web_search_call" "web_search" search_results).

(** Lines 494-505. *)
Definition direct_answer (show_feedback : bool) (suggested_tools : list string)
    (content : string) (st : State) : Turn :=
  let st :=
    match suggested_tools with
    | [] => st
    | _ => feedback show_feedback st "No tools were used despite routing suggestion"
    end in
  let st := append_message st (text_message assistant (Some content)) in
  {| exit := Direct; response := Ret (Some content); final := st |}.

(** Lines 411-505: no structured and no text-detected tool call. *)
Definition undetected_branch (show_feedback : bool) (user_prompt : string)
    (suggested_tools : list string) (content : string) (st : State) : Turn :=
  match suggested_tools with
  | [] => direct_answer show_feedback suggested_tools content st
  | primary_tool :: _ =>
      let st := feedback show_feedback st
        "Detected suggested tools weren't used. Forcing tool usage..." in
      if String.eqb primary_tool "web_search" then
        let st := force_web_search show_feedback user_prompt st in
        second_call show_feedback "Error in second API call after forced tool usage"
          apology_results Forced ForcedSecondFailed st
      else
        let st :=
          if String.eqb primary_tool "calculate" then
            feedback show_feedback st
              "Could not force calculator usage without a valid expression"
          else st in
        direct_answer show_feedback suggested_tools content st
  end.

(** A string that is neither [None] nor empty. *)
Definition truthy (s : option string) : option string :=
  match s with
  | Some EmptyString => None
  | other => other
  end.

(** Lines 97-505. *)
Definition run_conversation (user_prompt : string)
    (history : option (list Message)) (show_feedback : bool) (w : World) : Turn :=
  let st := {| world := w; conversation_history := initial_history history;
               feedback_messages := [] |} in
  let st := append_message st (text_message user (Some user_prompt)) in
  let (suggested_tools, w) := route_query user_prompt (world st) in
  let st := set_world st w in
  let st := feedback show_feedback st
    (match suggested_tools with
     | [] => "Routing decision: no_tool"
     | _ => "Routing decision: " ++ Py.join ", " suggested_tools
     end) in
  let tools := get_all_tool_definitions registry in
  let st :=
    match suggested_tools with
    | [only] => feedback show_feedback st ("Directing model to use " ++ only)
    | _ => st
    end in
  match create (first_request tools suggested_tools (conversation_history st))
          (world st) with
  | (Raise e, w) =>
      let st := feedback show_feedback (set_world st w) ("Error in API call: " ++ e) in
      {| exit := FirstCallFailed; response := Ret (Some apology_first_call);
         final := st |}
  | (Ret response_message, w) =>
      let st := set_world st w in
      match am_tool_calls response_message with
      | _ :: _ =>
          let st := append_message st (as_message response_message) in
          match process_tool_calls show_feedback (am_tool_calls response_message) st with
          | (Some e, st) => {| exit := Uncaught; response := Raise e; final := st |}
          | (None, st) =>
              second_call show_feedback "Error in second API call"
                apology_search_results Structured StructuredSecondFailed st
          end
      | [] =>
          match am_content response_message with
          | None =>
              {| exit := Uncaught;
                 response := Raise "expected string or bytes-like object, got 'NoneType'";
                 final := st |}
          | Some content =>
              let tool_call_info := detect_tool_call registry content in
              match truthy (tool_name tool_call_info) with
              | Some tool_name =>
                  text_detected_branch show_feedback tool_name
                    (arguments tool_call_info) st
              | None =>
                  undetected_branch show_feedback user_prompt suggested_tools content st
              end
          end
      end
  end.

(** Lines 523-535, without the terminal: the turns of a session on one
    history list, as long as no exception leaves a turn. *)
Fixpoint run_turns (prompts : list string) (history : option (list Message))
    (w : World) : list Message * World :=
  match prompts with
  | [] => (initial_history history, w)
  | user_input :: rest =>
      let t := run_conversation user_input history true w in
      match response t with
      | Ret _ => run_turns rest (Some (conversation_history (final t))) (world (final t))
      | Raise _ => (conversation_history (final t), world (final t))
      end
  end.
End Turn.

Arguments world {World} s.
Arguments conversation_history {World} s.
Arguments feedback_messages {World} s.
Arguments set_world {World} st w.
Arguments append_message {World} st m.
Arguments feedback {World} show_feedback st text.
Arguments exit {World} t.
Arguments response {World} t.
Arguments final {World} t.
Arguments route_query {World} create query w.
Arguments call_tool {World} f arg w.
Arguments call_caught {World} f arg failed st.
Arguments second_call {World} create show_feedback failed apology done failed_exit st.
Arguments process_tool_call {World} json_loads registry show_feedback tool_call st.
Arguments process_tool_calls {World} json_loads registry show_feedback tool_calls st.
Arguments run_detected_tool {World} registry show_feedback tool_name display parameter
  failed call_id value st.
Arguments text_detected_branch {World} create registry show_feedback tool_name arguments st.
Arguments force_web_search {World} registry show_feedback user_prompt st.
Arguments direct_answer {World} show_feedback suggested_tools content st.
Arguments undetected_branch {World} create registry show_feedback user_prompt
  suggested_tools content st.
Arguments run_conversation {World} create json_loads registry user_prompt history
  show_feedback w.
Arguments run_turns {World} create json_loads registry prompts history w.

(** *** The shape of a history, in the words of the specification *)

(** The ids an assistant message offers in its [tool_calls]. *)
Definition offered (m : Message) : list string :=
  match role m with
  | assistant => map tc_id (tool_calls m)
  | _ => []
  end.

Definition offered_before (h : list Message) : list string := flat_map offered h.

(** A tool message answers an id offered before it; any other message
    passes. *)
Definition answers (seen : list string) (m : Message) : bool :=
  match role m with
  | tool =>
      match tool_call_id m with
      | Some call_id => existsb (String.eqb call_id) seen
      | None => false
      end
  | _ => true
  end.

(** The same, the id being offered exactly once before it. *)
Definition answers_once (seen : list string) (m : Message) : bool :=
  match role m with
  | tool =>
      match tool_call_id m with
      | Some call_id => Nat.eqb (count_occ string_dec seen call_id) 1
      | None => false
      end
  | _ => true
  end.

(** Every message of [h] passes [check] against the ids offered before it,
    [seen] being those offered before [h]. *)
Fixpoint linked_by (check : list string -> Message -> bool) (seen : list string)
    (h : list Message) : bool :=
  match h with
  | [] => true
  | m :: h' => check seen m && linked_by check (seen ++ offered m) h'
  end.

(** Every tool message answers an id of a preceding assistant message. *)
Definition linked (h : list Message) : bool := linked_by answers [] h.

(** Every tool message answers exactly one such id. *)
Definition linked_once (h : list Message) : bool := linked_by answers_once [] h.

(** The role of the last message. *)
Definition last_role (h : list Message) : option Role :=
  match rev h with
  | [] => None
  | m :: _ => Some (role m)
  end.

(** *** A scripted world to run turns in

    The world is the list of answers the API has yet to give; a call takes
    the first, and fails when none is left.  The one tool returns a fixed
    text. *)
Definition Script : Type := list (outcome ApiMessage).

Definition scripted_create (_ : Request) (w : Script) : outcome ApiMessage * Script :=
  match w with
  | [] => (Raise "Connection error.", [])
  | answer :: w' => (answer, w')
  end.

Definition scripted_tool (_ : pyval) (w : Script) : outcome string * Script :=
  (Ret "No results found", w).

Definition scripted_registry : Registry (Tool Script) :=
  load_tools scripted_tool scripted_tool.

Definition says (text : string) : outcome ApiMessage :=
  Ret {| am_content := Some text; am_tool_calls := [] |}.

End Main.

(** ** What reaches the evaluator *)
Module Sandbox.

(** A character of the whitelist other than the caret: a digit, one of
    + - * / ( ) . %, or white space. *)
Definition evaluable (c : ascii) : bool :=
  Calculate.allowed c && negb (Ascii.eqb c "^").

(** A text of ASCII characters, on which the classes of the whitelist are
    those of Python's [\d] and [\s]. *)
Definition ascii_text (s : string) : bool :=
  Py.all_chars (fun c => Nat.ltb (Py.code c) 128) s.

(** A character of an expression without parentheses: a digit, one of
    + - * / . % ^, or white space. *)
Definition flat (c : ascii) : bool :=
  Py.isdigit c || Re.one_of "+-*/.%^" c || Py.isspace c.

End Sandbox.

(** ** Where a match can start *)
Module Starts.

(** The literal character a pattern must begin with, when it has one. *)
Fixpoint starts_with (r : Re.regex) : option ascii :=
  match r with
  | Re.Chr c => Some c
  | Re.Cat r1 _ => starts_with r1
  | Re.Group _ r1 => starts_with r1
  | _ => None
  end.

(** No character of the text is the character [c], up to case when [icase]
    is set. *)
Definition lacks (icase : bool) (c : ascii) (text : string) : bool :=
  Py.all_chars (fun d => negb (Re.chr_eq icase c d)) text.

End Starts.

(** ** The names of a registry *)
Module Names.

(** [list(d.keys())] *)
Definition keys {V : Type} (d : ToolManager.dict V) : list string := map fst d.

(** The two dictionaries of a registry hold the same names in the same
    order, each name once. *)
Definition consistent {F : Type} (r : ToolManager.Registry F) : Prop :=
  keys (ToolManager._tools r) = keys (ToolManager._tool_definitions r)
  /\ NoDup (keys (ToolManager._tools r)).

End Names.

(** ** [src/tools/web_search.py] *)
Module WebSearch.

(** A value [response.json()] can return.  A float is kept by the text
    [json.dumps] prints for it. *)
#[local] Unset Elimination Schemes.
Inductive json : Type :=
| JNull
| JBool (b : bool)
| JInt (z : Z)
| JFloat (repr : string)
| JStr (s : string)
| JArr (items : list json)
| JObj (entries : ToolManager.dict json).
#[local] Set Elimination Schemes.

(** [type(v).__name__] *)
Definition type_name (v : json) : string :=
  match v with
  | JNull => "NoneType"
  | JBool _ => "bool"
  | JInt _ => "int"
  | JFloat _ => "float"
  | JStr _ => "str"
  | JArr _ => "list"
  | JObj _ => "dict"
  end.

(** The line feed and the indentation [json.dumps] writes before an entry
    at a nesting level, under [indent=2]. *)
Fixpoint spaces (n : nat) : string :=
  match n with
  | O => EmptyString
  | S n' => String " " (spaces n')
  end.

Definition newline_indent (level : nat) : string := nl ++ spaces (2 * level).

(** [json.dumps(v, indent=2)], at a nesting level. *)
Fixpoint dumps_at (level : nat) (v : json) : string :=
  match v with
  | JNull => "null"
  | JBool true => "true"
  | JBool false => "false"
  | JInt z => NilEmpty.string_of_int (Z.to_int z)
  | JFloat repr => repr
  | JStr s => Json.dumps_str s
  | JArr [] => "[]"
  | JArr (x :: xs) =>
      "[" ++ newline_indent (S level) ++ dumps_at (S level) x
      ++ (fix more (l : list json) : string :=
            match l with
            | [] => EmptyString
            | y :: l' =>
                "," ++ newline_indent (S level) ++ dumps_at (S level) y ++ more l'
            end) xs
      ++ newline_indent level ++ "]"
  | JObj [] => "{}"
  | JObj ((k, x) :: es) =>
      "{" ++ newline_indent (S level) ++ Json.dumps_str k ++ ": " ++ dumps_at (S level) x
      ++ (fix more (l : list (string * json)) : string :=
            match l with
            | [] => EmptyString
            | (k', y) :: l' =>
                "," ++ newline_indent (S level) ++ Json.dumps_str k' ++ ": "
                ++ dumps_at (S level) y ++ more l'
            end) es
      ++ newline_indent level ++ "}"
  end.

Definition dumps (v : json) : string := dumps_at 0 v.

(** The exceptions Python raises when a value of the response has another
    type than the code expects. *)
Inductive py_error : Type :=
| NotContainer (type_name : string)          (* [x in v] on a value that holds nothing *)
| BadIndex (type_name : string)              (* [v['items']] on a list or a string *)
| NotIterable (type_name : string)           (* [for item in v] *)
| NoAttribute (type_name attribute : string).  (* [item.get] *)

(** The characters of a string, each as a string. *)
Fixpoint chars (s : string) : list string :=
  match s with
  | EmptyString => []
  | String c s' => String c EmptyString :: chars s'
  end.

Definition missing_key : string :=
  "Error: Google Search API key is missing. Please add GOOGLE_SEARCH_API to your .env file.".

Definition missing_engine : string :=
  "Error: Google Custom Search Engine ID is missing. Please add GOOGLE_CSE_ID to your .env file.".

Definition url : string := "https://www.googleapis.com/customsearch/v1".

Section WebSearch.
Variable World : Type.

(** [os.environ.get] *)
Variable environ : string -> option string.

(** [requests.get(url, params=params)], [raise_for_status()] and [json()]:
    the decoded body, or the [str()] of what one of the three raised. *)
Variable http_get_json :
  string -> ToolManager.dict Main.pyval -> World -> outcome json * World.

(** [str(e)] for the exceptions of [py_error]; the wording is Python's. *)
Variable str_of : py_error -> string.

(** ['items' in search_results] *)
Definition has_items (search_results : json) : outcome bool :=
  match search_results with
  | JObj d => Ret (ToolManager.has d "items")
  | JArr l =>
      Ret (existsb (fun x => match x with
                             | JStr s => String.eqb s "items"
                             | _ => false
                             end) l)
  | JStr s => Ret (Py.contains "items" s)
  | other => Raise (str_of (NotContainer (type_name other)))
  end.

(** [search_results['items']], once the test above has passed *)
Definition get_items (search_results : json) : outcome json :=
  match search_results with
  | JObj d =>
      match ToolManager.get d "items" with
      | Some items => Ret items
      | None => Raise "'items'"
      end
  | other => Raise (str_of (BadIndex (type_name other)))
  end.

(** What [for item in items] goes through: the elements of a list, the keys
    of a dictionary, the characters of a string. *)
Definition iterate (items : json) : outcome (list json) :=
  match items with
  | JArr l => Ret l
  | JObj d => Ret (map (fun entry => JStr (fst entry)) d)
  | JStr s => Ret (map JStr (chars s))
  | other => Raise (str_of (NotIterable (type_name other)))
  end.

(** [item.get(key, '')] on a dictionary *)
Definition get_or_empty (d : ToolManager.dict json) (key : string) : json :=
  match ToolManager.get d key with
  | Some v => v
  | None => JStr EmptyString
  end.

(** Lines 41-45: the three fields of one item. *)
Definition format_item (item : json) : outcome json :=
  match item with
  | JObj d =>
      Ret (JObj [ ("title", get_or_empty d "title");
                  ("link", get_or_empty d "link");
                  ("snippet", get_or_empty d "snippet") ])
  | other => Raise (str_of (NoAttribute (type_name other) "get"))
  end.

(** Lines 38-45: the loop, left at the first item that raises. *)
Fixpoint format_items (items : list json) : outcome (list json) :=
  match items with
  | [] => Ret []
  | item :: rest =>
      match format_item item with
      | Raise e => Raise e
      | Ret formatted =>
          match format_items rest with
          | Raise e => Raise e
          | Ret formatted_rest => Ret (formatted :: formatted_rest)
          end
      end
  end.

(** Lines 36-49, inside [try]: from the decoded body to the returned text. *)
Definition format_results (search_results : json) : outcome string :=
  match has_items search_results with
  | Raise e => Raise e
  | Ret false => Ret "No results found"
  | Ret true =>
      match get_items search_results with
      | Raise e => Raise e
      | Ret items =>
          match iterate items with
          | Raise e => Raise e
          | Ret item_list =>
              match format_items item_list with
              | Raise e => Raise e
              | Ret formatted_results => Ret (dumps (JArr formatted_results))
              end
          end
      end
  end.

(** An item as lines 41-45 build it: the three fields, in this order. *)
Definition three_fields (v : json) : Prop :=
  exists title link snippet,
    v = JObj [("title", title); ("link", link); ("snippet", snippet)].

(** A string that is neither [None] nor empty. *)
Definition configured (value : option string) : option string :=
  match value with
  | Some EmptyString => None
  | other => other
  end.

(** Lines 5-51. *)
Definition web_search (query : Main.pyval) (w : World) : string * World :=
  match configured (environ "GOOGLE_SEARCH_API") with
  | None => (missing_key, w)
  | Some GOOGLE_API_KEY =>
      match configured (environ "GOOGLE_CSE_ID") with
      | None => (missing_engine, w)
      | Some GOOGLE_CSE_ID =>
          let params :=
            [ ("q", query); ("key", Main.PyStr GOOGLE_API_KEY);
              ("cx", Main.PyStr GOOGLE_CSE_ID); ("num", Main.PyOther "5") ] in
          match http_get_json url params w with
          | (Raise e, w') => ("Search failed: " ++ e, w')
          | (Ret search_results, w') =>
              match format_results search_results with
              | Raise e => ("Search failed: " ++ e, w')
              | Ret text => (text, w')
              end
          end
      end
  end.

(** The function as the registry holds it. *)
Definition web_search_tool : Main.Tool World :=
  fun query w => let (text, w') := web_search query w in (Ret text, w').
End WebSearch.

End WebSearch.

(** ** The terminal loop of [src/main.py] *)
Module Cli.

(** What the loop writes: a line through [print], or the prompt of
    [input]. *)
Inductive output : Type :=
| Print (line : string)
| Prompt (text : string).

Definition cli_system_prompt : string :=
  "You are a helpful AI assistant with web search and calculation capabilities. "
  ++ "When the user asks for information that requires current data or facts, "
  ++ "use the web_search function. For mathematical calculations, use the calculate function.".

(** [user_input.lower() in ["exit", "quit", "bye"]] *)
Definition is_exit (user_input : string) : bool :=
  existsb (String.eqb (Py.lower user_input)) ["exit"; "quit"; "bye"].

(** [str(response)] in the f-string of line 535 *)
Definition str_of_response (response : option string) : string :=
  match response with
  | Some text => text
  | None => "None"
  end.

Section Cli.
Variable World : Type.
Variable create : Main.Request -> World -> outcome Main.ApiMessage * World.
Variable json_loads : string -> outcome Main.decoded.
Variable registry : ToolManager.Registry (Main.Tool World).

(** A run of the program: what it wrote, how it ended ([Raise] when an
    exception left it), and the history and the world it ended with. *)
Record Session : Type := {
  written : list output;
  ending : outcome unit;
  session_history : list Main.Message;
  session_world : World
}.

(** Lines 523-535 on the lines the user types; [input] raises when none is
    left. *)
Fixpoint loop (inputs : list string) (conversation_history : list Main.Message)
    (out : list output) (w : World) : Session :=
  match inputs with
  | [] =>
      {| written := out ++ [Prompt "You: "];
         ending := Raise "EOF when reading a line";
         session_history := conversation_history; session_world := w |}
  | user_input :: rest =>
      let out := (out ++ [Prompt "You: "])%list in
      if is_exit user_input then
        {| written := out ++ [Print "Assistant: Goodbye!"]; ending := Ret tt;
           session_history := conversation_history; session_world := w |}
      else
        let t := Main.run_conversation create json_loads registry user_input
                   (Some conversation_history) true w in
        match Main.response t with
        | Raise e =>
            {| written := out; ending := Raise e;
               session_history := Main.conversation_history (Main.final t);
               session_world := Main.world (Main.final t) |}
        | Ret response =>
            let out :=
              (out ++ map (fun message => Print ("[System] " ++ message))
                        (Main.feedback_messages (Main.final t))
                   ++ [Print ("Assistant: " ++ str_of_response response)])%list in
            loop rest (Main.conversation_history (Main.final t)) out
              (Main.world (Main.final t))
        end
  end.

(** Lines 507-535. *)
Definition main (inputs : list string) (w : World) : Session :=
  loop inputs
    [Main.text_message Main.system (Some cli_system_prompt)]
    [ Print "Welcome to Groq Assistant CLI! Type 'exit' to quit.";
      Print "Assistant: Hello! How can I assist you today?" ]
    w.
End Cli.

Arguments written {World} s.
Arguments ending {World} s.
Arguments session_history {World} s.
Arguments session_world {World} s.
Arguments loop {World} create json_loads registry inputs conversation_history out w.
Arguments main {World} create json_loads registry inputs w.

End Cli.

(** ** Counting the completion calls

    The world paired with the number of calls of the API made so far; the
    tools act on the world and leave the number alone. *)
Module Counting.

Section Counting.
Variable World : Type.

Definition counting_create
    (create : Main.Request -> World -> outcome Main.ApiMessage * World)
    (request : Main.Request) (cw : nat * World)
    : outcome Main.ApiMessage * (nat * World) :=
  let (r, w') := create request (snd cw) in (r, (S (fst cw), w')).

Definition counting_tool (tool_function : Main.Tool World) : Main.Tool (nat * World) :=
  fun arg cw => let (r, w') := tool_function arg (snd cw) in (r, (fst cw, w')).

Definition counting_registry (registry : ToolManager.Registry (Main.Tool World))
    : ToolManager.Registry (Main.Tool (nat * World)) :=
  {| ToolManager._tools :=
       map (fun entry => (fst entry, counting_tool (snd entry)))
           (ToolManager._tools registry);
     ToolManager._tool_definitions := ToolManager._tool_definitions registry |}.
End Counting.

Arguments counting_create {World} create request cw.
Arguments counting_tool {World} tool_function arg cw.
Arguments counting_registry {World} registry.

End Counting.

(** ** The turn in two parts *)
Module Turns.

(** Lines 142-162: the feedback a turn has written before its first
    completion call. *)
Definition routing_feedback (show_feedback : bool) (suggested_tools : list string)
    : list string :=
  if show_feedback then
    List.app
      (match suggested_tools with
       | [] => ["Routing decision: no_tool"]
       | _ => ["Routing decision: " ++ Py.join ", " suggested_tools]
       end)
      (match suggested_tools with
       | [only] => ["Directing model to use " ++ only]
       | _ => []
       end)
  else [].

Section Turns.
Variable World : Type.
Variable create : Main.Request -> World -> outcome Main.ApiMessage * World.
Variable json_loads : string -> outcome Main.decoded.
Variable registry : ToolManager.Registry (Main.Tool World).

(** The state of a turn when the first completion call is made. *)
Definition before_first_call (user_prompt : string) (history : option (list Main.Message))
    (show_feedback : bool) (suggested_tools : list string) (w : World)
    : Main.State World :=
  {| Main.world := w;
     Main.conversation_history :=
       Main.initial_history history ++ [Main.text_message Main.user (Some user_prompt)];
     Main.feedback_messages := routing_feedback show_feedback suggested_tools |}.

(** Lines 193-505: the turn from the outcome of the first completion call
    on. *)
Definition after_first_call (user_prompt : string) (show_feedback : bool)
    (suggested_tools : list string) (st : Main.State World)
    (first : outcome Main.ApiMessage * World) : Main.Turn World :=
  match first with
  | (Raise e, w) =>
      {| Main.exit := Main.FirstCallFailed;
         Main.response := Ret (Some Main.apology_first_call);
         Main.final := Main.feedback show_feedback (Main.set_world st w)
                         ("Error in API call: " ++ e) |}
  | (Ret response_message, w) =>
      let st := Main.set_world st w in
      match Main.am_tool_calls response_message with
      | _ :: _ =>
          let st := Main.append_message st (Main.as_message response_message) in
          match Main.process_tool_calls json_loads registry show_feedback
                  (Main.am_tool_calls response_message) st with
          | (Some e, st) =>
              {| Main.exit := Main.Uncaught; Main.response := Raise e; Main.final := st |}
          | (None, st) =>
              Main.second_call create show_feedback "Error in second API call"
                Main.apology_search_results Main.Structured Main.StructuredSecondFailed st
          end
      | [] =>
          match Main.am_content response_message with
          | None =>
              {| Main.exit := Main.Uncaught;
                 Main.response :=
                   Raise "expected string or bytes-like object, got 'NoneType'";
                 Main.final := st |}
          | Some content =>
              let tool_call_info := ToolManager.detect_tool_call registry content in
              match Main.truthy (ToolManager.tool_name tool_call_info) with
              | Some tool_name =>
                  Main.text_detected_branch create registry show_feedback tool_name
                    (ToolManager.arguments tool_call_info) st
              | None =>
                  Main.undetected_branch create registry show_feedback user_prompt
                    suggested_tools content st
              end
          end
      end
  end.
End Turns.

(** The feedback list of [st'] is that of [st] followed by [more], and by
    nothing when feedback is off. *)
Definition grew {World : Type} (show_feedback : bool) (st st' : Main.State World) : Prop :=
  exists more,
    Main.feedback_messages st' = (Main.feedback_messages st ++ more)%list
    /\ (show_feedback = false -> more = []).

Arguments before_first_call {World} user_prompt history show_feedback suggested_tools w.
Arguments after_first_call {World} create json_loads registry user_prompt show_feedback
  suggested_tools st first.

End Turns.

(** ** The order of the patterns *)
Module Order.

(** Lines 115-122: the tool a match of a standard pattern names, its first
    group lower-cased and taken through the table of variations. *)
Definition named_tool (m : Re.rmatch) : string :=
  let tool_name := Py.lower (Re.group m 1) in
  if existsb (String.eqb tool_name) ["websearch"; "search"; "googlesearch"]
  then "web_search"
  else if existsb (String.eqb tool_name) ["calc"; "calculator"]
  then "calculate"
  else tool_name.

(** The pattern finds nothing in the text, or what it finds names no
    registered tool among the two the loop knows. *)
Definition passed_over {F : Type} (registry : ToolManager.Registry F) (text : string)
    (p : ToolManager.pattern) : bool :=
  match Re.search true (ToolManager.re p) text with
  | None => true
  | Some m =>
      negb (ToolManager.has (ToolManager._tools registry) (named_tool m)
            && (String.eqb (named_tool m) "web_search"
                || String.eqb (named_tool m) "calculate"))
  end.

(** The patterns whose matches reach line 114 without a special case: all
    but the two first-person ones. *)
Definition standard_patterns : list ToolManager.pattern :=
  [ ToolManager.p_function_bracket; ToolManager.p_function_bracket_closed;
    ToolManager.p_function_brace; ToolManager.p_function_call; ToolManager.p_call;
    ToolManager.p_tool_tag; ToolManager.p_using; ToolManager.p_let_me_use ].

End Order.

(** * Properties *)

(** ** The matcher *)
Section MatcherFacts.
Context {A : Type}.

(** A successful repetition ends in a successful continuation. *)
Lemma star_greedy_some (p : ascii -> bool) (k : nat -> string -> option A) :
  forall s pos a,
    Re.star_greedy p k pos s = Some a -> exists pos' s', k pos' s' = Some a.
Proof.
  induction s as [|c s IH]; intros pos a H; simpl in H.
  - eauto.
  - destruct (p c); [|eauto].
    destruct (Re.star_greedy p k (S pos) s) eqn:E.
    + inversion H; subst. eapply IH; eassumption.
    + eauto.
Qed.

Lemma star_lazy_some (p : ascii -> bool) (k : nat -> string -> option A) :
  forall s pos a,
    Re.star_lazy p k pos s = Some a -> exists pos' s', k pos' s' = Some a.
Proof.
  induction s as [|c s IH]; intros pos a H; simpl in H.
  - destruct (k pos EmptyString) eqn:E; [inversion H; subst; eauto | discriminate].
  - destruct (k pos (String c s)) eqn:E; [inversion H; subst; eauto|].
    destruct (p c); [eapply IH; eassumption | discriminate].
Qed.

(** A greedy repetition followed by the end of the text matches exactly
    the texts made of the class, provided the class holds the line feed. *)
Lemma star_greedy_to_end (p : ascii -> bool) (k : nat -> string -> option A) :
  p "010"%char = true ->
  (forall pos s, k pos s <> None <-> Re.at_end s = true) ->
  forall s pos, Re.star_greedy p k pos s <> None <-> Py.all_chars p s = true.
Proof.
  intros Hnl Hk.
  induction s as [|c s IH]; intros pos; simpl.
  - rewrite Hk. simpl. tauto.
  - destruct (p c) eqn:Hc; simpl.
    + destruct (Re.star_greedy p k (S pos) s) eqn:E.
      * rewrite <- (IH (S pos)), E. split; intros _; discriminate.
      * rewrite Hk. rewrite <- (IH (S pos)), E.
        split; [|tauto]. intros Hend. exfalso.
        destruct s as [|d s]; [|simpl in Hend; discriminate].
        assert (Hfalse : Re.star_greedy p k (S pos) EmptyString <> None)
          by (simpl; apply Hk; reflexivity).
        apply Hfalse, E.
    + rewrite Hk. split; [|discriminate]. intros Hend. exfalso.
      destruct s as [|d s]; [|simpl in Hend; discriminate].
      simpl in Hend. apply Ascii.eqb_eq in Hend. subst c. congruence.
Qed.
End MatcherFacts.

(** ** [calculate] *)
Section CalculateFacts.
Variable pyobj : Type.
Variable py_eval : string -> outcome pyobj.
Variable json_dumps : pyobj -> outcome string.

(** The whitelist pattern of line 17 matches exactly the texts whose
    characters are all in the class. *)
Lemma whitelist_matches (expression : string) :
  Re.match_ false Calculate.whitelist expression <> None
  <-> Py.all_chars Calculate.allowed expression = true.
Proof.
  unfold Re.match_, Re.match_at, Calculate.whitelist. simpl.
  apply star_greedy_to_end.
  - reflexivity.
  - intros pos s. destruct (Re.at_end s); split; congruence.
Qed.

Lemma all_chars_false (p : ascii -> bool) (s : string) :
  (exists i c, String.get i s = Some c /\ p c = false) -> Py.all_chars p s = false.
Proof.
  intros (i & c & Hget & Hc). revert i Hget.
  induction s as [|d s IH]; intros i Hget; simpl in *; [discriminate|].
  destruct i as [|i].
  - inversion Hget; subst. rewrite Hc. reflexivity.
  - rewrite (IH i Hget). apply andb_false_r.
Qed.

Lemma calculate_rejected (expression : string) :
  Py.all_chars Calculate.allowed expression = false ->
  Calculate.calculate pyobj py_eval json_dumps expression = Calculate.error_json "Invalid characters in expression".
Proof.
  intros H. unfold Calculate.calculate.
  destruct (Re.match_ false Calculate.whitelist expression) eqn:E; [|reflexivity].
  assert (Hm : Re.match_ false Calculate.whitelist expression <> None) by congruence.
  apply whitelist_matches in Hm. congruence.
Qed.

Lemma calculate_accepted (expression : string) :
  Py.all_chars Calculate.allowed expression = true ->
  Calculate.calculate pyobj py_eval json_dumps expression =
    match py_eval (Py.replace "^"%char "**" expression) with
    | Raise e => Calculate.error_json ("Error calculating: " ++ e)
    | Ret result =>
        match json_dumps result with
        | Raise e => Calculate.error_json ("Error calculating: " ++ e)
        | Ret encoded => Json.dumps_obj1 "result" encoded
        end
    end.
Proof.
  intros H. apply whitelist_matches in H. unfold Calculate.calculate.
  destruct (Re.match_ false Calculate.whitelist expression); [reflexivity|congruence].
Qed.

Lemma replace_caret_free (s : string) :
  Py.mem_char "^"%char (Py.replace "^"%char "**" s) = false.
Proof.
  induction s as [|c s IH]; [reflexivity|].
  cbn [Py.replace]. destruct (Ascii.eqb c "^") eqn:E.
  - exact IH.
  - cbn [Py.mem_char]. rewrite Ascii.eqb_sym, E, IH. reflexivity.
Qed.
End CalculateFacts.

(** C7.  For every input string [calculate] returns a JSON object with a
    result key or with an error key: the function is total, since everything
    it does is inside [try], whatever the evaluator and the encoder do.  When
    the input holds a character outside the whitelist (digits, the operators
    + - * /, the parentheses, the dot, white space, the caret, the percent
    sign), what comes back is the error object of line 18. *)
Theorem calculate_result_or_error :
  forall (pyobj : Type) (py_eval : string -> outcome pyobj)
         (json_dumps : pyobj -> outcome string) (expression : string),
    (Json.has_key "result" (Calculate.calculate pyobj py_eval json_dumps expression)
     \/ Json.has_key "error" (Calculate.calculate pyobj py_eval json_dumps expression))
    /\ ((exists i c, String.get i expression = Some c /\ Calculate.allowed c = false) ->
        Calculate.calculate pyobj py_eval json_dumps expression
        = Json.dumps_obj1 "error" (Json.dumps_str "Invalid characters in expression")).
Proof.
  intros pyobj py_eval json_dumps expression. split.
  - destruct (Py.all_chars Calculate.allowed expression) eqn:Hall.
    + rewrite (calculate_accepted _ _ _ _ Hall).
      destruct (py_eval _) as [result|e]; [|right; eexists; reflexivity].
      destruct (json_dumps result) as [encoded|e].
      * left. exists encoded. reflexivity.
      * right. eexists. reflexivity.
    + right. rewrite (calculate_rejected _ _ _ _ Hall). eexists. reflexivity.
  - intros H. apply calculate_rejected, all_chars_false, H.
Qed.

Lemma calculate_result_or_error_witness :
  (exists i c, String.get i "2 + a" = Some c /\ Calculate.allowed c = false)
  /\ PyInt.calculate "2 + a"
     = Json.dumps_obj1 "error" (Json.dumps_str "Invalid characters in expression").
Proof.
  assert (H : exists i c, String.get i "2 + a" = Some c /\ Calculate.allowed c = false)
    by (exists 4, "a"%char; split; reflexivity).
  split; [exact H|].
  exact (proj2 (calculate_result_or_error Z PyInt.py_eval PyInt.json_dumps "2 + a") H).
Defined.

(** C10.  On a whitelisted input [calculate] evaluates the text in which
    every caret has been replaced by two stars, a text that holds no caret;
    so where Python gives 8 for the power of 2 to 3, the caret input 2^3
    comes back as the JSON object with result 8. *)
Theorem calculate_caret_is_power :
  forall (pyobj : Type) (py_eval : string -> outcome pyobj)
         (json_dumps : pyobj -> outcome string),
    (forall expression,
        Py.all_chars Calculate.allowed expression = true ->
        Calculate.calculate pyobj py_eval json_dumps expression
        = match py_eval (Py.replace "^"%char "**" expression) with
          | Raise e => Calculate.error_json ("Error calculating: " ++ e)
          | Ret result =>
              match json_dumps result with
              | Raise e => Calculate.error_json ("Error calculating: " ++ e)
              | Ret encoded => Json.dumps_obj1 "result" encoded
              end
          end)
    /\ (forall expression,
           Py.mem_char "^"%char (Py.replace "^"%char "**" expression) = false)
    /\ (forall eight,
           py_eval "2**3" = Ret eight ->
           json_dumps eight = Ret "8" ->
           Calculate.calculate pyobj py_eval json_dumps "2^3"
           = "{" ++ dq ++ "result" ++ dq ++ ": 8}").
Proof.
  intros pyobj py_eval json_dumps. split; [|split].
  - apply calculate_accepted.
  - apply replace_caret_free.
  - intros eight Heval Hdumps.
    rewrite calculate_accepted by reflexivity.
    change (Py.replace "^"%char "**" "2^3") with "2**3".
    rewrite Heval, Hdumps. reflexivity.
Qed.

Lemma calculate_caret_is_power_witness :
  PyInt.py_eval "2**3" = Ret 8%Z
  /\ PyInt.json_dumps 8%Z = Ret "8"
  /\ PyInt.py_eval "2^3" = Ret 1%Z
  /\ PyInt.calculate "2^3" = "{" ++ dq ++ "result" ++ dq ++ ": 8}".
Proof.
  split; [reflexivity|]. split; [reflexivity|]. split; [reflexivity|].
  exact (proj2 (proj2 (calculate_caret_is_power Z PyInt.py_eval PyInt.json_dumps))
           8%Z eq_refl eq_refl).
Defined.

(** ** Groups that every match sets *)
Section GroupFacts.
Context {A : Type}.

(** A successful run hands its continuation every group the pattern is
    bound to set, on top of those already set. *)
Lemma run_sets_mandatory (icase : bool) (r : Re.regex) :
  forall pos s caps (k : nat -> string -> Re.captures -> option A) a,
    Re.run icase r pos s caps k = Some a ->
    exists pos' s' caps',
      k pos' s' caps' = Some a
      /\ forall n, In n (Re.mandatory r) \/ Re.lookup n caps <> None ->
                   Re.lookup n caps' <> None.
Proof.
  induction r as [c | neg p | | r1 IH1 r2 IH2 | r1 IH1 r2 IH2 | greedy neg p
                  | g r1 IH1 | | ];
    intros pos s caps k a H; simpl in H.
  - destruct s as [|d s]; [discriminate|].
    destruct (Re.chr_eq icase c d); [|discriminate].
    exists (S pos), s, caps. split; [exact H|]. intros n [[]|Hn]; exact Hn.
  - destruct s as [|d s]; [discriminate|].
    destruct (Re.cls_in icase neg p d); [|discriminate].
    exists (S pos), s, caps. split; [exact H|]. intros n [[]|Hn]; exact Hn.
  - exists pos, s, caps. split; [exact H|]. intros n [[]|Hn]; exact Hn.
  - apply IH1 in H. destruct H as (pos1 & s1 & caps1 & H & H1).
    apply IH2 in H. destruct H as (pos2 & s2 & caps2 & H & H2).
    exists pos2, s2, caps2. split; [exact H|].
    intros n [Hn|Hn]; apply H2.
    + simpl in Hn. apply in_app_or in Hn. destruct Hn as [Hn|Hn]; [|left; exact Hn].
      right. apply H1. left. exact Hn.
    + right. apply H1. right. exact Hn.
  - assert (Hin : forall n, In n (Re.mandatory (Re.Alt r1 r2)) ->
                            In n (Re.mandatory r1) /\ In n (Re.mandatory r2)).
    { intros n Hn. simpl in Hn. apply filter_In in Hn. destruct Hn as [Hn1 Hn2].
      split; [exact Hn1|]. apply existsb_exists in Hn2.
      destruct Hn2 as (m & Hm & Heq). apply Nat.eqb_eq in Heq. subst m. exact Hm. }
    destruct (Re.run icase r1 pos s caps k) eqn:E.
    + inversion H; subst. apply IH1 in E. destruct E as (pos1 & s1 & caps1 & E & H1).
      exists pos1, s1, caps1. split; [exact E|].
      intros n [Hn|Hn]; apply H1; [left; apply Hin, Hn | right; exact Hn].
    + apply IH2 in H. destruct H as (pos2 & s2 & caps2 & H & H2).
      exists pos2, s2, caps2. split; [exact H|].
      intros n [Hn|Hn]; apply H2; [left; apply Hin, Hn | right; exact Hn].
  - assert (Hk : exists pos' s', k pos' s' caps = Some a).
    { destruct greedy.
      - apply (star_greedy_some _ (fun pos' s' => k pos' s' caps) _ _ _ H).
      - apply (star_lazy_some _ (fun pos' s' => k pos' s' caps) _ _ _ H). }
    destruct Hk as (pos' & s' & Hk).
    exists pos', s', caps. split; [exact Hk|]. intros n [[]|Hn]; exact Hn.
  - apply IH1 in H. destruct H as (pos1 & s1 & caps1 & H & H1).
    eexists pos1, s1, _. split; [exact H|].
    intros n Hn. simpl. destruct (Nat.eqb n g) eqn:E; [discriminate|].
    apply H1. destruct Hn as [[Hn|Hn]|Hn].
    + subst. rewrite Nat.eqb_refl in E. discriminate.
    + left. exact Hn.
    + right. exact Hn.
  - destruct (Nat.eqb pos 0); [|discriminate].
    exists pos, s, caps. split; [exact H|]. intros n [[]|Hn]; exact Hn.
  - destruct (Re.at_end s); [|discriminate].
    exists pos, s, caps. split; [exact H|]. intros n [[]|Hn]; exact Hn.
Qed.
End GroupFacts.

Lemma match_at_sets_mandatory (icase : bool) (r : Re.regex) (pos : nat) (s : string)
    (m : Re.rmatch) :
  Re.match_at icase r pos s = Some m ->
  forall n, In n (Re.mandatory r) -> Re.group_set m n = true.
Proof.
  unfold Re.match_at. intros H n Hn.
  apply run_sets_mandatory in H. destruct H as (pos' & s' & caps' & H & Hcaps).
  inversion H; subst. unfold Re.group_set. simpl.
  specialize (Hcaps n (or_introl Hn)).
  destruct (Re.lookup n caps'); [reflexivity|congruence].
Qed.

(** [re.search] reports a match in which every such group took part. *)
Lemma search_sets_mandatory (icase : bool) (r : Re.regex) (text : string) (m : Re.rmatch) :
  Re.search icase r text = Some m ->
  forall n, In n (Re.mandatory r) -> Re.group_set m n = true.
Proof.
  unfold Re.search. generalize 0. induction text as [|c text IH]; intros pos H; simpl in H.
  - destruct (Re.match_at icase r pos EmptyString) eqn:E; [|discriminate].
    inversion H; subst. eapply match_at_sets_mandatory; eassumption.
  - destruct (Re.match_at icase r pos (String c text)) eqn:E.
    + inversion H; subst. eapply match_at_sets_mandatory; eassumption.
    + eapply IH; eassumption.
Qed.

(** The groups [detect_tool_call] reads are set by every match of the
    pattern it reads them from: group 1 always, group 2 where the pattern
    has two groups. *)
Lemma patterns_groups_set (p : ToolManager.pattern) (text : string) (m : Re.rmatch) :
  In p ToolManager.patterns ->
  Re.search true (ToolManager.re p) text = Some m ->
  Re.group_set m 1 = true
  /\ (2 <= Re.ngroups (ToolManager.re p) -> Re.group_set m 2 = true).
Proof.
  intros Hp Hm.
  assert (H := search_sets_mandatory _ _ _ _ Hm).
  simpl in Hp.
  repeat (destruct Hp as [Hp|Hp];
          [subst p; split;
           [apply H; vm_compute; auto
           | intros Hn; first [apply H; vm_compute; tauto | vm_compute in Hn; lia]]|]).
  contradiction.
Qed.

Lemma indicators_group_set (r : Re.regex) (text : string) (m : Re.rmatch) :
  In r ToolManager.search_indicators ->
  Re.search true r text = Some m -> Re.group_set m 1 = true.
Proof.
  intros Hr Hm.
  assert (H := search_sets_mandatory _ _ _ _ Hm).
  simpl in Hr.
  repeat (destruct Hr as [Hr|Hr]; [subst r; apply H; vm_compute; auto|]).
  contradiction.
Qed.

Lemma argument_groups_set (key args_text : string) (m : Re.rmatch) :
  Re.search false (ToolManager.keyed_value key) args_text = Some m
  \/ Re.search false ToolManager.first_quoted args_text = Some m ->
  Re.group_set m 1 = true.
Proof.
  intros [Hm|Hm]; apply (search_sets_mandatory _ _ _ _ Hm).
  - unfold ToolManager.keyed_value. simpl. apply in_or_app. right. simpl. auto.
  - simpl. auto.
Qed.

(** ** [detect_tool_call] *)
Section DetectFacts.
Context {F : Type}.
Variable registry : ToolManager.Registry F.

Lemma try_pattern_detection (text : string) (p : ToolManager.pattern)
    (r : ToolManager.DetectionResult) :
  ToolManager.try_pattern registry text p = Some r -> ToolManager.detection r.
Proof.
  unfold ToolManager.try_pattern, ToolManager.let_me_case, ToolManager.standard_case.
  destruct (Re.search true (ToolManager.re p) text) as [m|]; [|discriminate].
  repeat match goal with
         | |- context [if ?b then _ else _] => destruct b
         end;
    intros H; inversion H; subst; constructor.
Qed.

Lemma try_indicator_detection (text : string) (r : Re.regex)
    (d : ToolManager.DetectionResult) :
  ToolManager.try_indicator text r = Some d -> ToolManager.detection d.
Proof.
  unfold ToolManager.try_indicator.
  destruct (Re.search true r text) as [m|]; [|discriminate].
  intros H; inversion H; subst; constructor.
Qed.

Lemma first_return_in {X R : Type} (body : X -> option R) (xs : list X) (r : R) :
  ToolManager.first_return body xs = Some r -> exists x, In x xs /\ body x = Some r.
Proof.
  induction xs as [|x xs IH]; simpl; [discriminate|].
  destruct (body x) eqn:E.
  - intros H; inversion H; subst. exists x. auto.
  - intros H. destruct (IH H) as (y & Hy & Hb). exists y. auto.
Qed.

(** The loop returns what the first body that returns gives. *)
Lemma first_return_nth {X R : Type} (body : X -> option R) (xs : list X) :
  forall i x r,
    nth_error xs i = Some x ->
    body x = Some r ->
    (forall j y, j < i -> nth_error xs j = Some y -> body y = None) ->
    ToolManager.first_return body xs = Some r.
Proof.
  induction xs as [|x0 xs IH]; intros i x r Hnth Hbody Hbefore.
  - destruct i; discriminate.
  - destruct i as [|i]; simpl in *.
    + inversion Hnth; subst. rewrite Hbody. reflexivity.
    + rewrite (Hbefore 0 x0 (Nat.lt_0_succ i) eq_refl).
      apply (IH i x r Hnth Hbody).
      intros j y Hj Hy. apply (Hbefore (S j) y); [lia | exact Hy].
Qed.

Lemma detect_with_cases (candidates : list ToolManager.pattern) (text : string) :
  ToolManager.detection (ToolManager.detect_with registry candidates text)
  \/ ToolManager.detect_with registry candidates text = ToolManager.no_detection.
Proof.
  unfold ToolManager.detect_with.
  destruct (ToolManager.first_return _ candidates) as [r|] eqn:E1.
  - left. apply first_return_in in E1. destruct E1 as (p & _ & Hp).
    eapply try_pattern_detection, Hp.
  - destruct (ToolManager.first_return _ ToolManager.search_indicators) as [r|] eqn:E2.
    + left. apply first_return_in in E2. destruct E2 as (p & _ & Hp).
      eapply try_indicator_detection, Hp.
    + right. reflexivity.
Qed.
End DetectFacts.

(** C6.  The dictionary [detect_tool_call] returns is never partially
    filled: the tool name, the arguments and the matched text are all three
    present, or all three are [None]. *)
Theorem detect_tool_call_all_or_none :
  forall (F : Type) (registry : ToolManager.Registry F) (text : string),
    (exists name args original,
        ToolManager.tool_name (ToolManager.detect_tool_call registry text) = Some name
        /\ ToolManager.arguments (ToolManager.detect_tool_call registry text) = Some args
        /\ ToolManager.original_text (ToolManager.detect_tool_call registry text)
           = Some original)
    \/ (ToolManager.tool_name (ToolManager.detect_tool_call registry text) = None
        /\ ToolManager.arguments (ToolManager.detect_tool_call registry text) = None
        /\ ToolManager.original_text (ToolManager.detect_tool_call registry text) = None).
Proof.
  intros F registry text. unfold ToolManager.detect_tool_call.
  destruct (detect_with_cases registry ToolManager.patterns text) as [H|H].
  - left. destruct H; simpl; do 3 eexists; repeat split; reflexivity.
  - right. rewrite H. simpl. auto.
Qed.

(** C2, as stated, fails.  In the text below the first-person pattern
    matches, and with the generic call syntax tried last its payload would be
    returned; the source tries the generic call syntax fifth, before that
    pattern, and returns the payload of the call instead. *)
Lemma generic_call_is_not_last_resort :
  let registry := ToolManager.load_tools tt tt in
  let text := "I'll search for 'cats' search(dogs)" in
  Re.search true (ToolManager.re ToolManager.p_ill_search) text <> None
  /\ ToolManager.arguments (ToolManager.detect_tool_call_generic_last registry text)
     = Some [("query", "cats")]
  /\ ToolManager.arguments (ToolManager.detect_tool_call registry text)
     = Some [("query", "dogs")]
  /\ ToolManager.original_text (ToolManager.detect_tool_call registry text)
     = Some "search(dogs)"
  /\ ToolManager.try_pattern registry text ToolManager.p_call
     = Some (ToolManager.detect_tool_call registry text)
  /\ ToolManager.detect_tool_call registry text
     <> ToolManager.detect_tool_call_generic_last registry text.
Proof.
  cbv zeta. repeat split; try (vm_compute; reflexivity).
  - vm_compute. discriminate.
  - vm_compute. discriminate.
Qed.

(** The standard case, lines 114-164, read through the tool the match
    names. *)
Lemma standard_case_named {F : Type} (registry : ToolManager.Registry F)
    (p : ToolManager.pattern) (m : Re.rmatch) :
  Nat.leb 2 (Re.ngroups (ToolManager.re p)) = true ->
  ToolManager.standard_case registry p m
  = if ToolManager.has (ToolManager._tools registry) (Order.named_tool m) then
      if String.eqb (Order.named_tool m) "web_search" then
        Some (ToolManager.detected "web_search" "query"
                (ToolManager.extract_argument "query" (Re.group m 2)) m)
      else if String.eqb (Order.named_tool m) "calculate" then
        Some (ToolManager.detected "calculate" "expression"
                (ToolManager.extract_argument "expression" (Re.group m 2)) m)
      else None
    else None.
Proof.
  intros Hgroups. unfold ToolManager.standard_case. rewrite Hgroups. reflexivity.
Qed.

(** The body of the loop for a standard pattern is its standard case. *)
Lemma try_pattern_standard {F : Type} (registry : ToolManager.Registry F)
    (text : string) (p : ToolManager.pattern) :
  In p Order.standard_patterns ->
  Nat.leb 2 (Re.ngroups (ToolManager.re p)) = true
  /\ ToolManager.try_pattern registry text p
     = match Re.search true (ToolManager.re p) text with
       | None => None
       | Some m => ToolManager.standard_case registry p m
       end.
Proof.
  intros Hp. simpl in Hp.
  repeat (destruct Hp as [Hp|Hp];
          [subst p; split; [reflexivity|];
           unfold ToolManager.try_pattern;
           destruct (Re.search true _ text); reflexivity|]).
  contradiction.
Qed.

(** C2, amended.  The ten patterns are tried in the order of the source, in
    which the generic call syntax is the fifth; the result is that of the
    first pattern whose body returns.  A standard pattern is passed over, and
    the loop goes on, exactly when it finds nothing in the text or what it
    finds names no registered tool.  So when the generic call syntax finds a
    call of a registered tool and each of the four patterns before it is
    passed over, the result is that call, with the argument taken from its
    parentheses, whatever the five patterns after it match. *)
Theorem detect_tool_call_source_order :
  forall (F : Type) (registry : ToolManager.Registry F) (text : string),
    (forall i p r,
        nth_error ToolManager.patterns i = Some p ->
        ToolManager.try_pattern registry text p = Some r ->
        (forall j q, j < i -> nth_error ToolManager.patterns j = Some q ->
                     ToolManager.try_pattern registry text q = None) ->
        ToolManager.detect_tool_call registry text = r)
    /\ (forall p,
           In p Order.standard_patterns ->
           (ToolManager.try_pattern registry text p = None
            <-> Order.passed_over registry text p = true))
    /\ (forall m,
           Re.search true (ToolManager.re ToolManager.p_call) text = Some m ->
           ToolManager.has (ToolManager._tools registry) (Order.named_tool m) = true ->
           Forall (fun q => Order.passed_over registry text q = true)
             (firstn 4 ToolManager.patterns) ->
           (Order.named_tool m = "web_search" ->
            ToolManager.detect_tool_call registry text
            = {| ToolManager.tool_name := Some "web_search";
                 ToolManager.arguments :=
                   Some [("query", ToolManager.extract_argument "query" (Re.group m 2))];
                 ToolManager.original_text := Some (Re.m_whole m) |})
           /\ (Order.named_tool m = "calculate" ->
               ToolManager.detect_tool_call registry text
               = {| ToolManager.tool_name := Some "calculate";
                    ToolManager.arguments :=
                      Some [("expression",
                             ToolManager.extract_argument "expression" (Re.group m 2))];
                    ToolManager.original_text := Some (Re.m_whole m) |}))
    /\ nth_error ToolManager.patterns 4 = Some ToolManager.p_call
    /\ skipn 5 ToolManager.patterns
       = [ ToolManager.p_tool_tag; ToolManager.p_using; ToolManager.p_ill_search;
           ToolManager.p_let_me; ToolManager.p_let_me_use ].
Proof.
  intros F registry text.
  assert (Hfirst : forall i p r,
             nth_error ToolManager.patterns i = Some p ->
             ToolManager.try_pattern registry text p = Some r ->
             (forall j q, j < i -> nth_error ToolManager.patterns j = Some q ->
                          ToolManager.try_pattern registry text q = None) ->
             ToolManager.detect_tool_call registry text = r).
  { intros i p r Hnth Hbody Hbefore.
    unfold ToolManager.detect_tool_call, ToolManager.detect_with.
    rewrite (first_return_nth _ _ i p r Hnth Hbody Hbefore). reflexivity. }
  assert (Hpassed : forall p,
             In p Order.standard_patterns ->
             (ToolManager.try_pattern registry text p = None
              <-> Order.passed_over registry text p = true)).
  { intros p Hp.
    destruct (try_pattern_standard registry text p Hp) as [Hgroups Htry].
    rewrite Htry. unfold Order.passed_over.
    destruct (Re.search true (ToolManager.re p) text) as [m|]; [|tauto].
    rewrite (standard_case_named registry p m Hgroups).
    destruct (ToolManager.has (ToolManager._tools registry) (Order.named_tool m));
      destruct (String.eqb (Order.named_tool m) "web_search");
      destruct (String.eqb (Order.named_tool m) "calculate");
      simpl; split; intros H; first [reflexivity | discriminate H]. }
  split; [exact Hfirst|]. split; [exact Hpassed|].
  split; [|split; reflexivity].
  intros m Hm Hhas Hbefore.
  assert (Hnone : forall j q, j < 4 -> nth_error ToolManager.patterns j = Some q ->
                              ToolManager.try_pattern registry text q = None).
  { intros j q Hj Hq.
    assert (Hin : In q (firstn 4 ToolManager.patterns)).
    { do 4 (destruct j as [|j]; [inversion Hq; subst; simpl; auto|]). lia. }
    apply Hpassed.
    - simpl in Hin. simpl. tauto.
    - exact (proj1 (Forall_forall _ _) Hbefore q Hin). }
  assert (Htry : ToolManager.try_pattern registry text ToolManager.p_call
                 = ToolManager.standard_case registry ToolManager.p_call m).
  { rewrite (proj2 (try_pattern_standard registry text ToolManager.p_call
                      (or_intror (or_intror (or_intror (or_intror (or_introl eq_refl))))))).
    rewrite Hm. reflexivity. }
  rewrite (standard_case_named registry ToolManager.p_call m eq_refl), Hhas in Htry.
  split; intros Hname; rewrite Hname in Htry.
  - exact (Hfirst 4 ToolManager.p_call _ eq_refl Htry Hnone).
  - exact (Hfirst 4 ToolManager.p_call _ eq_refl Htry Hnone).
Qed.

Lemma detect_tool_call_source_order_witness :
  let registry := ToolManager.load_tools tt tt in
  let text := "calc(2+2) function foo(1)" in
  let m := {| Re.m_start := 0; Re.m_whole := "calc(2+2)";
              Re.m_caps := [(2, "2+2"); (1, "calc")] |} in
  Re.search true (ToolManager.re ToolManager.p_function_call) text
  = Some {| Re.m_start := 10; Re.m_whole := "function foo(1)";
            Re.m_caps := [(2, "1"); (1, "foo")] |}
  /\ ToolManager.try_pattern registry text ToolManager.p_function_call = None
  /\ ToolManager.detect_tool_call registry text
     = {| ToolManager.tool_name := Some "calculate";
          ToolManager.arguments :=
            Some [("expression", ToolManager.extract_argument "expression" (Re.group m 2))];
          ToolManager.original_text := Some (Re.m_whole m) |}.
Proof.
  cbv zeta. split; [vm_compute; reflexivity|]. split.
  - apply (proj1 (proj2 (detect_tool_call_source_order unit (ToolManager.load_tools tt tt)
                           "calc(2+2) function foo(1)"))).
    + simpl. auto.
    + vm_compute. reflexivity.
  - apply (proj1 (proj2 (proj2 (detect_tool_call_source_order unit
                                  (ToolManager.load_tools tt tt)
                                  "calc(2+2) function foo(1)")))
             {| Re.m_start := 0; Re.m_whole := "calc(2+2)";
                Re.m_caps := [(2, "2+2"); (1, "calc")] |}).
    + vm_compute. reflexivity.
    + vm_compute. reflexivity.
    + repeat constructor; vm_compute; reflexivity.
    + vm_compute. reflexivity.
Defined.

(** ** The turn *)
Section HistoryFacts.
Variable World : Type.

Lemma history_set_world (st : Main.State World) (w : World) :
  Main.conversation_history (Main.set_world st w)
  = Main.conversation_history st.
Proof. reflexivity. Qed.

Lemma history_feedback (show : bool) (st : Main.State World) (text : string) :
  Main.conversation_history (Main.feedback show st text)
  = Main.conversation_history st.
Proof. destruct show; reflexivity. Qed.

Lemma history_append (st : Main.State World) (m : Main.Message) :
  Main.conversation_history (Main.append_message st m)
  = (Main.conversation_history st ++ [m])%list.
Proof. reflexivity. Qed.

Lemma history_call_caught (f : option (Main.Tool World)) (arg : Main.pyval)
    (failed : string) (st : Main.State World) :
  Main.conversation_history (snd (Main.call_caught f arg failed st))
  = Main.conversation_history st.
Proof.
  unfold Main.call_caught.
  destruct (Main.call_tool f arg (Main.world st)) as [[r|e] w']; reflexivity.
Qed.
End HistoryFacts.

(** Name the result and the state of the tool call the goal runs, and keep
    the fact that the call left the history alone. *)
Ltac split_call_caught r st H :=
  match goal with
  | |- context [Main.call_caught ?f ?a ?msg ?s] =>
      pose proof (history_call_caught _ f a msg s) as H;
      destruct (Main.call_caught f a msg s) as [r st]
  end.

Section TurnFacts.
Variable World : Type.
Variable create : Main.Request -> World -> outcome Main.ApiMessage * World.
Variable json_loads : string -> outcome Main.decoded.
Variable registry : ToolManager.Registry (Main.Tool World).

(** The second call either appends its answer and returns it, or returns the
    apology and leaves the history as it was. *)
Lemma second_call_cases (show : bool) (failed apology : string)
    (done failed_exit : Main.Exit) (st : Main.State World) :
  (Main.exit (Main.second_call create show failed apology done failed_exit st)
   = done
   /\ exists answer,
       Main.response
         (Main.second_call create show failed apology done failed_exit st)
       = Ret answer
       /\ Main.conversation_history
            (Main.final
               (Main.second_call create show failed apology done failed_exit st))
          = (Main.conversation_history st
               ++ [Main.text_message Main.assistant answer])%list)
  \/ (Main.exit
        (Main.second_call create show failed apology done failed_exit st)
      = failed_exit
      /\ Main.response
           (Main.second_call create show failed apology done failed_exit st)
         = Ret (Some apology)
      /\ Main.conversation_history
           (Main.final
              (Main.second_call create show failed apology done failed_exit st))
         = Main.conversation_history st).
Proof.
  unfold Main.second_call.
  destruct (create _ (Main.world st)) as [[second_response|e] w'].
  - left. split; [reflexivity|]. eexists. split; reflexivity.
  - right. split; [reflexivity|]. split; [reflexivity|].
    simpl. rewrite history_feedback. reflexivity.
Qed.

(** One tool call appends nothing, or the tool message that carries its id. *)
Lemma process_tool_call_history (show : bool) (tool_call : Main.ToolCall)
    (st : Main.State World) :
  let st' := snd (Main.process_tool_call json_loads registry show tool_call st) in
  Main.conversation_history st' = Main.conversation_history st
  \/ exists result,
      Main.conversation_history st'
      = (Main.conversation_history st
           ++ [Main.tool_message (Main.tc_id tool_call) (Main.tc_name tool_call) result])%list.
Proof.
  unfold Main.process_tool_call.
  destruct (ToolManager.get_tool_function registry (Main.tc_name tool_call)) as [f|];
    [|left; apply history_feedback].
  destruct (json_loads (Main.tc_arguments tool_call)) as [function_args|e];
    [|left; reflexivity].
  destruct (String.eqb (Main.tc_name tool_call) "web_search").
  { destruct (Main.args_get function_args "query") as [query|e]; [|left; reflexivity].
    right.
    split_call_caught r s' Hc.
    exists r. simpl in *. rewrite Hc. rewrite history_feedback. reflexivity. }
  destruct (String.eqb (Main.tc_name tool_call) "calculate").
  { destruct (Main.args_get function_args "expression") as [expression|e];
      [|left; reflexivity].
    right.
    split_call_caught r s' Hc.
    exists r. simpl in *. rewrite Hc. rewrite history_feedback. reflexivity. }
  right. eexists. simpl. rewrite history_feedback. reflexivity.
Qed.
End TurnFacts.

(** ** Linked histories *)
Section LinkFacts.
Variable check : list string -> Main.Message -> bool.

Lemma linked_by_app (h1 h2 : list Main.Message) :
  forall seen,
    Main.linked_by check seen (h1 ++ h2)
    = Main.linked_by check seen h1
      && Main.linked_by check (seen ++ Main.offered_before h1) h2.
Proof.
  induction h1 as [|m h1 IH]; intros seen; simpl.
  - rewrite app_nil_r. reflexivity.
  - rewrite IH, app_assoc, andb_assoc. reflexivity.
Qed.
End LinkFacts.

Lemma offered_before_app (h1 h2 : list Main.Message) :
  Main.offered_before (h1 ++ h2) = (Main.offered_before h1 ++ Main.offered_before h2)%list.
Proof. apply flat_map_app. Qed.

Lemma answers_tool_message (seen : list string) (call_id tool_name result : string) :
  In call_id seen ->
  Main.answers seen (Main.tool_message call_id tool_name result) = true.
Proof.
  intros Hin. unfold Main.answers. simpl.
  apply existsb_exists. exists call_id. split; [exact Hin | apply String.eqb_refl].
Qed.

(** Tool messages that answer ids offered so far keep a history linked, and
    offer nothing themselves. *)
Lemma linked_add_tools (h added : list Main.Message) :
  Main.linked h = true ->
  Forall (fun m => exists call_id tool_name result,
                     m = Main.tool_message call_id tool_name result
                     /\ In call_id (Main.offered_before h)) added ->
  Main.linked (h ++ added) = true /\ Main.offered_before (h ++ added) = Main.offered_before h.
Proof.
  intros Hh Hadded. unfold Main.linked in *. rewrite linked_by_app, Hh. simpl.
  rewrite offered_before_app.
  induction Hadded as [|m added (call_id & tool_name & result & Hm & Hin) _ IH].
  - split; [reflexivity | apply app_nil_r].
  - subst m. destruct IH as [IH1 IH2]. simpl.
    rewrite answers_tool_message by exact Hin.
    rewrite app_nil_r. split; [exact IH1 | exact IH2].
Qed.

(** A message that is no tool message keeps a history linked. *)
Lemma linked_add_other (h : list Main.Message) (m : Main.Message) :
  Main.linked h = true -> Main.role m <> Main.tool -> Main.linked (h ++ [m]) = true.
Proof.
  intros Hh Hm. unfold Main.linked in *. rewrite linked_by_app, Hh. simpl.
  unfold Main.answers. destruct (Main.role m); try reflexivity. congruence.
Qed.

Section LoopFacts.
Variable World : Type.
Variable json_loads : string -> outcome Main.decoded.
Variable registry : ToolManager.Registry (Main.Tool World).

(** The loop over the tool calls appends tool messages only, each carrying
    the id of one of the calls. *)
Lemma process_tool_calls_history (show : bool) (tool_calls : list Main.ToolCall) :
  forall st : Main.State World,
  exists added,
    Main.conversation_history
      (snd (Main.process_tool_calls json_loads registry show tool_calls st))
    = (Main.conversation_history st ++ added)%list
    /\ Forall (fun m => exists tool_call result,
                          In tool_call tool_calls
                          /\ m = Main.tool_message (Main.tc_id tool_call)
                                   (Main.tc_name tool_call) result) added.
Proof.
  induction tool_calls as [|tool_call rest IH]; intros st; simpl.
  - exists []. split; [symmetry; apply app_nil_r | constructor].
  - pose proof (process_tool_call_history World json_loads registry show tool_call st) as H1.
    destruct (Main.process_tool_call json_loads registry show tool_call st) as [[e|] st'].
    + simpl in *. destruct H1 as [H1|[result H1]]; rewrite H1.
      * exists []. split; [symmetry; apply app_nil_r | constructor].
      * eexists. split; [reflexivity|]. constructor; [|constructor].
        exists tool_call, result. auto.
    + simpl in H1. destruct (IH st') as (added & Hadded & Hall).
      assert (Hall' : Forall (fun m => exists tc result,
                        In tc (tool_call :: rest)
                        /\ m = Main.tool_message (Main.tc_id tc) (Main.tc_name tc) result)
                      added).
      { eapply Forall_impl; [|exact Hall]. intros m (tc & r & Hin & Hm).
        exists tc, r. split; [right; exact Hin | exact Hm]. }
      rewrite Hadded. destruct H1 as [H1|[result H1]]; rewrite H1.
      * exists added. split; [reflexivity | exact Hall'].
      * exists (Main.tool_message (Main.tc_id tool_call) (Main.tc_name tool_call) result
                  :: added).
        split; [rewrite <- app_assoc; reflexivity|].
        constructor; [|exact Hall']. exists tool_call, result. split; [left|]; reflexivity.
Qed.
End LoopFacts.

Section BranchFacts.
Variable World : Type.
Variable create : Main.Request -> World -> outcome Main.ApiMessage * World.
Variable json_loads : string -> outcome Main.decoded.
Variable registry : ToolManager.Registry (Main.Tool World).

Lemma world_feedback (show : bool) (st : Main.State World) (text : string) :
  Main.world (Main.feedback show st text) = Main.world st.
Proof. destruct show; reflexivity. Qed.

(** The turn up to the first completion call, and the branch taken on its
    outcome. *)
Lemma run_conversation_unfold (user_prompt : string) (history : option (list Main.Message))
    (show : bool) (w : World) (suggested : list string) (w1 : World) :
  Main.route_query create user_prompt w = (suggested, w1) ->
  exists st1 : Main.State World,
    Main.conversation_history st1
    = (Main.initial_history history ++ [Main.text_message Main.user (Some user_prompt)])%list
    /\ Main.run_conversation create json_loads registry user_prompt history show w
       = match create (Main.first_request (ToolManager.get_all_tool_definitions registry)
                         suggested
                         (Main.initial_history history
                            ++ [Main.text_message Main.user (Some user_prompt)]))
                 w1 with
         | (Raise e, w2) =>
             {| Main.exit := Main.FirstCallFailed;
                Main.response := Ret (Some Main.apology_first_call);
                Main.final := Main.feedback show (Main.set_world st1 w2)
                                ("Error in API call: " ++ e) |}
         | (Ret response_message, w2) =>
             match Main.am_tool_calls response_message with
             | _ :: _ =>
                 match Main.process_tool_calls json_loads registry show
                         (Main.am_tool_calls response_message)
                         (Main.append_message (Main.set_world st1 w2)
                            (Main.as_message response_message)) with
                 | (Some e, st) =>
                     {| Main.exit := Main.Uncaught; Main.response := Raise e;
                        Main.final := st |}
                 | (None, st) =>
                     Main.second_call create show "Error in second API call"
                       Main.apology_search_results Main.Structured
                       Main.StructuredSecondFailed st
                 end
             | [] =>
                 match Main.am_content response_message with
                 | None =>
                     {| Main.exit := Main.Uncaught;
                        Main.response :=
                          Raise "expected string or bytes-like object, got 'NoneType'";
                        Main.final := Main.set_world st1 w2 |}
                 | Some content =>
                     match Main.truthy (ToolManager.tool_name
                                          (ToolManager.detect_tool_call registry content)) with
                     | Some tool_name =>
                         Main.text_detected_branch create registry show tool_name
                           (ToolManager.arguments
                              (ToolManager.detect_tool_call registry content))
                           (Main.set_world st1 w2)
                     | None =>
                         Main.undetected_branch create registry show user_prompt
                           suggested content (Main.set_world st1 w2)
                     end
                 end
             end
         end.
Proof.
  intros Hroute. unfold Main.run_conversation. simpl Main.world at 1.
  rewrite Hroute.
  match goal with
  | |- context [create (Main.first_request _ _ (Main.conversation_history ?s)) _] =>
      set (st1 := s)
  end.
  assert (Hh : Main.conversation_history st1
               = (Main.initial_history history
                    ++ [Main.text_message Main.user (Some user_prompt)])%list).
  { subst st1. destruct suggested as [|only [|other rest]];
      rewrite ?history_feedback; reflexivity. }
  assert (Hw : Main.world st1 = w1).
  { subst st1. destruct suggested as [|only [|other rest]];
      rewrite ?world_feedback; reflexivity. }
  exists st1. split; [exact Hh|]. rewrite Hh, Hw. reflexivity.
Qed.
End BranchFacts.

Section ShapeFacts.
Variable World : Type.
Variable create : Main.Request -> World -> outcome Main.ApiMessage * World.
Variable registry : ToolManager.Registry (Main.Tool World).

(** After a detection the tool is run and the second call is made on the
    history with the synthetic tool call and its result. *)
Lemma text_detected_shape (show : bool) (r : ToolManager.DetectionResult)
    (st : Main.State World) :
  ToolManager.detection r ->
  exists tool_name st' call_id args result,
    Main.truthy (ToolManager.tool_name r) = Some tool_name
    /\ Main.text_detected_branch create registry show tool_name
         (ToolManager.arguments r) st
       = Main.second_call create show "Error in second API call after text tool detection"
           Main.apology_results Main.TextDetected Main.TextSecondFailed st'
    /\ Main.conversation_history st'
       = (Main.conversation_history st
            ++ [Main.tool_call_message call_id tool_name args;
                Main.tool_message call_id tool_name result])%list.
Proof.
  intros [value m | value m]; simpl;
    [exists "web_search" | exists "calculate"];
    unfold Main.text_detected_branch, Main.run_detected_tool; simpl;
    split_call_caught results s' Hc;
    simpl in Hc; do 4 eexists; (split; [reflexivity|]); (split; [reflexivity|]);
    simpl; rewrite Hc, !history_feedback, <- app_assoc; reflexivity.
Qed.

(** With a web search first among the suggestions, the search is forced on
    the user's text and the second call is made. *)
Lemma undetected_forced (show : bool) (user_prompt : string) (rest : list string)
    (content : string) (st : Main.State World) :
  exists st' results,
    Main.undetected_branch create registry show user_prompt ("web_search" :: rest) content st
    = Main.second_call create show "Error in second API call after forced tool usage"
        Main.apology_results Main.Forced Main.ForcedSecondFailed st'
    /\ fst (Main.call_caught (ToolManager.get_tool_function registry "web_search")
              (Main.PyStr user_prompt) "Search failed"
              (Main.feedback show st
                 "Detected suggested tools weren't used. Forcing tool usage..."))
       = results
    /\ Main.conversation_history st'
       = (Main.conversation_history st
            ++ [Main.tool_call_message "forced_web_search_call" "web_search"
                  (Main.args_json "query" user_prompt);
                Main.tool_message "forced_web_search_call" "web_search" results])%list.
Proof.
  unfold Main.undetected_branch, Main.force_web_search. simpl.
  split_call_caught results s' Hc.
  simpl in Hc. do 2 eexists. split; [reflexivity|]. split; [reflexivity|].
  simpl. rewrite history_feedback, Hc, history_feedback, <- app_assoc. reflexivity.
Qed.

(** Otherwise the content of the first response is the answer. *)
Lemma undetected_direct (show : bool) (user_prompt : string) (suggested : list string)
    (content : string) (st : Main.State World) :
  hd_error suggested <> Some "web_search" ->
  exists st',
    Main.undetected_branch create registry show user_prompt suggested content st
    = {| Main.exit := Main.Direct; Main.response := Ret (Some content); Main.final := st' |}
    /\ Main.conversation_history st'
       = (Main.conversation_history st
            ++ [Main.text_message Main.assistant (Some content)])%list.
Proof.
  intros Hhd. unfold Main.undetected_branch, Main.direct_answer.
  destruct suggested as [|primary rest].
  - eexists. split; reflexivity.
  - destruct (String.eqb primary "web_search") eqn:E.
    + apply String.eqb_eq in E. subst. exfalso. apply Hhd. reflexivity.
    + eexists. split; [reflexivity|]. simpl.
      destruct (String.eqb primary "calculate"); rewrite !history_feedback; reflexivity.
Qed.
End ShapeFacts.

Lemma last_role_snoc (h : list Main.Message) (m : Main.Message) :
  Main.last_role (h ++ [m]) = Some (Main.role m).
Proof. unfold Main.last_role. rewrite rev_unit. reflexivity. Qed.

(** ** Case and white space *)

Lemma isspace_upper_char (c : ascii) : Py.isspace (Py.upper_char c) = Py.isspace c.
Proof. destruct c as [[] [] [] [] [] [] [] []]; vm_compute; reflexivity. Qed.

Lemma upper_lower_char (c : ascii) : Py.upper_char (Py.lower_char c) = Py.upper_char c.
Proof. destruct c as [[] [] [] [] [] [] [] []]; vm_compute; reflexivity. Qed.

Lemma lstrip_by_map (p : ascii -> bool) (f : ascii -> ascii) (s : string) :
  (forall c, p (f c) = p c) ->
  Py.lstrip_by p (Py.map_chars f s) = Py.map_chars f (Py.lstrip_by p s).
Proof.
  intros Hp. induction s as [|c s IH]; simpl; [reflexivity|].
  rewrite Hp. destruct (p c); [exact IH | reflexivity].
Qed.

Lemma rstrip_by_map (p : ascii -> bool) (f : ascii -> ascii) (s : string) :
  (forall c, p (f c) = p c) ->
  Py.rstrip_by p (Py.map_chars f s) = Py.map_chars f (Py.rstrip_by p s).
Proof.
  intros Hp. induction s as [|c s IH]; simpl; [reflexivity|].
  rewrite IH. destruct (Py.rstrip_by p s); simpl; [|reflexivity].
  rewrite Hp. destruct (p c); reflexivity.
Qed.

(** Stripping white space and changing case commute. *)
Lemma upper_strip (s : string) : Py.upper (Py.strip s) = Py.strip (Py.upper s).
Proof.
  unfold Py.upper, Py.strip, Py.strip_by.
  rewrite lstrip_by_map by apply isspace_upper_char.
  rewrite rstrip_by_map by apply isspace_upper_char. reflexivity.
Qed.

Lemma upper_lower (s : string) : Py.upper (Py.lower s) = Py.upper s.
Proof.
  unfold Py.upper, Py.lower.
  induction s as [|c s IH]; cbn [Py.map_chars]; [reflexivity|].
  rewrite upper_lower_char, IH. reflexivity.
Qed.

(** ** Substrings *)

Lemma append_assoc (a b c : string) : (a ++ b) ++ c = a ++ (b ++ c).
Proof. induction a as [|x a IH]; simpl; [reflexivity | rewrite IH; reflexivity]. Qed.

Lemma prefix_split (sub s : string) :
  String.prefix sub s = true <-> exists post, s = sub ++ post.
Proof.
  revert s. induction sub as [|c sub IH]; intros s.
  - destruct s; simpl; (split; [intros _; eexists; reflexivity | reflexivity]).
  - destruct s as [|d s]; simpl.
    + split; [discriminate | intros [post H]; discriminate].
    + destruct (ascii_dec c d) as [E|E].
      * subst d. rewrite IH. split; intros [post H]; exists post.
        -- rewrite H. reflexivity.
        -- inversion H. reflexivity.
      * split; [discriminate|]. intros [post H]. inversion H. congruence.
Qed.

(** [sub in s] holds exactly when [s] is cut into three pieces of which [sub]
    is the middle one. *)
Lemma contains_split (sub s : string) :
  Py.contains sub s = true <-> exists pre post, s = pre ++ sub ++ post.
Proof.
  induction s as [|c s IH]; cbn [Py.contains].
  - rewrite orb_false_r, prefix_split. split.
    + intros [post H]. exists "", post. exact H.
    + intros (pre & post & H). destruct pre as [|d pre]; [|discriminate].
      exists post. exact H.
  - rewrite orb_true_iff, prefix_split, IH. split.
    + intros [[post H] | (pre & post & H)].
      * exists "", post. exact H.
      * exists (String c pre), post. rewrite H. reflexivity.
    + intros (pre & post & H). destruct pre as [|d pre].
      * left. exists post. exact H.
      * right. inversion H. exists pre, post. reflexivity.
Qed.

Lemma map_chars_append (f : ascii -> ascii) (a b : string) :
  Py.map_chars f (a ++ b) = Py.map_chars f a ++ Py.map_chars f b.
Proof. induction a as [|c a IH]; simpl; [reflexivity | rewrite IH; reflexivity]. Qed.

Lemma map_chars_append_inv (f : ascii -> ascii) (a b s : string) :
  Py.map_chars f s = a ++ b ->
  exists a' b', s = a' ++ b' /\ Py.map_chars f a' = a /\ Py.map_chars f b' = b.
Proof.
  revert s. induction a as [|c a IH]; intros s H; simpl in H.
  - exists "", s. auto.
  - destruct s as [|d s]; [discriminate|]. simpl in H. inversion H; subst.
    destruct (IH s H2) as (a' & b' & Hs & Ha & Hb).
    exists (String d a'), b'. subst. auto.
Qed.

(** Stripping leaves a piece of the text. *)
Lemma lstrip_by_suffix (p : ascii -> bool) (s : string) :
  exists a, s = a ++ Py.lstrip_by p s.
Proof.
  induction s as [|c s IH]; simpl; [exists ""; reflexivity|].
  destruct (p c).
  - destruct IH as [a Ha]. exists (String c a). simpl. rewrite <- Ha. reflexivity.
  - exists "". reflexivity.
Qed.

Lemma rstrip_by_prefix (p : ascii -> bool) (s : string) :
  exists b, s = Py.rstrip_by p s ++ b.
Proof.
  induction s as [|c s IH]; simpl; [exists ""; reflexivity|].
  destruct IH as [b Hb].
  destruct (Py.rstrip_by p s) as [|d t].
  - destruct (p c); [exists (String c s) | exists s]; reflexivity.
  - exists b. simpl in *. rewrite <- Hb. reflexivity.
Qed.

(** Stripping stops at a character outside the class. *)
Lemma lstrip_by_keeps (p : ascii -> bool) (c : ascii) (a rest : string) :
  p c = false ->
  exists a', Py.lstrip_by p (a ++ String c rest) = a' ++ String c rest.
Proof.
  intros Hc. induction a as [|d a IH]; simpl.
  - rewrite Hc. exists "". reflexivity.
  - destruct (p d); [exact IH|]. exists (String d a). reflexivity.
Qed.

Lemma rstrip_by_keeps (p : ascii -> bool) (c : ascii) (a rest : string) :
  p c = false ->
  exists rest', Py.rstrip_by p (a ++ String c rest) = a ++ String c rest'.
Proof.
  intros Hc. induction a as [|d a IH]; simpl.
  - destruct (Py.rstrip_by p rest) as [|e t].
    + rewrite Hc. exists "". reflexivity.
    + exists (String e t). reflexivity.
  - destruct IH as [rest' H]. rewrite H.
    exists rest'. destruct a; reflexivity.
Qed.

(** A word that neither begins nor ends with white space is in the stripped
    text exactly when it is in the text. *)
Lemma contains_strip (first last : ascii) (middle s : string) :
  Py.isspace first = false ->
  Py.isspace last = false ->
  Py.contains (String first (middle ++ String last "")) (Py.strip s)
  = Py.contains (String first (middle ++ String last "")) s.
Proof.
  intros Hfirst Hlast.
  set (word := String first (middle ++ String last "")).
  apply eq_true_iff_eq. rewrite !contains_split. split.
  - intros (pre & post & H).
    unfold Py.strip, Py.strip_by in H.
    destruct (lstrip_by_suffix Py.isspace s) as [a Ha].
    destruct (rstrip_by_prefix Py.isspace (Py.lstrip_by Py.isspace s)) as [b Hb].
    exists (a ++ pre), (post ++ b).
    rewrite Ha, Hb, H. rewrite !append_assoc. reflexivity.
  - intros (pre & post & H). subst s. unfold word. simpl.
    destruct (lstrip_by_keeps Py.isspace first pre
                ((middle ++ String last "") ++ post) Hfirst) as [pre' Hl].
    unfold Py.strip, Py.strip_by. rewrite Hl.
    replace (pre' ++ String first ((middle ++ String last "") ++ post))
      with ((pre' ++ String first middle) ++ String last post)
      by (rewrite !append_assoc; reflexivity).
    destruct (rstrip_by_keeps Py.isspace last (pre' ++ String first middle) post Hlast)
      as [post' Hr].
    rewrite Hr. exists pre', post'.
    rewrite !append_assoc. reflexivity.
Qed.

(** The keyword is in the stripped, upper-cased text exactly when the text
    holds it in some letter case. *)
Lemma contains_upper_strip (first last : ascii) (middle text : string) :
  Py.isspace first = false ->
  Py.isspace last = false ->
  Py.contains (String first (middle ++ String last "")) (Py.upper (Py.strip text)) = true
  <-> exists pre keyword post,
        text = pre ++ keyword ++ post
        /\ Py.upper keyword = String first (middle ++ String last "").
Proof.
  intros Hfirst Hlast.
  rewrite upper_strip, contains_strip by assumption.
  rewrite contains_split. unfold Py.upper. split.
  - intros (pre & post & H).
    destruct (map_chars_append_inv _ _ _ _ H) as (pre' & rest & Htext & _ & Hrest).
    destruct (map_chars_append_inv _ _ _ _ Hrest) as (keyword & post' & Hr & Hk & _).
    exists pre', keyword, post'. subst. auto.
  - intros (pre & keyword & post & Htext & Hk). subst text.
    exists (Py.map_chars Py.upper_char pre), (Py.map_chars Py.upper_char post).
    rewrite !map_chars_append, Hk. reflexivity.
Qed.

(** C4.  When the completion call of [route_query] raises, or its response
    carries no text, the router returns the empty list and raises nothing.
    When it answers with a text, the list holds web_search exactly when the
    text holds the keyword WEB_SEARCH in some letter case, and calculate
    exactly when it holds CALCULATE in some letter case, each keyword on its
    own; so the list is one of the four: both tools, either one, or none. *)
Theorem route_query_fail_open :
  forall (World : Type)
         (create : Main.Request -> World -> outcome Main.ApiMessage * World)
         (query : string) (w : World),
    (forall e w',
        create (Main.routing_request query) w = (Raise e, w') ->
        Main.route_query create query w = ([], w'))
    /\ (forall response_message w',
           create (Main.routing_request query) w = (Ret response_message, w') ->
           Main.am_content response_message = None ->
           Main.route_query create query w = ([], w'))
    /\ (forall response_message text w',
           create (Main.routing_request query) w = (Ret response_message, w') ->
           Main.am_content response_message = Some text ->
           exists tools,
             Main.route_query create query w = (tools, w')
             /\ In tools [ []; ["web_search"]; ["calculate"]; ["web_search"; "calculate"] ]
             /\ (In "web_search" tools
                 <-> exists pre keyword post,
                       text = pre ++ keyword ++ post
                       /\ Py.upper keyword = "WEB_SEARCH")
             /\ (In "calculate" tools
                 <-> exists pre keyword post,
                       text = pre ++ keyword ++ post
                       /\ Py.upper keyword = "CALCULATE"))
    /\ (forall text text',
           Py.lower text = Py.lower text' ->
           Py.upper (Py.strip text) = Py.upper (Py.strip text')).
Proof.
  intros World create query w. split; [|split; [|split]].
  - intros e w' H. unfold Main.route_query. rewrite H. reflexivity.
  - intros response_message w' H Hnone. unfold Main.route_query.
    rewrite H, Hnone. reflexivity.
  - intros response_message text w' H Htext. unfold Main.route_query.
    rewrite H, Htext.
    pose proof (contains_upper_strip "W" "H" "EB_SEARC" text eq_refl eq_refl) as Hsearch.
    pose proof (contains_upper_strip "C" "E" "ALCULAT" text eq_refl eq_refl) as Hcalc.
    simpl append in Hsearch, Hcalc.
    destruct (Py.contains "WEB_SEARCH" (Py.upper (Py.strip text))) eqn:Es;
      destruct (Py.contains "CALCULATE" (Py.upper (Py.strip text))) eqn:Ec;
      eexists; (split; [reflexivity|]); simpl; (split; [auto 6|]);
      (split; [rewrite <- Hsearch | rewrite <- Hcalc]); split; intros Hin;
      first [ reflexivity
            | discriminate Hin
            | solve [auto]
            | repeat destruct Hin as [Hin|Hin]; solve [discriminate Hin | contradiction] ].
  - intros text text' H.
    rewrite !upper_strip, <- (upper_lower text), <- (upper_lower text'), H. reflexivity.
Qed.

Lemma route_query_fail_open_witness :
  Main.route_query Main.scripted_create "What is 17 * (3+2) today?" [] = ([], [])
  /\ (exists tools,
         Main.route_query Main.scripted_create "What is 17 * (3+2)?"
           [Main.says " tool: Calculate "] = (tools, [])
         /\ In tools [ []; ["web_search"]; ["calculate"]; ["web_search"; "calculate"] ]
         /\ (In "web_search" tools
             <-> exists pre keyword post,
                   " tool: Calculate " = pre ++ keyword ++ post
                   /\ Py.upper keyword = "WEB_SEARCH")
         /\ (In "calculate" tools
             <-> exists pre keyword post,
                   " tool: Calculate " = pre ++ keyword ++ post
                   /\ Py.upper keyword = "CALCULATE"))
  /\ Main.route_query Main.scripted_create "What is 17 * (3+2)?"
       [Main.says " tool: Calculate "] = (["calculate"], [])
  /\ Main.route_query Main.scripted_create "Who wrote Hamlet?" [Main.says "NO TOOL"]
     = ([], [])
  /\ Main.route_query Main.scripted_create "What is 17 * (3+2) today?"
       [Main.says "Tool: Web_Search, Calculate"] = (["web_search"; "calculate"], []).
Proof.
  split; [|split; [|repeat split; reflexivity]].
  - exact (proj1 (route_query_fail_open Main.Script Main.scripted_create
                    "What is 17 * (3+2) today?" [])
             "Connection error." [] eq_refl).
  - exact (proj1 (proj2 (proj2 (route_query_fail_open Main.Script Main.scripted_create
                                  "What is 17 * (3+2)?"
                                  [Main.says " tool: Calculate "])))
             _ " tool: Calculate " [] eq_refl eq_refl).
Defined.

(** C8, as stated, fails: with no tool suggested and with a tool suggested
    the first completion call names the same model. *)
Lemma general_model_is_tool_model :
  Main.select_model [] = Main.select_model ["web_search"]
  /\ Main.req_model (Main.first_request [] [] [])
     = Main.req_model (Main.first_request [] ["web_search"] []).
Proof. split; reflexivity. Qed.

(** C8, amended.  The model of the first completion call is chosen on
    whether the router suggested a tool: [GENERAL_MODEL] when it suggested
    none, [MODEL] otherwise.  The two constants name the same model, so the
    call uses that one model on both branches; the smaller model is the one
    the router itself calls. *)
Theorem first_call_model :
  forall (tools : list ToolManager.ToolDefinition) (suggested_tools : list string)
         (history : list Main.Message),
    Main.req_model (Main.first_request tools suggested_tools history)
    = match suggested_tools with
      | [] => Main.GENERAL_MODEL
      | _ :: _ => Main.MODEL
      end
    /\ Main.GENERAL_MODEL = Main.MODEL
    /\ Main.req_model (Main.first_request tools suggested_tools history)
       = "llama-3.3-70b-versatile"
    /\ Main.ROUTING_MODEL <> Main.MODEL.
Proof.
  intros tools suggested_tools history.
  split; [destruct suggested_tools; reflexivity|].
  split; [reflexivity|].
  split; [destruct suggested_tools; reflexivity | discriminate].
Qed.

Section FallbackFacts.
Variable World : Type.
Variable create : Main.Request -> World -> outcome Main.ApiMessage * World.
Variable json_loads : string -> outcome Main.decoded.
Variable registry : ToolManager.Registry (Main.Tool World).

(** The router lists the web search before the calculator. *)
Lemma route_query_lists (query : string) (w : World) :
  In (fst (Main.route_query create query w))
     [ []; ["web_search"]; ["calculate"]; ["web_search"; "calculate"] ].
Proof.
  unfold Main.route_query.
  destruct (create (Main.routing_request query) w) as [[response_message|e] w'];
    [|simpl; auto].
  destruct (Main.am_content response_message) as [text|]; [|simpl; auto].
  destruct (Py.contains "WEB_SEARCH" _), (Py.contains "CALCULATE" _); simpl; auto.
Qed.

(** A first response with a text, no tool call and nothing for the detector
    sends the turn to lines 411-505. *)
Lemma undetected_turn (user_prompt : string) (history : option (list Main.Message))
    (show : bool) (w : World) (suggested : list string) (w1 : World)
    (response_message : Main.ApiMessage) (w2 : World) (content : string) :
  Main.route_query create user_prompt w = (suggested, w1) ->
  create (Main.first_request (ToolManager.get_all_tool_definitions registry) suggested
            (Main.initial_history history
               ++ [Main.text_message Main.user (Some user_prompt)])) w1
  = (Ret response_message, w2) ->
  Main.am_tool_calls response_message = [] ->
  Main.am_content response_message = Some content ->
  ToolManager.tool_name (ToolManager.detect_tool_call registry content) = None ->
  exists st : Main.State World,
    Main.conversation_history st
    = (Main.initial_history history ++ [Main.text_message Main.user (Some user_prompt)])%list
    /\ Main.run_conversation create json_loads registry user_prompt history show w
       = Main.undetected_branch create registry show user_prompt suggested content st.
Proof.
  intros Hroute Hfirst Hcalls Hcontent Hdetect.
  destruct (run_conversation_unfold World create json_loads registry user_prompt history
              show w suggested w1 Hroute) as (st1 & Hh & Hrun).
  rewrite Hfirst, Hcalls, Hcontent, Hdetect in Hrun. simpl in Hrun.
  exists (Main.set_world st1 w2). split; [exact Hh | exact Hrun].
Qed.
End FallbackFacts.

Section ForcedFacts.
Variable World : Type.
Variable create : Main.Request -> World -> outcome Main.ApiMessage * World.
Variable json_loads : string -> outcome Main.decoded.
Variable registry : ToolManager.Registry (Main.Tool World).

(** The state in which lines 411-505 are entered: the history holds the
    user's message last, and the world is the one the first call left. *)
Lemma undetected_turn_state (user_prompt : string) (history : option (list Main.Message))
    (show : bool) (w : World) (suggested : list string) (w1 : World)
    (response_message : Main.ApiMessage) (w2 : World) (content : string) :
  Main.route_query create user_prompt w = (suggested, w1) ->
  create (Main.first_request (ToolManager.get_all_tool_definitions registry) suggested
            (Main.initial_history history
               ++ [Main.text_message Main.user (Some user_prompt)])) w1
  = (Ret response_message, w2) ->
  Main.am_tool_calls response_message = [] ->
  Main.am_content response_message = Some content ->
  ToolManager.tool_name (ToolManager.detect_tool_call registry content) = None ->
  exists st : Main.State World,
    Main.conversation_history st
    = (Main.initial_history history ++ [Main.text_message Main.user (Some user_prompt)])%list
    /\ Main.world st = w2
    /\ Main.run_conversation create json_loads registry user_prompt history show w
       = Main.undetected_branch create registry show user_prompt suggested content st.
Proof.
  intros Hroute Hfirst Hcalls Hcontent Hdetect.
  destruct (run_conversation_unfold World create json_loads registry user_prompt history
              show w suggested w1 Hroute) as (st1 & Hh & Hrun).
  rewrite Hfirst, Hcalls, Hcontent, Hdetect in Hrun. simpl in Hrun.
  exists (Main.set_world st1 w2). split; [exact Hh|]. split; [reflexivity | exact Hrun].
Qed.

(** The forced web search, lines 420-458, spelled out: the registered
    function is called on the user's text in the world of the state; what it
    returns, or the error object of the handler, is the result appended. *)
Lemma force_web_search_spelled (show : bool) (user_prompt : string)
    (st : Main.State World) (tool_outcome : outcome string) (w3 : World) :
  match ToolManager.get_tool_function registry "web_search" with
  | Some web_search => web_search (Main.PyStr user_prompt) (Main.world st)
  | None => (Raise "'NoneType' object is not callable", Main.world st)
  end = (tool_outcome, w3) ->
  Main.world (Main.force_web_search registry show user_prompt st) = w3
  /\ Main.conversation_history (Main.force_web_search registry show user_prompt st)
     = (Main.conversation_history st
          ++ [Main.tool_call_message "forced_web_search_call" "web_search"
                (Json.dumps_obj1 "query" (Json.dumps_str user_prompt));
              Main.tool_message "forced_web_search_call" "web_search"
                match tool_outcome with
                | Ret search_results => search_results
                | Raise e =>
                    Json.dumps_obj1 "error" (Json.dumps_str ("Search failed: " ++ e))
                end])%list.
Proof.
  intros Hcall.
  unfold Main.force_web_search, Main.call_caught, Main.call_tool.
  destruct (ToolManager.get_tool_function registry "web_search") as [web_search|].
  - rewrite Hcall. destruct tool_outcome as [search_results|e];
      simpl; rewrite ?world_feedback, ?history_feedback; simpl;
      rewrite <- ?app_assoc; split; reflexivity.
  - inversion Hcall; subst.
    simpl; rewrite ?world_feedback, ?history_feedback; simpl;
      rewrite <- ?app_assoc; split; reflexivity.
Qed.

(** The second completion call, spelled out. *)
Lemma second_call_spelled (show : bool) (failed apology : string)
    (done failed_exit : Main.Exit) (st : Main.State World)
    (second : outcome Main.ApiMessage) (w4 : World) :
  create (Main.second_request (Main.conversation_history st)) (Main.world st)
  = (second, w4) ->
  Main.world (Main.final (Main.second_call create show failed apology done failed_exit st))
  = w4
  /\ match second with
     | Ret second_response =>
         Main.exit (Main.second_call create show failed apology done failed_exit st)
         = done
         /\ Main.response (Main.second_call create show failed apology done failed_exit st)
            = Ret (Main.am_content second_response)
         /\ Main.conversation_history
              (Main.final (Main.second_call create show failed apology done failed_exit st))
            = (Main.conversation_history st
                 ++ [Main.text_message Main.assistant
                       (Main.am_content second_response)])%list
     | Raise _ =>
         Main.exit (Main.second_call create show failed apology done failed_exit st)
         = failed_exit
         /\ Main.response (Main.second_call create show failed apology done failed_exit st)
            = Ret (Some apology)
         /\ Main.conversation_history
              (Main.final (Main.second_call create show failed apology done failed_exit st))
            = Main.conversation_history st
     end.
Proof.
  intros Hsecond. unfold Main.second_call. rewrite Hsecond.
  destruct second as [second_response|e]; simpl;
    rewrite ?world_feedback, ?history_feedback; repeat split; reflexivity.
Qed.
End ForcedFacts.

(** C3, as stated, fails.  The router suggested the web search alone and
    the first response holds no structured tool call and, having no text at
    all, no text-detected one; yet no tool call is synthesized and no second
    call is made: the detector is handed [None], its exception leaves the
    turn, and the history ends with the user's message. *)
Lemma forced_fallback_needs_text :
  let script := [Main.says "TOOL: WEB_SEARCH";
                 Ret {| Main.am_content := None; Main.am_tool_calls := [] |};
                 Main.says "Here is the news."] in
  let t := Main.run_conversation Main.scripted_create (fun _ => Ret (Main.Dict []))
             Main.scripted_registry "news today?" None true script in
  fst (Main.route_query Main.scripted_create "news today?" script) = ["web_search"]
  /\ Main.exit t = Main.Uncaught
  /\ Main.response t = Raise "expected string or bytes-like object, got 'NoneType'"
  /\ Main.conversation_history (Main.final t)
     = [Main.text_message Main.system (Some Main.default_system_prompt);
        Main.text_message Main.user (Some "news today?")]
  /\ Main.world (Main.final t) = [Main.says "Here is the news."].
Proof. cbv zeta. repeat split; vm_compute; reflexivity. Qed.

(** C3, amended.  When the first response has no structured tool call and
    carries a text in which the detector finds no tool call: if the router
    suggested the web search alone, the registered web search is called on
    the user's prompt, a tool call named web_search with the id
    forced_web_search_call and the prompt as its query is appended, then the
    tool message with what the search returned (or with the error object when
    it raised), and the second call is made on exactly that history; its
    answer is appended and returned, or the apology is returned when it
    fails.  If the router suggested the calculator alone, no tool is called
    and no second call is made: the content of the first response is
    returned and appended as it is. *)
Theorem forced_fallback_policy :
  forall (World : Type)
         (create : Main.Request -> World -> outcome Main.ApiMessage * World)
         (json_loads : string -> outcome Main.decoded)
         (registry : ToolManager.Registry (Main.Tool World))
         (user_prompt : string) (history : option (list Main.Message)) (show : bool)
         (w : World) (suggested : list string) (w1 : World)
         (response_message : Main.ApiMessage) (w2 : World) (content : string),
    Main.route_query create user_prompt w = (suggested, w1) ->
    create (Main.first_request (ToolManager.get_all_tool_definitions registry) suggested
              (Main.initial_history history
                 ++ [Main.text_message Main.user (Some user_prompt)])) w1
    = (Ret response_message, w2) ->
    Main.am_tool_calls response_message = [] ->
    Main.am_content response_message = Some content ->
    ToolManager.tool_name (ToolManager.detect_tool_call registry content) = None ->
    let t := Main.run_conversation create json_loads registry user_prompt history show w in
    (suggested = ["web_search"] ->
     forall (tool_outcome : outcome string) (w3 : World)
            (second : outcome Main.ApiMessage) (w4 : World),
       match ToolManager.get_tool_function registry "web_search" with
       | Some web_search => web_search (Main.PyStr user_prompt) w2
       | None => (Raise "'NoneType' object is not callable", w2)
       end = (tool_outcome, w3) ->
       let forced_history :=
         (Main.initial_history history
            ++ [Main.text_message Main.user (Some user_prompt);
                Main.tool_call_message "forced_web_search_call" "web_search"
                  (Json.dumps_obj1 "query" (Json.dumps_str user_prompt));
                Main.tool_message "forced_web_search_call" "web_search"
                  match tool_outcome with
                  | Ret search_results => search_results
                  | Raise e =>
                      Json.dumps_obj1 "error" (Json.dumps_str ("Search failed: " ++ e))
                  end])%list in
       create {| Main.req_model := Main.MODEL; Main.req_messages := forced_history;
                 Main.req_tools := None; Main.req_tool_choice := None |} w3
       = (second, w4) ->
       Main.world (Main.final t) = w4
       /\ match second with
          | Ret second_response =>
              Main.exit t = Main.Forced
              /\ Main.response t = Ret (Main.am_content second_response)
              /\ Main.conversation_history (Main.final t)
                 = (forced_history
                      ++ [Main.text_message Main.assistant
                            (Main.am_content second_response)])%list
          | Raise _ =>
              Main.exit t = Main.ForcedSecondFailed
              /\ Main.response t
                 = Ret (Some "I encountered an error processing the results. Please try again.")
              /\ Main.conversation_history (Main.final t) = forced_history
          end)
    /\ (suggested = ["calculate"] ->
        Main.exit t = Main.Direct
        /\ Main.response t = Ret (Some content)
        /\ Main.conversation_history (Main.final t)
           = (Main.initial_history history
                ++ [Main.text_message Main.user (Some user_prompt);
                    Main.text_message Main.assistant (Some content)])%list
        /\ Main.world (Main.final t) = w2).
Proof.
  intros World create json_loads registry user_prompt history show w suggested w1
         response_message w2 content Hroute Hfirst Hcalls Hcontent Hdetect.
  destruct (undetected_turn_state World create json_loads registry user_prompt history
              show w suggested w1 response_message w2 content
              Hroute Hfirst Hcalls Hcontent Hdetect) as (st & Hh & Hw & Hrun).
  cbv zeta. rewrite Hrun. clear Hrun. split; intros Hs; subst suggested.
  - intros tool_outcome w3 second w4 Htool Hsecond.
    unfold Main.undetected_branch.
    change (String.eqb "web_search" "web_search") with true. cbv iota.
    set (st0 := Main.feedback show st
                  "Detected suggested tools weren't used. Forcing tool usage...").
    assert (Hw0 : Main.world st0 = w2)
      by (subst st0; rewrite world_feedback; exact Hw).
    assert (Hh0 : Main.conversation_history st0
                  = (Main.initial_history history
                       ++ [Main.text_message Main.user (Some user_prompt)])%list)
      by (subst st0; rewrite history_feedback; exact Hh).
    rewrite <- Hw0 in Htool.
    destruct (force_web_search_spelled World registry show user_prompt st0
                tool_outcome w3 Htool) as (Hw3 & Hh3).
    rewrite Hh0, <- app_assoc in Hh3. simpl in Hh3.
    pose proof (second_call_spelled World create show
                  "Error in second API call after forced tool usage"
                  Main.apology_results Main.Forced Main.ForcedSecondFailed
                  (Main.force_web_search registry show user_prompt st0) second w4)
      as Hspelled.
    rewrite Hh3, Hw3 in Hspelled. exact (Hspelled Hsecond).
  - unfold Main.undetected_branch, Main.direct_answer.
    change (String.eqb "calculate" "web_search") with false.
    change (String.eqb "calculate" "calculate") with true. cbv iota. simpl.
    rewrite !history_feedback, !world_feedback, Hh, Hw, <- app_assoc.
    repeat split; reflexivity.
Qed.

Lemma forced_fallback_policy_witness :
  let calculator_turn :=
    Main.run_conversation Main.scripted_create (fun _ => Ret (Main.Dict []))
      Main.scripted_registry "2+2?" None true
      [Main.says "TOOL: CALCULATE"; Main.says "It is 4."] in
  let search_turn :=
    Main.run_conversation Main.scripted_create (fun _ => Ret (Main.Dict []))
      Main.scripted_registry "news today?" None true
      [Main.says "TOOL: WEB_SEARCH"; Main.says "I do not know.";
       Main.says "Here is the news."] in
  (Main.exit calculator_turn = Main.Direct
   /\ Main.response calculator_turn = Ret (Some "It is 4.")
   /\ Main.conversation_history (Main.final calculator_turn)
      = (Main.initial_history None
           ++ [Main.text_message Main.user (Some "2+2?");
               Main.text_message Main.assistant (Some "It is 4.")])%list
   /\ Main.world (Main.final calculator_turn) = [])
  /\ Main.world (Main.final search_turn) = []
  /\ Main.exit search_turn = Main.Forced
  /\ Main.response search_turn = Ret (Some "Here is the news.")
  /\ Main.conversation_history (Main.final search_turn)
     = ((Main.initial_history None
           ++ [Main.text_message Main.user (Some "news today?");
               Main.tool_call_message "forced_web_search_call" "web_search"
                 (Json.dumps_obj1 "query" (Json.dumps_str "news today?"));
               Main.tool_message "forced_web_search_call" "web_search"
                 "No results found"])
          ++ [Main.text_message Main.assistant (Some "Here is the news.")])%list.
Proof.
  cbv zeta. split.
  - exact (proj2 (forced_fallback_policy Main.Script Main.scripted_create
                    (fun _ => Ret (Main.Dict [])) Main.scripted_registry
                    "2+2?" None true
                    [Main.says "TOOL: CALCULATE"; Main.says "It is 4."]
                    ["calculate"] [Main.says "It is 4."]
                    {| Main.am_content := Some "It is 4.";
                       Main.am_tool_calls := [] |} [] "It is 4."
                    eq_refl eq_refl eq_refl eq_refl eq_refl) eq_refl).
  - exact (proj1 (forced_fallback_policy Main.Script Main.scripted_create
                    (fun _ => Ret (Main.Dict [])) Main.scripted_registry
                    "news today?" None true
                    [Main.says "TOOL: WEB_SEARCH"; Main.says "I do not know.";
                     Main.says "Here is the news."]
                    ["web_search"]
                    [Main.says "I do not know."; Main.says "Here is the news."]
                    {| Main.am_content := Some "I do not know.";
                       Main.am_tool_calls := [] |}
                    [Main.says "Here is the news."] "I do not know."
                    eq_refl eq_refl eq_refl eq_refl eq_refl) eq_refl
             (Ret "No results found") [Main.says "Here is the news."]
             (Main.says "Here is the news.") [] eq_refl eq_refl).
Defined.

(** C9.  The router lists the web search before the calculator; so when it
    suggested both and the turn reaches the forced fallback, the primary tool
    is the web search and the synthetic call is the forced web search. *)
Theorem forced_call_is_web_search :
  forall (World : Type)
         (create : Main.Request -> World -> outcome Main.ApiMessage * World)
         (json_loads : string -> outcome Main.decoded)
         (registry : ToolManager.Registry (Main.Tool World))
         (user_prompt : string) (history : option (list Main.Message)) (show : bool)
         (w : World),
    In (fst (Main.route_query create user_prompt w))
       [ []; ["web_search"]; ["calculate"]; ["web_search"; "calculate"] ]
    /\ forall (suggested : list string) (w1 : World)
              (response_message : Main.ApiMessage) (w2 : World) (content : string),
        Main.route_query create user_prompt w = (suggested, w1) ->
        In "web_search" suggested ->
        In "calculate" suggested ->
        create (Main.first_request (ToolManager.get_all_tool_definitions registry)
                  suggested
                  (Main.initial_history history
                     ++ [Main.text_message Main.user (Some user_prompt)])) w1
        = (Ret response_message, w2) ->
        Main.am_tool_calls response_message = [] ->
        Main.am_content response_message = Some content ->
        ToolManager.tool_name (ToolManager.detect_tool_call registry content) = None ->
        hd_error suggested = Some "web_search"
        /\ exists (st' : Main.State World) (results : string),
            Main.run_conversation create json_loads registry user_prompt history show w
            = Main.second_call create show
                "Error in second API call after forced tool usage"
                Main.apology_results Main.Forced Main.ForcedSecondFailed st'
            /\ Main.conversation_history st'
               = (Main.initial_history history
                    ++ [Main.text_message Main.user (Some user_prompt);
                        Main.tool_call_message "forced_web_search_call" "web_search"
                          (Json.dumps_obj1 "query" (Json.dumps_str user_prompt));
                        Main.tool_message "forced_web_search_call" "web_search"
                          results])%list.
Proof.
  intros World create json_loads registry user_prompt history show w.
  split; [apply route_query_lists|].
  intros suggested w1 response_message w2 content Hroute Hws Hcalc Hfirst Hcalls
         Hcontent Hdetect.
  assert (Hs : suggested = ["web_search"; "calculate"]).
  { pose proof (route_query_lists World create user_prompt w) as Hl.
    rewrite Hroute in Hl. simpl in Hl.
    destruct Hl as [Hl|[Hl|[Hl|[Hl|[]]]]]; subst suggested.
    - destruct Hws.
    - destruct Hcalc as [Hcalc|[]]. discriminate.
    - destruct Hws as [Hws|[]]. discriminate.
    - reflexivity. }
  subst suggested. split; [reflexivity|].
  destruct (undetected_turn World create json_loads registry user_prompt history show w
              _ w1 response_message w2 content
              Hroute Hfirst Hcalls Hcontent Hdetect) as (st & Hh & Hrun).
  destruct (undetected_forced World create registry show user_prompt ["calculate"]
              content st) as (st' & results & Hbranch & _ & Hh').
  exists st', results. split; [rewrite Hrun; exact Hbranch|].
  rewrite Hh', Hh, <- app_assoc. reflexivity.
Qed.

Lemma forced_call_is_web_search_witness :
  exists st' results,
    Main.run_conversation Main.scripted_create (fun _ => Ret (Main.Dict []))
      Main.scripted_registry "price of 3 apples today?" None false
      [Main.says "TOOL: WEB_SEARCH, CALCULATE"; Main.says "I cannot tell."]
    = Main.second_call Main.scripted_create false
        "Error in second API call after forced tool usage"
        Main.apology_results Main.Forced Main.ForcedSecondFailed st'
    /\ Main.conversation_history st'
       = (Main.initial_history None
            ++ [Main.text_message Main.user (Some "price of 3 apples today?");
                Main.tool_call_message "forced_web_search_call" "web_search"
                  (Json.dumps_obj1 "query" (Json.dumps_str "price of 3 apples today?"));
                Main.tool_message "forced_web_search_call" "web_search" results])%list.
Proof.
  exact (proj2 (proj2 (forced_call_is_web_search Main.Script Main.scripted_create
                         (fun _ => Ret (Main.Dict [])) Main.scripted_registry
                         "price of 3 apples today?" None false
                         [Main.says "TOOL: WEB_SEARCH, CALCULATE";
                          Main.says "I cannot tell."])
                  ["web_search"; "calculate"] [Main.says "I cannot tell."]
                  {| Main.am_content := Some "I cannot tell.";
                     Main.am_tool_calls := [] |} [] "I cannot tell."
                  eq_refl (or_introl eq_refl) (or_intror (or_introl eq_refl))
                  eq_refl eq_refl eq_refl eq_refl)).
Defined.

(** C1, as stated, fails.  When the first completion call raises, the
    apology is returned and nothing is appended: the history ends with the
    user's message. *)
Lemma apology_is_not_appended :
  let t := Main.run_conversation Main.scripted_create (fun _ => Ret (Main.Dict []))
             Main.scripted_registry "hi" None true [Main.says "NO TOOL"] in
  Main.exit t = Main.FirstCallFailed
  /\ Main.response t = Ret (Some Main.apology_first_call)
  /\ Main.last_role (Main.conversation_history (Main.final t)) = Some Main.user
  /\ Main.last_role (Main.conversation_history (Main.final t)) <> Some Main.assistant.
Proof.
  cbv zeta. split; [reflexivity|]. split; [reflexivity|]. split; [reflexivity|].
  vm_compute. discriminate.
Qed.

(** C1, amended.  On the four branches that end in an answer (structured
    tool calls, text-detected tool call, forced fallback, direct answer) the
    answer is appended as an assistant message before it is returned, so the
    history ends with an assistant message.  On the branches of a caught
    failure the apology is returned and not appended: after a failed first
    call the history ends with the user's message, after a failed second call
    with the tool result, or with the assistant's tool-call message when no
    tool of the response was known. *)
Theorem answer_appended_unless_call_failed :
  forall (World : Type)
         (create : Main.Request -> World -> outcome Main.ApiMessage * World)
         (json_loads : string -> outcome Main.decoded)
         (registry : ToolManager.Registry (Main.Tool World))
         (user_prompt : string) (history : option (list Main.Message)) (show : bool)
         (w : World),
    let t := Main.run_conversation create json_loads registry user_prompt history show w in
    let h := Main.conversation_history (Main.final t) in
    match Main.exit t with
    | Main.Structured | Main.TextDetected | Main.Forced | Main.Direct =>
        exists answer earlier,
          Main.response t = Ret answer
          /\ h = (earlier ++ [Main.text_message Main.assistant answer])%list
          /\ Main.last_role h = Some Main.assistant
    | Main.FirstCallFailed =>
        Main.response t = Ret (Some Main.apology_first_call)
        /\ h = (Main.initial_history history
                  ++ [Main.text_message Main.user (Some user_prompt)])%list
        /\ Main.last_role h = Some Main.user
    | Main.StructuredSecondFailed =>
        Main.response t = Ret (Some Main.apology_search_results)
        /\ exists earlier m,
            h = (earlier ++ [m])%list
            /\ (Main.role m = Main.tool \/ Main.tool_calls m <> [])
    | Main.TextSecondFailed | Main.ForcedSecondFailed =>
        Main.response t = Ret (Some Main.apology_results)
        /\ exists earlier m, h = (earlier ++ [m])%list /\ Main.role m = Main.tool
    | Main.Uncaught => exists e, Main.response t = Raise e
    end.
Proof.
  intros World create json_loads registry user_prompt history show w.
  destruct (Main.route_query create user_prompt w) as [suggested w1] eqn:Hroute.
  destruct (run_conversation_unfold World create json_loads registry user_prompt history
              show w suggested w1 Hroute) as (st1 & Hh & Hrun).
  cbv zeta. rewrite Hrun. clear Hrun.
  destruct (create _ w1) as [[response_message|e] w2].
  2: { simpl. rewrite history_feedback. simpl. rewrite Hh.
       split; [reflexivity|]. split; [reflexivity | apply last_role_snoc]. }
  destruct (Main.am_tool_calls response_message) as [|tool_call rest] eqn:Hcalls.
  - destruct (Main.am_content response_message) as [content|];
      [|simpl; eexists; reflexivity].
    destruct (detect_with_cases registry ToolManager.patterns content) as [Hd|Hd];
      fold (ToolManager.detect_tool_call registry content) in Hd.
    + destruct (text_detected_shape World create registry show _
                  (Main.set_world st1 w2) Hd)
        as (name & st' & call_id & args & result & Htruthy & Hbranch & Hh').
      rewrite Htruthy, Hbranch.
      destruct (second_call_cases World create show
                  "Error in second API call after text tool detection"
                  Main.apology_results Main.TextDetected Main.TextSecondFailed st')
        as [(Hexit & answer & Hresp & Hfin) | (Hexit & Hresp & Hfin)];
        rewrite Hexit, Hresp, Hfin.
      * exists answer, (Main.conversation_history st').
        split; [reflexivity|]. split; [reflexivity | apply last_role_snoc].
      * split; [reflexivity|]. rewrite Hh'.
        exists (Main.conversation_history (Main.set_world st1 w2)
                  ++ [Main.tool_call_message call_id name args])%list,
               (Main.tool_message call_id name result).
        split; [rewrite <- app_assoc; reflexivity | reflexivity].
    + rewrite Hd. simpl Main.truthy. cbv iota.
      assert (Hdirect :
                hd_error suggested <> Some "web_search" ->
                match Main.exit (Main.undetected_branch create registry show user_prompt
                                   suggested content (Main.set_world st1 w2)) with
                | Main.Direct =>
                    exists answer earlier,
                      Main.response (Main.undetected_branch create registry show
                                       user_prompt suggested content
                                       (Main.set_world st1 w2)) = Ret answer
                      /\ Main.conversation_history
                           (Main.final (Main.undetected_branch create registry show
                                          user_prompt suggested content
                                          (Main.set_world st1 w2)))
                         = (earlier ++ [Main.text_message Main.assistant answer])%list
                      /\ Main.last_role
                           (Main.conversation_history
                              (Main.final (Main.undetected_branch create registry show
                                             user_prompt suggested content
                                             (Main.set_world st1 w2))))
                         = Some Main.assistant
                | _ => False
                end).
      { intros Hhd.
        destruct (undetected_direct World create registry show user_prompt suggested
                    content (Main.set_world st1 w2) Hhd) as (st' & Hbranch & Hh').
        rewrite Hbranch. simpl. rewrite Hh'.
        eexists _, _. split; [reflexivity|]. split; [reflexivity | apply last_role_snoc]. }
      destruct suggested as [|primary others].
      * specialize (Hdirect ltac:(discriminate)).
        destruct (Main.exit _); try contradiction. exact Hdirect.
      * destruct (String.eqb primary "web_search") eqn:E.
        -- apply String.eqb_eq in E. subst primary. clear Hdirect.
           destruct (undetected_forced World create registry show user_prompt others
                       content (Main.set_world st1 w2))
             as (st' & results & Hbranch & _ & Hh').
           rewrite Hbranch.
           destruct (second_call_cases World create show
                       "Error in second API call after forced tool usage"
                       Main.apology_results Main.Forced Main.ForcedSecondFailed st')
             as [(Hexit & answer & Hresp & Hfin) | (Hexit & Hresp & Hfin)];
             rewrite Hexit, Hresp, Hfin.
           ++ exists answer, (Main.conversation_history st').
              split; [reflexivity|]. split; [reflexivity | apply last_role_snoc].
           ++ split; [reflexivity|]. rewrite Hh'.
              eexists (_ ++ [_])%list, _.
              split; [rewrite <- app_assoc; reflexivity | reflexivity].
        -- assert (Hhd : hd_error (primary :: others) <> Some "web_search").
           { simpl. intros Heq. inversion Heq; subst.
             rewrite String.eqb_refl in E. discriminate. }
           specialize (Hdirect Hhd).
           destruct (Main.exit _); try contradiction. exact Hdirect.
  - pose proof (process_tool_calls_history World json_loads registry show
                  (tool_call :: rest)
                  (Main.append_message (Main.set_world st1 w2)
                     (Main.as_message response_message))) as Hloop.
    destruct (Main.process_tool_calls json_loads registry show (tool_call :: rest) _)
      as [[e|] st]; [simpl; eexists; reflexivity|].
    destruct Hloop as (added & Hadded & Hall). simpl in Hadded.
    destruct (second_call_cases World create show "Error in second API call"
                Main.apology_search_results Main.Structured Main.StructuredSecondFailed st)
      as [(Hexit & answer & Hresp & Hfin) | (Hexit & Hresp & Hfin)];
      rewrite Hexit, Hresp, Hfin.
    + exists answer, (Main.conversation_history st).
      split; [reflexivity|]. split; [reflexivity | apply last_role_snoc].
    + split; [reflexivity|]. rewrite Hadded.
      destruct added as [|a added] using rev_ind.
      * rewrite app_nil_r. eexists _, _. split; [reflexivity|].
        right. simpl. rewrite Hcalls. discriminate.
      * apply Forall_app in Hall. destruct Hall as [_ Hall].
        inversion Hall as [|? ? (tc & result & _ & Ha) _]; subst.
        eexists _, _. split; [rewrite app_assoc; reflexivity|]. left. reflexivity.
Qed.

(** ** Turns keep the history linked *)

Lemma linked_call_result (h : list Main.Message) (call_id tool_name args result : string) :
  Main.linked h = true ->
  Main.linked (h ++ [Main.tool_call_message call_id tool_name args;
                     Main.tool_message call_id tool_name result]) = true.
Proof.
  intros Hh.
  change (h ++ [Main.tool_call_message call_id tool_name args;
                Main.tool_message call_id tool_name result])%list
    with (h ++ [Main.tool_call_message call_id tool_name args]
            ++ [Main.tool_message call_id tool_name result])%list.
  rewrite app_assoc.
  apply linked_add_tools.
  - apply linked_add_other; [exact Hh | discriminate].
  - constructor; [|constructor]. exists call_id, tool_name, result.
    split; [reflexivity|]. rewrite offered_before_app. apply in_or_app. right.
    simpl. left. reflexivity.
Qed.

Lemma linked_structured (h added : list Main.Message) (response_message : Main.ApiMessage) :
  Main.linked h = true ->
  Forall (fun m => exists tool_call result,
                     In tool_call (Main.am_tool_calls response_message)
                     /\ m = Main.tool_message (Main.tc_id tool_call)
                              (Main.tc_name tool_call) result) added ->
  Main.linked ((h ++ [Main.as_message response_message]) ++ added) = true.
Proof.
  intros Hh Hall. apply linked_add_tools.
  - apply linked_add_other; [exact Hh | discriminate].
  - eapply Forall_impl; [|exact Hall]. intros m (tool_call & result & Hin & Hm).
    exists (Main.tc_id tool_call), (Main.tc_name tool_call), result.
    split; [exact Hm|]. rewrite offered_before_app. apply in_or_app. right.
    simpl. rewrite app_nil_r. apply in_map. exact Hin.
Qed.

Section TurnLinked.
Variable World : Type.
Variable create : Main.Request -> World -> outcome Main.ApiMessage * World.
Variable json_loads : string -> outcome Main.decoded.
Variable registry : ToolManager.Registry (Main.Tool World).

Lemma second_call_linked (show : bool) (failed apology : string)
    (done failed_exit : Main.Exit) (st : Main.State World) :
  Main.linked (Main.conversation_history st) = true ->
  Main.linked
    (Main.conversation_history
       (Main.final (Main.second_call create show failed apology done failed_exit st)))
  = true.
Proof.
  intros Hst.
  destruct (second_call_cases World create show failed apology done failed_exit st)
    as [(_ & answer & _ & Hfin) | (_ & _ & Hfin)]; rewrite Hfin.
  - apply linked_add_other; [exact Hst | discriminate].
  - exact Hst.
Qed.

(** One turn, whatever it leaves by, keeps the history linked. *)
Lemma turn_keeps_linked (user_prompt : string) (history : option (list Main.Message))
    (show : bool) (w : World) :
  Main.linked (Main.initial_history history) = true ->
  Main.linked
    (Main.conversation_history
       (Main.final (Main.run_conversation create json_loads registry user_prompt history
                      show w))) = true.
Proof.
  intros Hinit.
  destruct (Main.route_query create user_prompt w) as [suggested w1] eqn:Hroute.
  destruct (run_conversation_unfold World create json_loads registry user_prompt history
              show w suggested w1 Hroute) as (st1 & Hh & Hrun).
  rewrite Hrun. clear Hrun.
  assert (H1 : Main.linked (Main.conversation_history st1) = true).
  { rewrite Hh. apply linked_add_other; [exact Hinit | discriminate]. }
  destruct (create _ w1) as [[response_message|e] w2].
  2: { simpl. rewrite history_feedback. exact H1. }
  destruct (Main.am_tool_calls response_message) as [|tool_call rest] eqn:Hcalls.
  - destruct (Main.am_content response_message) as [content|]; [|exact H1].
    destruct (detect_with_cases registry ToolManager.patterns content) as [Hd|Hd];
      fold (ToolManager.detect_tool_call registry content) in Hd.
    + destruct (text_detected_shape World create registry show _
                  (Main.set_world st1 w2) Hd)
        as (name & st' & call_id & args & result & Htruthy & Hbranch & Hh').
      rewrite Htruthy, Hbranch. apply second_call_linked.
      rewrite Hh'. apply linked_call_result. exact H1.
    + rewrite Hd. simpl Main.truthy. cbv iota.
      destruct suggested as [|primary others].
      * destruct (undetected_direct World create registry show user_prompt [] content
                    (Main.set_world st1 w2)) as (st' & Hbranch & Hh'); [discriminate|].
        rewrite Hbranch. simpl. rewrite Hh'.
        apply linked_add_other; [exact H1 | discriminate].
      * destruct (String.eqb primary "web_search") eqn:E.
        -- apply String.eqb_eq in E. subst primary.
           destruct (undetected_forced World create registry show user_prompt others
                       content (Main.set_world st1 w2))
             as (st' & results & Hbranch & _ & Hh').
           rewrite Hbranch. apply second_call_linked.
           rewrite Hh'. apply linked_call_result. exact H1.
        -- destruct (undetected_direct World create registry show user_prompt
                       (primary :: others) content (Main.set_world st1 w2))
             as (st' & Hbranch & Hh').
           { simpl. intros Heq. inversion Heq; subst.
             rewrite String.eqb_refl in E. discriminate. }
           rewrite Hbranch. simpl. rewrite Hh'.
           apply linked_add_other; [exact H1 | discriminate].
  - pose proof (process_tool_calls_history World json_loads registry show
                  (tool_call :: rest)
                  (Main.append_message (Main.set_world st1 w2)
                     (Main.as_message response_message))) as Hloop.
    destruct Hloop as (added & Hadded & Hall).
    assert (Hst : Main.linked
                    (Main.conversation_history
                       (snd (Main.process_tool_calls json_loads registry show
                               (tool_call :: rest)
                               (Main.append_message (Main.set_world st1 w2)
                                  (Main.as_message response_message))))) = true).
    { rewrite Hadded, history_append, history_set_world.
      apply linked_structured; [exact H1|]. rewrite Hcalls. exact Hall. }
    destruct (Main.process_tool_calls json_loads registry show (tool_call :: rest) _)
      as [[e|] st]; simpl in Hst.
    + exact Hst.
    + apply second_call_linked. exact Hst.
Qed.
End TurnLinked.

(** C5, as stated, fails.  Two turns that both end in the forced fallback
    use the same synthetic id twice, so the tool message of the second turn
    answers an id offered twice before it. *)
Lemma synthetic_id_offered_twice :
  let h := fst (Main.run_turns Main.scripted_create (fun _ => Ret (Main.Dict []))
                  Main.scripted_registry ["news today?"; "and tomorrow?"] None
                  [Main.says "TOOL: WEB_SEARCH"; Main.says "I do not know.";
                   Main.says "Here is the news.";
                   Main.says "TOOL: WEB_SEARCH"; Main.says "I do not know.";
                   Main.says "Here is more."]) in
  Main.linked_once h = false
  /\ Main.linked h = true
  /\ count_occ string_dec (Main.offered_before h) "forced_web_search_call" = 2
  /\ Main.last_role h = Some Main.assistant.
Proof. cbv zeta. repeat split; vm_compute; reflexivity. Qed.

(** C5, amended.  After any turn, and so after any number of turns on one
    history, every tool message of the history carries a [tool_call_id] that
    matches the id of at least one [tool_calls] entry of a preceding
    assistant message, provided the history the caller passed in was so; the
    synthetic ids are fixed texts, so over several turns a tool message may
    match more than one entry. *)
Theorem tool_messages_answer_offered_ids :
  forall (World : Type)
         (create : Main.Request -> World -> outcome Main.ApiMessage * World)
         (json_loads : string -> outcome Main.decoded)
         (registry : ToolManager.Registry (Main.Tool World))
         (history : option (list Main.Message)),
    Main.linked (Main.initial_history history) = true ->
    (forall user_prompt show w,
        Main.linked
          (Main.conversation_history
             (Main.final (Main.run_conversation create json_loads registry user_prompt
                            history show w))) = true)
    /\ (forall prompts w,
           Main.linked (fst (Main.run_turns create json_loads registry prompts history w))
           = true).
Proof.
  intros World create json_loads registry history Hinit. split.
  - intros user_prompt show w. apply turn_keeps_linked. exact Hinit.
  - intros prompts. revert history Hinit.
    induction prompts as [|user_input rest IH]; intros history Hinit w; simpl.
    + exact Hinit.
    + pose proof (turn_keeps_linked World create json_loads registry user_input history
                    true w Hinit) as Hturn.
      destruct (Main.response _) as [answer|e].
      * apply IH. exact Hturn.
      * exact Hturn.
Qed.

Lemma tool_messages_answer_offered_ids_witness :
  Main.linked (Main.initial_history None) = true
  /\ Main.linked
       (fst (Main.run_turns Main.scripted_create (fun _ => Ret (Main.Dict []))
               Main.scripted_registry ["news today?"; "and tomorrow?"] None
               [Main.says "TOOL: WEB_SEARCH"; Main.says "I do not know.";
                Main.says "Here is the news.";
                Main.says "NO TOOL"; Main.says "I'll search for 'tomorrow'"]))
     = true.
Proof.
  split; [reflexivity|].
  exact (proj2 (tool_messages_answer_offered_ids Main.Script Main.scripted_create
                  (fun _ => Ret (Main.Dict [])) Main.scripted_registry None eq_refl)
           ["news today?"; "and tomorrow?"]
           [Main.says "TOOL: WEB_SEARCH"; Main.says "I do not know.";
            Main.says "Here is the news.";
            Main.says "NO TOOL"; Main.says "I'll search for 'tomorrow'"]).
Defined.

(** ** The detector and the calculator on the inputs the specification names *)

Example detect_function_tag :
  let r := ToolManager.detect_tool_call (ToolManager.load_tools tt tt)
             ("<function=web_search [{" ++ dq ++ "query" ++ dq ++ ":" ++ dq
                ++ "weather today" ++ dq ++ "}]>") in
  ToolManager.tool_name r = Some "web_search"
  /\ ToolManager.arguments r = Some [("query", "weather today")].
Proof. split; vm_compute; reflexivity. Qed.

Example detect_narrative :
  ToolManager.detect_tool_call (ToolManager.load_tools tt tt)
    "The capital of France is Paris."
  = ToolManager.no_detection.
Proof. vm_compute. reflexivity. Qed.

Example detect_synonyms :
  ToolManager.tool_name
    (ToolManager.detect_tool_call (ToolManager.load_tools tt tt) "googlesearch(rocq)")
  = Some "web_search"
  /\ ToolManager.tool_name
       (ToolManager.detect_tool_call (ToolManager.load_tools tt tt) "calc(1+1)")
     = Some "calculate"
  /\ ToolManager.detect_tool_call (ToolManager.load_tools tt tt) "translate(bonjour)"
     = ToolManager.no_detection.
Proof. repeat split; vm_compute; reflexivity. Qed.

(** A pattern is asked for its first match only: the call of an unknown name
    hides the call of a known one after it. *)
Example detect_first_match_only :
  ToolManager.detect_tool_call (ToolManager.load_tools tt tt) "translate(x) calc(3*4)"
  = ToolManager.no_detection.
Proof. vm_compute. reflexivity. Qed.

Example calculate_seventeen_times_five :
  PyInt.calculate "17 * (3+2)" = "{" ++ dq ++ "result" ++ dq ++ ": 85}".
Proof. vm_compute. reflexivity. Qed.

(** * Further properties *)

(** ** The registry *)
Section DictFacts.
Context {V : Type}.

Lemma get_set_same (d : ToolManager.dict V) (key : string) (v : V) :
  ToolManager.get (ToolManager.set d key v) key = Some v.
Proof.
  induction d as [|[k w] d IH]; simpl.
  - rewrite String.eqb_refl. reflexivity.
  - destruct (String.eqb key k) eqn:E; simpl; rewrite E; [reflexivity | exact IH].
Qed.

Lemma get_set_other (d : ToolManager.dict V) (key other : string) (v : V) :
  other <> key ->
  ToolManager.get (ToolManager.set d key v) other = ToolManager.get d other.
Proof.
  intros Hne. induction d as [|[k w] d IH]; simpl.
  - destruct (String.eqb other key) eqn:E; [|reflexivity].
    apply String.eqb_eq in E. contradiction.
  - destruct (String.eqb key k) eqn:E; simpl.
    + apply String.eqb_eq in E. subst k.
      destruct (String.eqb other key) eqn:E'; [|reflexivity].
      apply String.eqb_eq in E'. contradiction.
    + rewrite IH. reflexivity.
Qed.

Lemma has_in_keys (d : ToolManager.dict V) (key : string) :
  ToolManager.has d key = true <-> In key (Names.keys d).
Proof.
  unfold ToolManager.has. induction d as [|[k w] d IH]; simpl.
  - split; [discriminate | contradiction].
  - destruct (String.eqb key k) eqn:E.
    + apply String.eqb_eq in E. subst. split; auto.
    + rewrite IH. split; [auto|]. intros [H|H]; [|exact H].
      subst. rewrite String.eqb_refl in E. discriminate.
Qed.

(** Writing a key that is there keeps the keys; a new key goes last. *)
Lemma keys_set (d : ToolManager.dict V) (key : string) (v : V) :
  Names.keys (ToolManager.set d key v)
  = if ToolManager.has d key then Names.keys d else (Names.keys d ++ [key])%list.
Proof.
  unfold ToolManager.has. induction d as [|[k w] d IH]; simpl; [reflexivity|].
  destruct (String.eqb key k) eqn:E; simpl; [reflexivity|].
  rewrite IH. destruct (ToolManager.get d key); reflexivity.
Qed.
End DictFacts.

Lemma nodup_snoc (l : list string) (x : string) :
  NoDup l -> ~ In x l -> NoDup (l ++ [x]).
Proof.
  intros Hl Hx. induction Hl as [|y l Hy Hl IH]; simpl.
  - constructor; [intros []|constructor].
  - constructor.
    + intros Hin. apply in_app_or in Hin. destruct Hin as [Hin|[Hin|[]]].
      * contradiction.
      * subst. apply Hx. left. reflexivity.
    + apply IH. intros Hin. apply Hx. right. exact Hin.
Qed.

(** X1.  What [register_tool] stored under a name is what [get_tool_function]
    and [get_tool_definitions] give back for it, and no other name is
    touched. *)
Theorem register_then_lookup :
  forall (F : Type) (r : ToolManager.Registry F) (name : string) (function : F)
         (definition : ToolManager.ToolDefinition),
    ToolManager.get_tool_function (ToolManager.register_tool r name function definition)
      name = Some function
    /\ ToolManager.get_tool_definitions
         (ToolManager.register_tool r name function definition) [name] = [definition]
    /\ forall other,
        other <> name ->
        ToolManager.get_tool_function
          (ToolManager.register_tool r name function definition) other
        = ToolManager.get_tool_function r other
        /\ ToolManager.get_tool_definitions
             (ToolManager.register_tool r name function definition) [other]
           = ToolManager.get_tool_definitions r [other].
Proof.
  intros F r name function definition.
  unfold ToolManager.get_tool_function, ToolManager.get_tool_definitions,
    ToolManager.register_tool. simpl.
  split; [apply get_set_same|]. split; [rewrite get_set_same; reflexivity|].
  intros other Hne. split; [apply get_set_other, Hne|].
  rewrite get_set_other by exact Hne. reflexivity.
Qed.

(** X2.  [register_tool] keeps the two dictionaries on the same names, each
    name once: a name that is registered already keeps its place (its entry
    is overwritten), a new name goes last, so [get_all_tool_definitions]
    lists the definitions in the order of first registration. *)
Theorem register_keeps_names :
  forall (F : Type) (r : ToolManager.Registry F) (name : string) (function : F)
         (definition : ToolManager.ToolDefinition),
    Names.consistent r ->
    Names.consistent (ToolManager.register_tool r name function definition)
    /\ Names.keys (ToolManager._tools
                     (ToolManager.register_tool r name function definition))
       = (if ToolManager.has (ToolManager._tools r) name
          then Names.keys (ToolManager._tools r)
          else (Names.keys (ToolManager._tools r) ++ [name])%list)
    /\ List.length (ToolManager.get_all_tool_definitions
                      (ToolManager.register_tool r name function definition))
       = (if ToolManager.has (ToolManager._tools r) name
          then List.length (ToolManager.get_all_tool_definitions r)
          else S (List.length (ToolManager.get_all_tool_definitions r))).
Proof.
  intros F r name function definition [Hsame Hnodup].
  assert (Hhas : ToolManager.has (ToolManager._tool_definitions r) name
                 = ToolManager.has (ToolManager._tools r) name).
  { destruct (ToolManager.has (ToolManager._tools r) name) eqn:E.
    - apply has_in_keys. rewrite <- Hsame. apply has_in_keys. exact E.
    - destruct (ToolManager.has (ToolManager._tool_definitions r) name) eqn:E';
        [|reflexivity].
      apply has_in_keys in E'. rewrite <- Hsame in E'. apply has_in_keys in E'.
      congruence. }
  unfold Names.consistent, ToolManager.register_tool, ToolManager.get_all_tool_definitions,
    ToolManager.values. simpl.
  assert (Hlen : forall (V : Type) (d : ToolManager.dict V),
             List.length d = List.length (Names.keys d))
    by (intros; unfold Names.keys; rewrite length_map; reflexivity).
  rewrite !length_map, !Hlen, !keys_set, Hhas. clear Hhas.
  destruct (ToolManager.has (ToolManager._tools r) name) eqn:E.
  - repeat split; assumption.
  - split; [split|split].
    + rewrite Hsame. reflexivity.
    + apply nodup_snoc; [exact Hnodup|]. intros Hin. apply has_in_keys in Hin. congruence.
    + reflexivity.
    + rewrite length_app. simpl. lia.
Qed.

Lemma register_keeps_names_witness :
  Names.consistent (ToolManager.load_tools (F := nat) 1 2)
  /\ Names.keys (ToolManager._tools
                   (ToolManager.register_tool (ToolManager.load_tools 1 2) "web_search" 3
                      ToolManager.calculate_definition))
     = ["web_search"; "calculate"].
Proof.
  assert (H0 : Names.consistent (@ToolManager.empty_registry nat))
    by (split; [reflexivity | constructor]).
  pose proof (proj1 (register_keeps_names nat _ "web_search" 1
                       ToolManager.web_search_definition H0)) as H1.
  pose proof (proj1 (register_keeps_names nat _ "calculate" 2
                       ToolManager.calculate_definition H1)) as H2.
  split; [exact H2|].
  exact (proj1 (proj2 (register_keeps_names nat _ "web_search" 3
                         ToolManager.calculate_definition H2))).
Defined.

(** X3.  [get_tool_definitions] gives the definitions of the requested names
    that are registered, in the order of the request; a name that is not
    registered is skipped and raises nothing. *)
Theorem get_tool_definitions_skips_unknown :
  forall (F : Type) (r : ToolManager.Registry F) (tool_names : list string),
    (forall definition,
        In definition (ToolManager.get_tool_definitions r tool_names)
        <-> exists name,
            In name tool_names
            /\ ToolManager.get (ToolManager._tool_definitions r) name = Some definition)
    /\ List.length (ToolManager.get_tool_definitions r tool_names)
       = List.length (filter (ToolManager.has (ToolManager._tool_definitions r)) tool_names)
    /\ forall before after,
        tool_names = (before ++ after)%list ->
        ToolManager.get_tool_definitions r tool_names
        = (ToolManager.get_tool_definitions r before
             ++ ToolManager.get_tool_definitions r after)%list.
Proof.
  intros F r tool_names. unfold ToolManager.get_tool_definitions. split; [|split].
  - intros definition. rewrite in_flat_map. split.
    + intros (name & Hin & Hd). exists name. split; [exact Hin|].
      destruct (ToolManager.get _ name) as [d|]; [|contradiction].
      destruct Hd as [Hd|[]]. subst. reflexivity.
    + intros (name & Hin & Hget). exists name. split; [exact Hin|].
      rewrite Hget. left. reflexivity.
  - unfold ToolManager.has. induction tool_names as [|name rest IH]; simpl; [reflexivity|].
    destruct (ToolManager.get _ name); simpl; rewrite IH; reflexivity.
  - intros before after Heq. subst. apply flat_map_app.
Qed.

(** ** What a match spans *)
Section SpanFacts.
Context {A : Type}.

Lemma star_greedy_span (p : ascii -> bool) (k : nat -> string -> option A) :
  forall s pos a,
    Re.star_greedy p k pos s = Some a ->
    exists pre s', s = pre ++ s' /\ k (pos + String.length pre) s' = Some a.
Proof.
  induction s as [|c s IH]; intros pos a H; simpl in H.
  - exists EmptyString, EmptyString. rewrite Nat.add_0_r. auto.
  - assert (Hhere : k pos (String c s) = Some a ->
                    exists pre s', String c s = pre ++ s'
                                   /\ k (pos + String.length pre) s' = Some a).
    { intros Hk. exists EmptyString, (String c s). rewrite Nat.add_0_r. auto. }
    destruct (p c); [|auto].
    destruct (Re.star_greedy p k (S pos) s) eqn:E; [|auto].
    inversion H; subst. destruct (IH _ _ E) as (pre & s' & Hs & Hk).
    exists (String c pre), s'. split; [simpl; rewrite Hs; reflexivity|].
    simpl. rewrite Nat.add_succ_r. exact Hk.
Qed.

Lemma star_lazy_span (p : ascii -> bool) (k : nat -> string -> option A) :
  forall s pos a,
    Re.star_lazy p k pos s = Some a ->
    exists pre s', s = pre ++ s' /\ k (pos + String.length pre) s' = Some a.
Proof.
  induction s as [|c s IH]; intros pos a H; simpl in H.
  - destruct (k pos EmptyString) eqn:E; [|discriminate]. inversion H; subst.
    exists EmptyString, EmptyString. rewrite Nat.add_0_r. auto.
  - destruct (k pos (String c s)) eqn:E.
    + inversion H; subst. exists EmptyString, (String c s). rewrite Nat.add_0_r. auto.
    + destruct (p c); [|discriminate].
      destruct (IH _ _ H) as (pre & s' & Hs & Hk).
      exists (String c pre), s'. split; [simpl; rewrite Hs; reflexivity|].
      simpl. rewrite Nat.add_succ_r. exact Hk.
Qed.

Lemma length_append (a b : string) :
  String.length (a ++ b) = String.length a + String.length b.
Proof. induction a as [|x a IH]; simpl; [reflexivity | rewrite IH; reflexivity]. Qed.

(** A successful run consumed a prefix of the text and handed the rest, at
    the offset after that prefix, to a continuation that succeeded. *)
Lemma run_span (icase : bool) (r : Re.regex) :
  forall pos s caps (k : nat -> string -> Re.captures -> option A) a,
    Re.run icase r pos s caps k = Some a ->
    exists pre s' caps',
      s = pre ++ s' /\ k (pos + String.length pre) s' caps' = Some a.
Proof.
  induction r as [c | neg p | | r1 IH1 r2 IH2 | r1 IH1 r2 IH2 | greedy neg p
                  | g r1 IH1 | | ];
    intros pos s caps k a H; simpl in H.
  - destruct s as [|d s]; [discriminate|].
    destruct (Re.chr_eq icase c d); [|discriminate].
    exists (String d EmptyString), s, caps. simpl. rewrite Nat.add_1_r. auto.
  - destruct s as [|d s]; [discriminate|].
    destruct (Re.cls_in icase neg p d); [|discriminate].
    exists (String d EmptyString), s, caps. simpl. rewrite Nat.add_1_r. auto.
  - exists EmptyString, s, caps. rewrite Nat.add_0_r. auto.
  - apply IH1 in H. destruct H as (pre1 & s1 & caps1 & Hs1 & H).
    apply IH2 in H. destruct H as (pre2 & s2 & caps2 & Hs2 & H).
    exists (pre1 ++ pre2), s2, caps2. split.
    + rewrite append_assoc, <- Hs2. exact Hs1.
    + rewrite length_append, Nat.add_assoc. exact H.
  - destruct (Re.run icase r1 pos s caps k) eqn:E.
    + inversion H; subst. apply IH1 in E. exact E.
    + apply IH2 in H. exact H.
  - assert (Hk : exists pre s', s = pre ++ s'
                                /\ k (pos + String.length pre) s' caps = Some a).
    { destruct greedy.
      - apply (star_greedy_span _ (fun pos' s' => k pos' s' caps) _ _ _ H).
      - apply (star_lazy_span _ (fun pos' s' => k pos' s' caps) _ _ _ H). }
    destruct Hk as (pre & s' & Hs & Hk). exists pre, s', caps. auto.
  - apply IH1 in H. destruct H as (pre & s' & caps' & Hs & H).
    eexists pre, s', _. split; [exact Hs | exact H].
  - destruct (Nat.eqb pos 0); [|discriminate].
    exists EmptyString, s, caps. rewrite Nat.add_0_r. auto.
  - destruct (Re.at_end s); [|discriminate].
    exists EmptyString, s, caps. rewrite Nat.add_0_r. auto.
Qed.
End SpanFacts.

Lemma substring_prefix (pre rest : string) :
  substring 0 (String.length pre) (pre ++ rest) = pre.
Proof.
  induction pre as [|c pre IH]; simpl.
  - destruct rest; reflexivity.
  - rewrite IH. reflexivity.
Qed.

Lemma match_at_span (icase : bool) (r : Re.regex) (pos : nat) (s : string)
    (m : Re.rmatch) :
  Re.match_at icase r pos s = Some m ->
  Re.m_start m = pos /\ exists rest, s = Re.m_whole m ++ rest.
Proof.
  unfold Re.match_at. intros H. apply run_span in H.
  destruct H as (pre & s' & caps' & Hs & H). inversion H; subst. simpl.
  split; [reflexivity|]. exists s'.
  replace (pos + String.length pre - pos) with (String.length pre) by lia.
  rewrite substring_prefix. reflexivity.
Qed.

(** [re.search] reports a piece of the text, and where it starts. *)
Lemma search_span (icase : bool) (r : Re.regex) (text : string) (m : Re.rmatch) :
  Re.search icase r text = Some m ->
  exists before after,
    text = before ++ Re.m_whole m ++ after /\ Re.m_start m = String.length before.
Proof.
  unfold Re.search.
  assert (H : forall s pos,
             Re.search_from icase r pos s = Some m ->
             exists before after,
               s = before ++ Re.m_whole m ++ after
               /\ Re.m_start m = pos + String.length before).
  { induction s as [|c s IH]; intros pos Hs; simpl in Hs.
    - destruct (Re.match_at icase r pos EmptyString) eqn:E; [|discriminate].
      inversion Hs; subst. apply match_at_span in E. destruct E as [Hstart [rest Hrest]].
      exists EmptyString, rest. rewrite Nat.add_0_r. auto.
    - destruct (Re.match_at icase r pos (String c s)) eqn:E.
      + inversion Hs; subst. apply match_at_span in E.
        destruct E as [Hstart [rest Hrest]].
        exists EmptyString, rest. rewrite Nat.add_0_r. auto.
      + destruct (IH _ Hs) as (before & after & Hs' & Hstart).
        exists (String c before), after. split; [simpl; rewrite <- Hs'; reflexivity|].
        simpl. rewrite Nat.add_succ_r. exact Hstart. }
  intros Hs. destruct (H _ _ Hs) as (before & after & Ht & Hstart).
  exists before, after. auto.
Qed.

(** ** More on [detect_tool_call] *)
Section DetectSpan.
Context {F : Type}.
Variable registry : ToolManager.Registry F.

Lemma try_pattern_match (text : string) (p : ToolManager.pattern)
    (r : ToolManager.DetectionResult) :
  ToolManager.try_pattern registry text p = Some r ->
  exists m, Re.search true (ToolManager.re p) text = Some m
            /\ ToolManager.original_text r = Some (Re.m_whole m).
Proof.
  unfold ToolManager.try_pattern, ToolManager.let_me_case, ToolManager.standard_case.
  destruct (Re.search true (ToolManager.re p) text) as [m|]; [|discriminate].
  intros H. exists m. split; [reflexivity|]. revert H.
  repeat match goal with
         | |- context [if ?b then _ else _] => destruct b
         end;
    intros H; inversion H; subst; reflexivity.
Qed.

Lemma try_indicator_match (text : string) (r : Re.regex)
    (d : ToolManager.DetectionResult) :
  ToolManager.try_indicator text r = Some d ->
  exists m, Re.search true r text = Some m
            /\ ToolManager.original_text d = Some (Re.m_whole m).
Proof.
  unfold ToolManager.try_indicator.
  destruct (Re.search true r text) as [m|]; [|discriminate].
  intros H. inversion H; subst. exists m. auto.
Qed.
End DetectSpan.

(** X4.  Whatever is registered, a tool that [detect_tool_call] reports is
    the web search with the single argument query, or the calculator with
    the single argument expression; so the defaults of the two [get] calls
    of lines 308 and 347 are never used. *)
Theorem detected_tool_and_argument :
  forall (F : Type) (registry : ToolManager.Registry F) (text name : string),
    ToolManager.tool_name (ToolManager.detect_tool_call registry text) = Some name ->
    exists value,
      (name = "web_search"
       /\ ToolManager.arguments (ToolManager.detect_tool_call registry text)
          = Some [("query", value)]
       /\ Main.detected_get
            (ToolManager.arguments (ToolManager.detect_tool_call registry text)) "query"
          = Ret value)
      \/ (name = "calculate"
          /\ ToolManager.arguments (ToolManager.detect_tool_call registry text)
             = Some [("expression", value)]
          /\ Main.detected_get
               (ToolManager.arguments (ToolManager.detect_tool_call registry text))
               "expression"
             = Ret value).
Proof.
  intros F registry text name. unfold ToolManager.detect_tool_call.
  destruct (detect_with_cases registry ToolManager.patterns text) as [H|H].
  - destruct H as [value m | value m]; simpl; intros Hname; inversion Hname; subst;
      exists value; [left | right]; repeat split; reflexivity.
  - rewrite H. discriminate.
Qed.

Lemma detected_tool_and_argument_witness :
  exists value,
    ("calculate" = "web_search"
     /\ ToolManager.arguments
          (ToolManager.detect_tool_call (ToolManager.load_tools tt tt)
             "Let me calculate '6*7'") = Some [("query", value)]
     /\ Main.detected_get
          (ToolManager.arguments
             (ToolManager.detect_tool_call (ToolManager.load_tools tt tt)
                "Let me calculate '6*7'")) "query" = Ret value)
    \/ ("calculate" = "calculate"
        /\ ToolManager.arguments
             (ToolManager.detect_tool_call (ToolManager.load_tools tt tt)
                "Let me calculate '6*7'") = Some [("expression", value)]
        /\ Main.detected_get
             (ToolManager.arguments
                (ToolManager.detect_tool_call (ToolManager.load_tools tt tt)
                   "Let me calculate '6*7'")) "expression" = Ret value).
Proof.
  exact (detected_tool_and_argument unit (ToolManager.load_tools tt tt)
           "Let me calculate '6*7'" "calculate" eq_refl).
Defined.

(** X5.  The matched text [detect_tool_call] reports is a piece of the text
    it was given. *)
Theorem original_text_is_a_substring :
  forall (F : Type) (registry : ToolManager.Registry F) (text original : string),
    ToolManager.original_text (ToolManager.detect_tool_call registry text) = Some original ->
    exists before after, text = before ++ original ++ after.
Proof.
  intros F registry text original.
  unfold ToolManager.detect_tool_call, ToolManager.detect_with.
  assert (Hspan : forall (r : Re.regex) (d : ToolManager.DetectionResult),
             (exists m, Re.search true r text = Some m
                        /\ ToolManager.original_text d = Some (Re.m_whole m)) ->
             ToolManager.original_text d = Some original ->
             exists before after, text = before ++ original ++ after).
  { intros r d (m & Hm & Ho) Hd. rewrite Ho in Hd. inversion Hd; subst.
    destruct (search_span _ _ _ _ Hm) as (before & after & Ht & _).
    exists before, after. exact Ht. }
  destruct (ToolManager.first_return _ ToolManager.patterns) as [d|] eqn:E1.
  - apply first_return_in in E1. destruct E1 as (p & _ & Hp).
    apply (Hspan (ToolManager.re p)). eapply try_pattern_match, Hp.
  - destruct (ToolManager.first_return _ ToolManager.search_indicators) as [d|] eqn:E2.
    + apply first_return_in in E2. destruct E2 as (r & _ & Hr).
      apply (Hspan r). eapply try_indicator_match, Hr.
    + discriminate.
Qed.

Lemma original_text_is_a_substring_witness :
  exists before after,
    "Sure. Let me calculate '6*7' for you" = before ++ "Let me calculate '6*7'" ++ after.
Proof.
  exact (original_text_is_a_substring unit (ToolManager.load_tools tt tt)
           "Sure. Let me calculate '6*7' for you" "Let me calculate '6*7'" eq_refl).
Defined.

(** ** What [calculate] lets through to the evaluator *)

Lemma all_chars_append (p : ascii -> bool) (a b : string) :
  Py.all_chars p (a ++ b) = Py.all_chars p a && Py.all_chars p b.
Proof.
  induction a as [|c a IH]; simpl; [reflexivity|].
  rewrite IH, andb_assoc. reflexivity.
Qed.

Lemma replace_evaluable (expression : string) :
  Py.all_chars Calculate.allowed expression = true ->
  Py.all_chars Sandbox.evaluable (Py.replace "^"%char "**" expression) = true.
Proof.
  induction expression as [|c s IH]; [reflexivity|].
  cbn [Py.all_chars Py.replace]. intros H. apply andb_prop in H. destruct H as [Hc Hs].
  destruct (Ascii.eqb c "^") eqn:E.
  - rewrite all_chars_append, (IH Hs). reflexivity.
  - cbn [Py.all_chars]. rewrite (IH Hs). unfold Sandbox.evaluable. rewrite Hc, E. reflexivity.
Qed.

(** Replacing the caret by two stars keeps a text ASCII. *)
Lemma replace_ascii (expression : string) :
  Sandbox.ascii_text expression = true ->
  Sandbox.ascii_text (Py.replace "^" "**" expression) = true.
Proof.
  unfold Sandbox.ascii_text.
  induction expression as [|c expression IH]; simpl; [reflexivity|].
  intros H. apply andb_prop in H. destruct H as [Hc H].
  destruct (Ascii.eqb c "^"); simpl; [exact (IH H)|].
  rewrite Hc. exact (IH H).
Qed.

(** X8.  On an expression of ASCII characters [calculate] hands the
    evaluator nothing but digits, the operators + - * / %, parentheses, dots
    and white space: two evaluators that agree on such texts give the same
    [calculate] on every ASCII expression, whatever either would do with a
    letter, a quote, an underscore or a comma. *)
Theorem calculate_sees_only_whitelisted_text :
  forall (pyobj : Type) (py_eval py_eval' : string -> outcome pyobj)
         (json_dumps : pyobj -> outcome string),
    (forall text, Sandbox.ascii_text text = true ->
                  Py.all_chars Sandbox.evaluable text = true ->
                  py_eval text = py_eval' text) ->
    forall expression,
      Sandbox.ascii_text expression = true ->
      Calculate.calculate pyobj py_eval json_dumps expression
      = Calculate.calculate pyobj py_eval' json_dumps expression.
Proof.
  intros pyobj py_eval py_eval' json_dumps Hagree expression Hascii.
  destruct (Py.all_chars Calculate.allowed expression) eqn:Hall.
  - rewrite !calculate_accepted by exact Hall.
    rewrite (Hagree _ (replace_ascii _ Hascii) (replace_evaluable _ Hall)). reflexivity.
  - rewrite !calculate_rejected by exact Hall. reflexivity.
Qed.

Lemma calculate_sees_only_whitelisted_text_witness :
  Calculate.calculate Z PyInt.py_eval PyInt.json_dumps "__import__('os')"
  = Calculate.calculate Z
      (fun text => if Py.all_chars Sandbox.evaluable text then PyInt.py_eval text
                   else Ret 0%Z)
      PyInt.json_dumps "__import__('os')".
Proof.
  apply (calculate_sees_only_whitelisted_text Z PyInt.py_eval
           (fun text => if Py.all_chars Sandbox.evaluable text then PyInt.py_eval text
                        else Ret 0%Z)
           PyInt.json_dumps).
  - intros text _ H. rewrite H. reflexivity.
  - reflexivity.
Defined.

(** ** [web_search] *)
Section WebSearchFacts.
Variable World : Type.
Variable environ : string -> option string.
Variable http_get_json :
  string -> ToolManager.dict Main.pyval -> World -> outcome WebSearch.json * World.
Variable str_of : WebSearch.py_error -> string.

Lemma format_items_fields (items formatted : list WebSearch.json) :
  WebSearch.format_items str_of items = Ret formatted ->
  List.length formatted = List.length items
  /\ Forall WebSearch.three_fields formatted
  /\ Forall (fun item => exists d, item = WebSearch.JObj d) items.
Proof.
  revert formatted. induction items as [|item rest IH]; intros formatted H; simpl in H.
  - inversion H; subst. repeat split; constructor.
  - destruct (WebSearch.format_item str_of item) as [f|e] eqn:E; [|discriminate].
    destruct (WebSearch.format_items str_of rest) as [fr|e]; [|discriminate].
    inversion H; subst. destruct (IH fr eq_refl) as (Hlen & Hall & Hobj).
    unfold WebSearch.format_item in E. destruct item; try discriminate.
    inversion E; subst. split; [simpl; rewrite Hlen; reflexivity|].
    split; constructor; eauto. do 3 eexists. reflexivity.
Qed.

Lemma format_items_objects (entries : list (ToolManager.dict WebSearch.json)) :
  WebSearch.format_items str_of (map WebSearch.JObj entries)
  = Ret (map (fun d => WebSearch.JObj
                         [ ("title", WebSearch.get_or_empty d "title");
                           ("link", WebSearch.get_or_empty d "link");
                           ("snippet", WebSearch.get_or_empty d "snippet") ]) entries).
Proof.
  induction entries as [|d rest IH]; simpl; [reflexivity|]. rewrite IH. reflexivity.
Qed.
End WebSearchFacts.

(** X9.  [web_search] raises nothing and returns one of five texts: the
    message of a missing API key or of a missing engine id, in which cases
    no request is made; No results found; Search failed followed by the
    message of what was raised; or the indented JSON of a list whose entries
    hold the three fields title, link and snippet and nothing else. *)
Theorem web_search_returns_one_of_five :
  forall (World : Type) (environ : string -> option string)
         (http_get_json : string -> ToolManager.dict Main.pyval -> World
                          -> outcome WebSearch.json * World)
         (str_of : WebSearch.py_error -> string) (query : Main.pyval) (w : World),
    (WebSearch.web_search World environ http_get_json str_of query w
     = (WebSearch.missing_key, w)
     /\ WebSearch.configured (environ "GOOGLE_SEARCH_API") = None)
    \/ (WebSearch.web_search World environ http_get_json str_of query w
        = (WebSearch.missing_engine, w)
        /\ WebSearch.configured (environ "GOOGLE_CSE_ID") = None)
    \/ (exists key engine,
           WebSearch.configured (environ "GOOGLE_SEARCH_API") = Some key
           /\ WebSearch.configured (environ "GOOGLE_CSE_ID") = Some engine
           /\ snd (WebSearch.web_search World environ http_get_json str_of query w)
              = snd (http_get_json WebSearch.url
                       [ ("q", query); ("key", Main.PyStr key);
                         ("cx", Main.PyStr engine); ("num", Main.PyOther "5") ] w)
           /\ (fst (WebSearch.web_search World environ http_get_json str_of query w)
               = "No results found"
               \/ (exists e,
                      fst (WebSearch.web_search World environ http_get_json str_of query w)
                      = "Search failed: " ++ e)
               \/ (exists formatted,
                      fst (WebSearch.web_search World environ http_get_json str_of query w)
                      = WebSearch.dumps (WebSearch.JArr formatted)
                      /\ Forall WebSearch.three_fields formatted))).
Proof.
  intros World environ http_get_json str_of query w. unfold WebSearch.web_search.
  destruct (WebSearch.configured (environ "GOOGLE_SEARCH_API")) as [key|]; [|left; auto].
  destruct (WebSearch.configured (environ "GOOGLE_CSE_ID")) as [engine|];
    [|right; left; auto].
  right. right. exists key, engine. split; [reflexivity|]. split; [reflexivity|].
  destruct (http_get_json _ _ w) as [[search_results|e] w']; simpl.
  2: { split; [reflexivity|]. right. left. exists e. reflexivity. }
  destruct (WebSearch.format_results str_of search_results) as [text|e] eqn:E; simpl.
  2: { split; [reflexivity|]. right. left. exists e. reflexivity. }
  split; [reflexivity|].
  unfold WebSearch.format_results in E.
  destruct (WebSearch.has_items str_of search_results) as [[|]|]; try discriminate.
  - destruct (WebSearch.get_items str_of search_results) as [items|]; [|discriminate].
    destruct (WebSearch.iterate str_of items) as [item_list|]; [|discriminate].
    destruct (WebSearch.format_items str_of item_list) as [formatted|] eqn:Ef;
      [|discriminate].
    inversion E; subst. right. right. exists formatted. split; [reflexivity|].
    apply (format_items_fields _ _ _ Ef).
  - inversion E; subst. left. reflexivity.
Qed.

(** X10.  When the body of the response is an object whose items are a list
    of objects, [web_search] returns the indented JSON of the list that has,
    for each item and in the same order, its title, its link and its snippet,
    an absent field being the empty string; every item is kept, however many
    there are.  When the body is an object without items, it returns No
    results found. *)
Theorem web_search_formats_every_item :
  forall (World : Type) (environ : string -> option string)
         (http_get_json : string -> ToolManager.dict Main.pyval -> World
                          -> outcome WebSearch.json * World)
         (str_of : WebSearch.py_error -> string) (query : Main.pyval) (w w' : World)
         (key engine : string) (body : ToolManager.dict WebSearch.json),
    WebSearch.configured (environ "GOOGLE_SEARCH_API") = Some key ->
    WebSearch.configured (environ "GOOGLE_CSE_ID") = Some engine ->
    http_get_json WebSearch.url
      [ ("q", query); ("key", Main.PyStr key); ("cx", Main.PyStr engine);
        ("num", Main.PyOther "5") ] w
    = (Ret (WebSearch.JObj body), w') ->
    (forall entries,
        ToolManager.get body "items" = Some (WebSearch.JArr (map WebSearch.JObj entries)) ->
        WebSearch.web_search World environ http_get_json str_of query w
        = (WebSearch.dumps
             (WebSearch.JArr
                (map (fun d => WebSearch.JObj
                                 [ ("title", WebSearch.get_or_empty d "title");
                                   ("link", WebSearch.get_or_empty d "link");
                                   ("snippet", WebSearch.get_or_empty d "snippet") ])
                     entries)), w'))
    /\ (ToolManager.get body "items" = None ->
        WebSearch.web_search World environ http_get_json str_of query w
        = ("No results found", w')).
Proof.
  intros World environ http_get_json str_of query w w' key engine body Hkey Hengine Hget.
  unfold WebSearch.web_search. rewrite Hkey, Hengine, Hget.
  unfold WebSearch.format_results. simpl. unfold ToolManager.has. split.
  - intros entries Hitems. rewrite Hitems. simpl.
    rewrite format_items_objects. reflexivity.
  - intros Hnone. rewrite Hnone. reflexivity.
Qed.

Lemma web_search_formats_every_item_witness :
  WebSearch.web_search unit
    (fun name => if String.eqb name "GOOGLE_SEARCH_API" then Some "k" else Some "e")
    (fun _ _ w =>
       (Ret (WebSearch.JObj
               [("items", WebSearch.JArr
                            (map WebSearch.JObj
                               [ [("title", WebSearch.JStr "Rocq"); ("kind", WebSearch.JNull)];
                                 [("link", WebSearch.JStr "https://rocq-prover.org")] ]))]),
        w))
    (fun _ => "type error") (Main.PyStr "rocq") tt
  = (WebSearch.dumps
       (WebSearch.JArr
          [ WebSearch.JObj [ ("title", WebSearch.JStr "Rocq"); ("link", WebSearch.JStr "");
                             ("snippet", WebSearch.JStr "") ];
            WebSearch.JObj [ ("title", WebSearch.JStr "");
                             ("link", WebSearch.JStr "https://rocq-prover.org");
                             ("snippet", WebSearch.JStr "") ] ]), tt).
Proof.
  exact (proj1 (web_search_formats_every_item unit
                  (fun name => if String.eqb name "GOOGLE_SEARCH_API" then Some "k"
                               else Some "e")
                  (fun _ _ w =>
                     (Ret (WebSearch.JObj
                             [("items", WebSearch.JArr
                                 (map WebSearch.JObj
                                    [ [("title", WebSearch.JStr "Rocq");
                                       ("kind", WebSearch.JNull)];
                                      [("link", WebSearch.JStr "https://rocq-prover.org")] ]))]),
                      w))
                  (fun _ => "type error") (Main.PyStr "rocq") tt tt "k" "e"
                  [("items", WebSearch.JArr
                      (map WebSearch.JObj
                         [ [("title", WebSearch.JStr "Rocq"); ("kind", WebSearch.JNull)];
                           [("link", WebSearch.JStr "https://rocq-prover.org")] ]))]
                  eq_refl eq_refl eq_refl)
           [ [("title", WebSearch.JStr "Rocq"); ("kind", WebSearch.JNull)];
             [("link", WebSearch.JStr "https://rocq-prover.org")] ] eq_refl).
Defined.

(** ** The turn, from its two parts *)
Section SplitFacts.
Variable World : Type.
Variable create : Main.Request -> World -> outcome Main.ApiMessage * World.
Variable json_loads : string -> outcome Main.decoded.
Variable registry : ToolManager.Registry (Main.Tool World).

(** A turn is the router's call, then the first completion call on the
    history with the user's message, then the rest. *)
Lemma run_conversation_split (user_prompt : string) (history : option (list Main.Message))
    (show : bool) (w : World) :
  Main.run_conversation create json_loads registry user_prompt history show w
  = let (suggested, w1) := Main.route_query create user_prompt w in
    let st := Turns.before_first_call user_prompt history show suggested w1 in
    Turns.after_first_call create json_loads registry user_prompt show suggested st
      (create (Main.first_request (ToolManager.get_all_tool_definitions registry)
                 suggested (Main.conversation_history st)) w1).
Proof.
  unfold Main.run_conversation. simpl Main.world at 1.
  destruct (Main.route_query create user_prompt w) as [suggested w1].
  assert (Hst : (let st := Main.feedback show
                             (Main.set_world
                                (Main.append_message
                                   {| Main.world := w;
                                      Main.conversation_history :=
                                        Main.initial_history history;
                                      Main.feedback_messages := [] |}
                                   (Main.text_message Main.user (Some user_prompt))) w1)
                             match suggested with
                             | [] => "Routing decision: no_tool"
                             | _ :: _ => "Routing decision: " ++ Py.join ", " suggested
                             end in
                 match suggested with
                 | [only] => Main.feedback show st ("Directing model to use " ++ only)
                 | _ => st
                 end)
                = Turns.before_first_call user_prompt history show suggested w1).
  { unfold Turns.before_first_call, Turns.routing_feedback.
    destruct show, suggested as [|only [|other rest]]; reflexivity. }
  cbv zeta in Hst. cbv zeta. rewrite Hst. reflexivity.
Qed.
End SplitFacts.

(** ** A turn only appends *)
Section AppendFacts.
Variable World : Type.
Variable create : Main.Request -> World -> outcome Main.ApiMessage * World.
Variable json_loads : string -> outcome Main.decoded.
Variable registry : ToolManager.Registry (Main.Tool World).

Lemma second_call_appends (show : bool) (failed apology : string)
    (done failed_exit : Main.Exit) (st : Main.State World) :
  exists added,
    Main.conversation_history
      (Main.final (Main.second_call create show failed apology done failed_exit st))
    = (Main.conversation_history st ++ added)%list
    /\ Forall (fun m => Main.role m = Main.assistant \/ Main.role m = Main.tool) added.
Proof.
  destruct (second_call_cases World create show failed apology done failed_exit st)
    as [(_ & answer & _ & Hfin) | (_ & _ & Hfin)]; rewrite Hfin.
  - eexists. split; [reflexivity|]. constructor; [left; reflexivity | constructor].
  - exists []. split; [symmetry; apply app_nil_r | constructor].
Qed.

(** Whatever the first completion call gives, the rest of the turn appends
    assistant and tool messages to the history and changes nothing in it. *)
Lemma after_first_call_appends (user_prompt : string) (show : bool)
    (suggested : list string) (st : Main.State World)
    (first : outcome Main.ApiMessage * World) :
  exists added,
    Main.conversation_history
      (Main.final (Turns.after_first_call create json_loads registry user_prompt show
                     suggested st first))
    = (Main.conversation_history st ++ added)%list
    /\ Forall (fun m => Main.role m = Main.assistant \/ Main.role m = Main.tool) added.
Proof.
  assert (Hnil : forall h : list Main.Message,
             exists added,
               h = (h ++ added)%list
               /\ Forall (fun m => Main.role m = Main.assistant \/ Main.role m = Main.tool)
                    added)
    by (intros h; exists []; split; [symmetry; apply app_nil_r | constructor]).
  assert (Hthen : forall (h : list Main.Message) first_added (t : Main.Turn World),
             Forall (fun m => Main.role m = Main.assistant \/ Main.role m = Main.tool)
               first_added ->
             (exists added,
                 Main.conversation_history (Main.final t)
                 = ((h ++ first_added) ++ added)%list
                 /\ Forall (fun m => Main.role m = Main.assistant \/ Main.role m = Main.tool)
                      added) ->
             exists added,
               Main.conversation_history (Main.final t) = (h ++ added)%list
               /\ Forall (fun m => Main.role m = Main.assistant \/ Main.role m = Main.tool)
                    added).
  { intros h first_added t H1 (added & Hh & H2). exists (first_added ++ added)%list.
    split; [rewrite Hh, app_assoc; reflexivity | apply Forall_app; auto]. }
  unfold Turns.after_first_call.
  destruct first as [[response_message|e] w2].
  2: { simpl. rewrite history_feedback. apply Hnil. }
  destruct (Main.am_tool_calls response_message) as [|tool_call rest] eqn:Hcalls.
  - destruct (Main.am_content response_message) as [content|]; [|apply Hnil].
    cbv zeta.
    destruct (detect_with_cases registry ToolManager.patterns content) as [Hd|Hd];
      fold (ToolManager.detect_tool_call registry content) in Hd.
    + destruct (text_detected_shape World create registry show _
                  (Main.set_world st w2) Hd)
        as (name & st' & call_id & args & result & Htruthy & Hbranch & Hh').
      rewrite history_set_world in Hh'. rewrite Htruthy, Hbranch.
      apply (Hthen _ [Main.tool_call_message call_id name args;
                      Main.tool_message call_id name result]).
      * constructor; [left; reflexivity|]. constructor; [right; reflexivity | constructor].
      * rewrite <- Hh'. apply second_call_appends.
    + rewrite Hd. simpl Main.truthy. cbv iota.
      destruct suggested as [|primary others].
      * destruct (undetected_direct World create registry show user_prompt [] content
                    (Main.set_world st w2)) as (st' & Hbranch & Hh'); [discriminate|].
        rewrite Hbranch. simpl. rewrite Hh'. eexists. split; [reflexivity|].
        constructor; [left; reflexivity | constructor].
      * destruct (String.eqb primary "web_search") eqn:E.
        -- apply String.eqb_eq in E. subst primary.
           destruct (undetected_forced World create registry show user_prompt others
                       content (Main.set_world st w2))
             as (st' & results & Hbranch & _ & Hh').
           rewrite history_set_world in Hh'. rewrite Hbranch.
           apply (Hthen _ [Main.tool_call_message "forced_web_search_call" "web_search"
                             (Main.args_json "query" user_prompt);
                           Main.tool_message "forced_web_search_call" "web_search" results]).
           ++ constructor; [left; reflexivity|].
              constructor; [right; reflexivity | constructor].
           ++ rewrite <- Hh'. apply second_call_appends.
        -- destruct (undetected_direct World create registry show user_prompt
                       (primary :: others) content (Main.set_world st w2))
             as (st' & Hbranch & Hh').
           { simpl. intros Heq. inversion Heq; subst.
             rewrite String.eqb_refl in E. discriminate. }
           rewrite Hbranch. simpl. rewrite Hh'. eexists. split; [reflexivity|].
           constructor; [left; reflexivity | constructor].
  - cbv zeta.
    pose proof (process_tool_calls_history World json_loads registry show
                  (tool_call :: rest)
                  (Main.append_message (Main.set_world st w2)
                     (Main.as_message response_message))) as Hloop.
    destruct Hloop as (added & Hadded & Hall).
    rewrite history_append, history_set_world in Hadded.
    assert (Htools : Forall (fun m => Main.role m = Main.assistant
                                      \/ Main.role m = Main.tool)
                       (Main.as_message response_message :: added)).
    { constructor; [left; reflexivity|]. eapply Forall_impl; [|exact Hall].
      intros m (tc & result & _ & Hm). subst m. right. reflexivity. }
    destruct (Main.process_tool_calls json_loads registry show (tool_call :: rest) _)
      as [[e|] st']; simpl in Hadded.
    + simpl. exists (Main.as_message response_message :: added).
      split; [rewrite Hadded, <- app_assoc; reflexivity | exact Htools].
    + apply (Hthen _ (Main.as_message response_message :: added)); [exact Htools|].
      replace ((Main.conversation_history st
                  ++ Main.as_message response_message :: added)%list)
        with (Main.conversation_history st')
        by (rewrite Hadded, <- app_assoc; reflexivity).
      apply second_call_appends.
Qed.
End AppendFacts.

(** X11.  A turn only appends to the history it was given: the messages that
    were there stay as they were, the first one appended is the user's
    message, and every one after it is an assistant or a tool message.  This
    holds however the turn ends, also when an exception leaves it. *)
Theorem history_is_append_only :
  forall (World : Type)
         (create : Main.Request -> World -> outcome Main.ApiMessage * World)
         (json_loads : string -> outcome Main.decoded)
         (registry : ToolManager.Registry (Main.Tool World))
         (user_prompt : string) (history : option (list Main.Message)) (show : bool)
         (w : World),
  exists added,
    Main.conversation_history
      (Main.final (Main.run_conversation create json_loads registry user_prompt history
                     show w))
    = (Main.initial_history history
         ++ Main.text_message Main.user (Some user_prompt) :: added)%list
    /\ Forall (fun m => Main.role m = Main.assistant \/ Main.role m = Main.tool) added.
Proof.
  intros World create json_loads registry user_prompt history show w.
  rewrite run_conversation_split.
  destruct (Main.route_query create user_prompt w) as [suggested w1]. cbv zeta.
  destruct (after_first_call_appends World create json_loads registry user_prompt show
              suggested
              (Turns.before_first_call user_prompt history show suggested w1)
              (create (Main.first_request (ToolManager.get_all_tool_definitions registry)
                         suggested
                         (Main.conversation_history
                            (Turns.before_first_call user_prompt history show suggested
                               w1))) w1))
    as (added & Hh & Hall).
  exists added. split; [|exact Hall]. rewrite Hh. simpl. rewrite <- app_assoc. reflexivity.
Qed.

(** ** The feedback list *)
Section FeedbackFacts.
Variable World : Type.
Variable create : Main.Request -> World -> outcome Main.ApiMessage * World.
Variable json_loads : string -> outcome Main.decoded.
Variable registry : ToolManager.Registry (Main.Tool World).

Lemma grew_refl (show : bool) (st st' : Main.State World) :
  Main.feedback_messages st' = Main.feedback_messages st -> Turns.grew show st st'.
Proof.
  intros H. exists []. split; [rewrite H; symmetry; apply app_nil_r | reflexivity].
Qed.

Lemma grew_trans (show : bool) (st1 st2 st3 : Main.State World) :
  Turns.grew show st1 st2 -> Turns.grew show st2 st3 -> Turns.grew show st1 st3.
Proof.
  intros (m1 & H1 & F1) (m2 & H2 & F2). exists (m1 ++ m2)%list. split.
  - rewrite H2, H1, app_assoc. reflexivity.
  - intros Hs. rewrite (F1 Hs), (F2 Hs). reflexivity.
Qed.

Lemma grew_feedback (show : bool) (st : Main.State World) (text : string) :
  Turns.grew show st (Main.feedback show st text).
Proof.
  destruct show; simpl.
  - exists [text]. split; [reflexivity | discriminate].
  - apply grew_refl. reflexivity.
Qed.

Lemma grew_call_caught (show : bool) (f : option (Main.Tool World)) (arg : Main.pyval)
    (failed : string) (st : Main.State World) :
  Turns.grew show st (snd (Main.call_caught f arg failed st)).
Proof.
  apply grew_refl. unfold Main.call_caught.
  destruct (Main.call_tool f arg (Main.world st)) as [[r|e] w']; reflexivity.
Qed.

Lemma grew_second_call (show : bool) (failed apology : string)
    (done failed_exit : Main.Exit) (st : Main.State World) :
  Turns.grew show st (Main.final (Main.second_call create show failed apology done failed_exit st)).
Proof.
  unfold Main.second_call.
  destruct (create _ (Main.world st)) as [[second_response|e] w']; simpl.
  - apply grew_refl. reflexivity.
  - eapply grew_trans; [|apply grew_feedback]. apply grew_refl. reflexivity.
Qed.

Lemma grew_process_tool_call (show : bool) (tool_call : Main.ToolCall)
    (st : Main.State World) :
  Turns.grew show st (snd (Main.process_tool_call json_loads registry show tool_call st)).
Proof.
  unfold Main.process_tool_call.
  destruct (ToolManager.get_tool_function registry (Main.tc_name tool_call)) as [f|];
    [|apply grew_feedback].
  destruct (json_loads (Main.tc_arguments tool_call)) as [function_args|e];
    [|apply grew_refl; reflexivity].
  destruct (String.eqb (Main.tc_name tool_call) "web_search").
  { destruct (Main.args_get function_args "query") as [query|e];
      [|apply grew_refl; reflexivity].
    match goal with
    | |- context [Main.call_caught ?f ?a ?msg ?s] =>
        pose proof (grew_call_caught show f a msg s) as Hc;
        destruct (Main.call_caught f a msg s) as [r s']
    end.
    simpl in *. eapply grew_trans; [apply grew_feedback|].
    eapply grew_trans; [exact Hc|]. apply grew_refl. reflexivity. }
  destruct (String.eqb (Main.tc_name tool_call) "calculate").
  { destruct (Main.args_get function_args "expression") as [expression|e];
      [|apply grew_refl; reflexivity].
    match goal with
    | |- context [Main.call_caught ?f ?a ?msg ?s] =>
        pose proof (grew_call_caught show f a msg s) as Hc;
        destruct (Main.call_caught f a msg s) as [r s']
    end.
    simpl in *. eapply grew_trans; [apply grew_feedback|].
    eapply grew_trans; [exact Hc|]. apply grew_refl. reflexivity. }
  simpl. eapply grew_trans; [apply grew_feedback|]. apply grew_refl. reflexivity.
Qed.

Lemma grew_process_tool_calls (show : bool) (tool_calls : list Main.ToolCall) :
  forall st : Main.State World,
    Turns.grew show st (snd (Main.process_tool_calls json_loads registry show tool_calls st)).
Proof.
  induction tool_calls as [|tool_call rest IH]; intros st; simpl.
  - apply grew_refl. reflexivity.
  - pose proof (grew_process_tool_call show tool_call st) as H1.
    destruct (Main.process_tool_call json_loads registry show tool_call st) as [[e|] st'];
      simpl in *; [exact H1|].
    eapply grew_trans; [exact H1 | apply IH].
Qed.

Lemma grew_run_detected_tool (show : bool) (tool_name display parameter failed call_id
    value : string) (st : Main.State World) :
  Turns.grew show st
    (Main.run_detected_tool registry show tool_name display parameter failed call_id
       value st).
Proof.
  unfold Main.run_detected_tool.
  match goal with
  | |- context [Main.call_caught ?f ?a ?msg ?s] =>
      pose proof (grew_call_caught show f a msg s) as Hc;
      destruct (Main.call_caught f a msg s) as [r s']
  end.
  simpl in *. eapply grew_trans; [apply grew_feedback|].
  eapply grew_trans; [apply grew_feedback|].
  eapply grew_trans; [exact Hc|]. apply grew_refl. reflexivity.
Qed.

Lemma grew_text_detected_branch (show : bool) (tool_name : string)
    (arguments : option (ToolManager.dict string)) (st : Main.State World) :
  Turns.grew show st
    (Main.final (Main.text_detected_branch create registry show tool_name arguments st)).
Proof.
  unfold Main.text_detected_branch.
  destruct (String.eqb tool_name "web_search").
  { destruct (Main.detected_get arguments "query") as [query|e];
      [|apply grew_refl; reflexivity].
    eapply grew_trans; [apply grew_run_detected_tool | apply grew_second_call]. }
  destruct (String.eqb tool_name "calculate").
  { destruct (Main.detected_get arguments "expression") as [expression|e];
      [|apply grew_refl; reflexivity].
    eapply grew_trans; [apply grew_run_detected_tool | apply grew_second_call]. }
  apply grew_second_call.
Qed.

Lemma grew_direct_answer (show : bool) (suggested : list string) (content : string)
    (st : Main.State World) :
  Turns.grew show st (Main.final (Main.direct_answer show suggested content st)).
Proof.
  unfold Main.direct_answer. simpl.
  destruct suggested; [apply grew_refl; reflexivity|].
  eapply grew_trans; [apply grew_feedback | apply grew_refl; reflexivity].
Qed.

Lemma grew_undetected_branch (show : bool) (user_prompt : string)
    (suggested : list string) (content : string) (st : Main.State World) :
  Turns.grew show st
    (Main.final (Main.undetected_branch create registry show user_prompt suggested
                   content st)).
Proof.
  unfold Main.undetected_branch.
  destruct suggested as [|primary others]; [apply grew_direct_answer|].
  destruct (String.eqb primary "web_search").
  - eapply grew_trans; [apply grew_feedback|].
    eapply grew_trans; [|apply grew_second_call].
    unfold Main.force_web_search.
    match goal with
    | |- context [Main.call_caught ?f ?a ?msg ?s] =>
        pose proof (grew_call_caught show f a msg s) as Hc;
        destruct (Main.call_caught f a msg s) as [r s']
    end.
    simpl in *. eapply grew_trans; [exact Hc|].
    eapply grew_trans; [apply grew_feedback | apply grew_refl; reflexivity].
  - eapply grew_trans; [apply grew_feedback|].
    eapply grew_trans; [|apply grew_direct_answer].
    destruct (String.eqb primary "calculate");
      [apply grew_feedback | apply grew_refl; reflexivity].
Qed.

Lemma grew_after_first_call (user_prompt : string) (show : bool)
    (suggested : list string) (st : Main.State World)
    (first : outcome Main.ApiMessage * World) :
  Turns.grew show st
    (Main.final (Turns.after_first_call create json_loads registry user_prompt show
                   suggested st first)).
Proof.
  unfold Turns.after_first_call.
  destruct first as [[response_message|e] w2].
  2: { simpl. eapply grew_trans; [|apply grew_feedback]. apply grew_refl. reflexivity. }
  cbv zeta.
  destruct (Main.am_tool_calls response_message) as [|tool_call rest].
  - destruct (Main.am_content response_message) as [content|];
      [|apply grew_refl; reflexivity].
    destruct (Main.truthy _) as [name|].
    + eapply grew_trans; [|apply grew_text_detected_branch]. apply grew_refl. reflexivity.
    + eapply grew_trans; [|apply grew_undetected_branch]. apply grew_refl. reflexivity.
  - pose proof (grew_process_tool_calls show (tool_call :: rest)
                  (Main.append_message (Main.set_world st w2)
                     (Main.as_message response_message))) as Hloop.
    destruct (Main.process_tool_calls json_loads registry show (tool_call :: rest) _)
      as [[e|] st']; simpl in Hloop.
    + simpl. eapply grew_trans; [|exact Hloop]. apply grew_refl. reflexivity.
    + eapply grew_trans; [|apply grew_second_call].
      eapply grew_trans; [|exact Hloop]. apply grew_refl. reflexivity.
Qed.
End FeedbackFacts.

(** X12.  With [show_feedback] off a turn returns no feedback message at
    all; with it on the first message is the routing decision, and what the
    router suggested is what that message names. *)
Theorem feedback_follows_show_feedback :
  forall (World : Type)
         (create : Main.Request -> World -> outcome Main.ApiMessage * World)
         (json_loads : string -> outcome Main.decoded)
         (registry : ToolManager.Registry (Main.Tool World))
         (user_prompt : string) (history : option (list Main.Message)) (w : World),
    Main.feedback_messages
      (Main.final (Main.run_conversation create json_loads registry user_prompt history
                     false w)) = []
    /\ exists more,
        Main.feedback_messages
          (Main.final (Main.run_conversation create json_loads registry user_prompt
                         history true w))
        = (match fst (Main.route_query create user_prompt w) with
           | [] => "Routing decision: no_tool"
           | suggested => "Routing decision: " ++ Py.join ", " suggested
           end) :: more.
Proof.
  intros World create json_loads registry user_prompt history w. split.
  - rewrite run_conversation_split.
    destruct (Main.route_query create user_prompt w) as [suggested w1]. cbv zeta.
    match goal with
    | |- Main.feedback_messages
           (Main.final (Turns.after_first_call _ _ _ _ _ _ ?st ?first)) = _ =>
        destruct (grew_after_first_call World create json_loads registry user_prompt
                    false suggested st first) as (more & Hmore & Hoff)
    end.
    rewrite Hmore, (Hoff eq_refl). reflexivity.
  - rewrite run_conversation_split.
    destruct (Main.route_query create user_prompt w) as [suggested w1]. cbv zeta.
    match goal with
    | |- context [Main.final (Turns.after_first_call _ _ _ _ _ _ ?st ?first)] =>
        destruct (grew_after_first_call World create json_loads registry user_prompt
                    true suggested st first) as (more & Hmore & _)
    end.
    rewrite Hmore. simpl.
    destruct suggested as [|only [|other rest]]; eexists; reflexivity.
Qed.

(** ** The number of completion calls *)
Section CountFacts.
Variable World : Type.
Variable create : Main.Request -> World -> outcome Main.ApiMessage * World.
Variable json_loads : string -> outcome Main.decoded.
Variable registry : ToolManager.Registry (Main.Tool World).

Lemma count_feedback (show : bool) (st : Main.State (nat * World)) (text : string) :
  fst (Main.world (Main.feedback show st text)) = fst (Main.world st).
Proof. destruct show; reflexivity. Qed.

Lemma get_counting_registry (tool_name : string) :
  ToolManager.get_tool_function (Counting.counting_registry registry) tool_name
  = option_map Counting.counting_tool (ToolManager.get_tool_function registry tool_name).
Proof.
  unfold ToolManager.get_tool_function, Counting.counting_registry. simpl.
  induction (ToolManager._tools registry) as [|[k f] d IH]; simpl; [reflexivity|].
  destruct (String.eqb tool_name k); [reflexivity | exact IH].
Qed.

(** A tool of the counting registry leaves the count alone. *)
Lemma count_call_caught (f : option (Main.Tool World)) (arg : Main.pyval)
    (failed : string) (st : Main.State (nat * World)) :
  fst (Main.world (snd (Main.call_caught (option_map Counting.counting_tool f) arg failed
                          st)))
  = fst (Main.world st).
Proof.
  unfold Main.call_caught, Main.call_tool, Counting.counting_tool.
  destruct f as [f|]; simpl; [|reflexivity].
  destruct (f arg (snd (Main.world st))) as [[r|e] w']; reflexivity.
Qed.

Lemma count_second_call (show : bool) (failed apology : string)
    (done failed_exit : Main.Exit) (st : Main.State (nat * World)) :
  fst (Main.world
         (Main.final (Main.second_call (Counting.counting_create create) show failed
                        apology done failed_exit st)))
  = S (fst (Main.world st))
  /\ (Main.exit (Main.second_call (Counting.counting_create create) show failed
                   apology done failed_exit st) = done
      \/ Main.exit (Main.second_call (Counting.counting_create create) show failed
                      apology done failed_exit st) = failed_exit).
Proof.
  unfold Main.second_call, Counting.counting_create.
  destruct (create _ (snd (Main.world st))) as [[second_response|e] w']; simpl.
  - auto.
  - rewrite count_feedback. auto.
Qed.

Lemma count_process_tool_call (show : bool) (tool_call : Main.ToolCall)
    (st : Main.State (nat * World)) :
  fst (Main.world (snd (Main.process_tool_call json_loads
                          (Counting.counting_registry registry) show tool_call st)))
  = fst (Main.world st).
Proof.
  unfold Main.process_tool_call. rewrite get_counting_registry.
  destruct (ToolManager.get_tool_function registry (Main.tc_name tool_call)) as [f|];
    simpl; [|apply count_feedback].
  destruct (json_loads (Main.tc_arguments tool_call)) as [function_args|e];
    [|reflexivity].
  destruct (String.eqb (Main.tc_name tool_call) "web_search").
  { destruct (Main.args_get function_args "query") as [query|e]; [|reflexivity].
    match goal with
    | |- context [Main.call_caught (Some (Counting.counting_tool ?f)) ?a ?msg ?s] =>
        pose proof (count_call_caught (Some f) a msg s) as Hc; simpl in Hc;
        destruct (Main.call_caught (Some (Counting.counting_tool f)) a msg s) as [r s']
    end.
    simpl in *. rewrite Hc. apply count_feedback. }
  destruct (String.eqb (Main.tc_name tool_call) "calculate").
  { destruct (Main.args_get function_args "expression") as [expression|e]; [|reflexivity].
    match goal with
    | |- context [Main.call_caught (Some (Counting.counting_tool ?f)) ?a ?msg ?s] =>
        pose proof (count_call_caught (Some f) a msg s) as Hc; simpl in Hc;
        destruct (Main.call_caught (Some (Counting.counting_tool f)) a msg s) as [r s']
    end.
    simpl in *. rewrite Hc. apply count_feedback. }
  simpl. apply count_feedback.
Qed.

Lemma count_process_tool_calls (show : bool) (tool_calls : list Main.ToolCall) :
  forall st : Main.State (nat * World),
    fst (Main.world (snd (Main.process_tool_calls json_loads
                            (Counting.counting_registry registry) show tool_calls st)))
    = fst (Main.world st).
Proof.
  induction tool_calls as [|tool_call rest IH]; intros st; simpl; [reflexivity|].
  pose proof (count_process_tool_call show tool_call st) as H1.
  destruct (Main.process_tool_call json_loads _ show tool_call st) as [[e|] st'];
    simpl in *; [exact H1|]. rewrite IH. exact H1.
Qed.

Lemma count_run_detected_tool (show : bool) (tool_name display parameter failed call_id
    value : string) (st : Main.State (nat * World)) :
  fst (Main.world (Main.run_detected_tool (Counting.counting_registry registry) show
                     tool_name display parameter failed call_id value st))
  = fst (Main.world st).
Proof.
  unfold Main.run_detected_tool. rewrite get_counting_registry.
  match goal with
  | |- context [Main.call_caught (option_map Counting.counting_tool ?f) ?a ?msg ?s] =>
      pose proof (count_call_caught f a msg s) as Hc;
      destruct (Main.call_caught (option_map Counting.counting_tool f) a msg s) as [r s']
  end.
  simpl in *. rewrite Hc, !count_feedback. reflexivity.
Qed.

(** The completion calls a turn makes after the first, by the way it ends. *)
Lemma count_after_first_call (user_prompt : string) (show : bool)
    (suggested : list string) (st : Main.State (nat * World))
    (first : outcome Main.ApiMessage * (nat * World)) :
  fst (Main.world
         (Main.final (Turns.after_first_call (Counting.counting_create create) json_loads
                        (Counting.counting_registry registry) user_prompt show suggested
                        st first)))
  = match Main.exit (Turns.after_first_call (Counting.counting_create create) json_loads
                       (Counting.counting_registry registry) user_prompt show suggested
                       st first) with
    | Main.FirstCallFailed | Main.Direct | Main.Uncaught => fst (snd first)
    | _ => S (fst (snd first))
    end.
Proof.
  assert (Hsecond : forall failed apology done failed_exit (s : Main.State (nat * World))
                           (n : nat),
             fst (Main.world s) = n ->
             (done = Main.Structured \/ done = Main.TextDetected \/ done = Main.Forced) ->
             (failed_exit = Main.StructuredSecondFailed
              \/ failed_exit = Main.TextSecondFailed
              \/ failed_exit = Main.ForcedSecondFailed) ->
             fst (Main.world
                    (Main.final (Main.second_call (Counting.counting_create create) show
                                   failed apology done failed_exit s)))
             = match Main.exit (Main.second_call (Counting.counting_create create) show
                                  failed apology done failed_exit s) with
               | Main.FirstCallFailed | Main.Direct | Main.Uncaught => n
               | _ => S n
               end).
  { intros failed apology done failed_exit s n Hn Hdone Hfailed.
    destruct (count_second_call show failed apology done failed_exit s) as [Hc [He|He]];
      rewrite Hc, He, Hn.
    - destruct Hdone as [H|[H|H]]; subst; reflexivity.
    - destruct Hfailed as [H|[H|H]]; subst; reflexivity. }
  unfold Turns.after_first_call.
  destruct first as [[response_message|e] [n w2]].
  2: { simpl. apply count_feedback. }
  cbv zeta. simpl snd. simpl fst.
  destruct (Main.am_tool_calls response_message) as [|tool_call rest].
  - destruct (Main.am_content response_message) as [content|]; [|reflexivity].
    destruct (Main.truthy _) as [name|].
    + unfold Main.text_detected_branch.
      destruct (String.eqb name "web_search").
      { destruct (Main.detected_get _ "query") as [query|e]; [|reflexivity].
        apply Hsecond; auto. apply count_run_detected_tool. }
      destruct (String.eqb name "calculate").
      { destruct (Main.detected_get _ "expression") as [expression|e]; [|reflexivity].
        apply Hsecond; auto. apply count_run_detected_tool. }
      apply Hsecond; auto.
    + unfold Main.undetected_branch, Main.direct_answer.
      destruct suggested as [|primary others]; [reflexivity|].
      destruct (String.eqb primary "web_search").
      * apply Hsecond; auto. unfold Main.force_web_search. rewrite get_counting_registry.
        match goal with
        | |- context [Main.call_caught (option_map Counting.counting_tool ?f) ?a ?msg ?s] =>
            pose proof (count_call_caught f a msg s) as Hc;
            destruct (Main.call_caught (option_map Counting.counting_tool f) a msg s)
              as [r s']
        end.
        simpl in *. rewrite count_feedback, Hc, count_feedback. reflexivity.
      * simpl. destruct (String.eqb primary "calculate");
          rewrite !count_feedback; reflexivity.
  - pose proof (count_process_tool_calls show (tool_call :: rest)
                  (Main.append_message (Main.set_world st (n, w2))
                     (Main.as_message response_message))) as Hloop.
    destruct (Main.process_tool_calls json_loads _ show (tool_call :: rest) _)
      as [[e|] st']; simpl in Hloop.
    + simpl. exact Hloop.
    + apply Hsecond; auto.
Qed.
End CountFacts.

(** X13.  A turn calls the completion API twice, for the routing and for the
    first completion, when it ends in a direct answer, in a failed first call
    or in an exception, and three times otherwise; the tools are not counted
    and not a fourth call is ever made. *)
Theorem completion_calls_per_turn :
  forall (World : Type)
         (create : Main.Request -> World -> outcome Main.ApiMessage * World)
         (json_loads : string -> outcome Main.decoded)
         (registry : ToolManager.Registry (Main.Tool World))
         (user_prompt : string) (history : option (list Main.Message)) (show : bool)
         (calls : nat) (w : World),
    fst (Main.world
           (Main.final (Main.run_conversation (Counting.counting_create create) json_loads
                          (Counting.counting_registry registry) user_prompt history show
                          (calls, w))))
    = match Main.exit (Main.run_conversation (Counting.counting_create create) json_loads
                         (Counting.counting_registry registry) user_prompt history show
                         (calls, w)) with
      | Main.FirstCallFailed | Main.Direct | Main.Uncaught => calls + 2
      | _ => calls + 3
      end.
Proof.
  intros World create json_loads registry user_prompt history show calls w.
  rewrite run_conversation_split.
  destruct (Main.route_query (Counting.counting_create create) user_prompt (calls, w))
    as [suggested [n1 w1]] eqn:Hroute.
  assert (Hn1 : n1 = S calls).
  { unfold Main.route_query, Counting.counting_create in Hroute. simpl in Hroute.
    destruct (create (Main.routing_request user_prompt) w) as [[m|e] w'];
      [destruct (Main.am_content m)|]; inversion Hroute; reflexivity. }
  subst n1. cbv zeta.
  rewrite count_after_first_call.
  match goal with
  | |- context [Counting.counting_create create ?req (S calls, w1)] =>
      assert (Hfirst : fst (snd (Counting.counting_create create req (S calls, w1)))
                       = S (S calls))
        by (unfold Counting.counting_create; simpl;
            match goal with
            | |- context [create ?r ?w0] => destruct (create r w0)
            end; reflexivity);
      rewrite Hfirst
  end.
  replace (calls + 2) with (S (S calls)) by lia.
  replace (calls + 3) with (S (S (S calls))) by lia. reflexivity.
Qed.

(** ** When a turn returns *)
Section ReturnFacts.
Variable World : Type.
Variable create : Main.Request -> World -> outcome Main.ApiMessage * World.
Variable json_loads : string -> outcome Main.decoded.
Variable registry : ToolManager.Registry (Main.Tool World).

Lemma process_tool_call_returns (show : bool) (tool_call : Main.ToolCall)
    (st : Main.State World) :
  (exists d, json_loads (Main.tc_arguments tool_call) = Ret (Main.Dict d)) ->
  fst (Main.process_tool_call json_loads registry show tool_call st) = None.
Proof.
  intros [d Hd]. unfold Main.process_tool_call.
  destruct (ToolManager.get_tool_function registry (Main.tc_name tool_call)) as [f|];
    [|reflexivity].
  rewrite Hd.
  destruct (String.eqb (Main.tc_name tool_call) "web_search").
  { simpl. destruct (Main.call_caught _ _ _ _). reflexivity. }
  destruct (String.eqb (Main.tc_name tool_call) "calculate").
  { simpl. destruct (Main.call_caught _ _ _ _). reflexivity. }
  reflexivity.
Qed.

Lemma process_tool_calls_returns (show : bool) (tool_calls : list Main.ToolCall) :
  (forall tool_call,
      In tool_call tool_calls ->
      exists d, json_loads (Main.tc_arguments tool_call) = Ret (Main.Dict d)) ->
  forall st : Main.State World,
    fst (Main.process_tool_calls json_loads registry show tool_calls st) = None.
Proof.
  induction tool_calls as [|tool_call rest IH]; intros Hloads st; simpl; [reflexivity|].
  pose proof (process_tool_call_returns show tool_call st
                (Hloads tool_call (or_introl eq_refl))) as H1.
  destruct (Main.process_tool_call json_loads registry show tool_call st) as [[e|] st'];
    simpl in H1; [discriminate|].
  apply IH. intros other Hin. apply Hloads. right. exact Hin.
Qed.

Lemma second_call_returns (show : bool) (failed apology : string)
    (done failed_exit : Main.Exit) (st : Main.State World) :
  exists answer,
    Main.response (Main.second_call create show failed apology done failed_exit st)
    = Ret answer.
Proof.
  destruct (second_call_cases World create show failed apology done failed_exit st)
    as [(_ & answer & Hresp & _) | (_ & Hresp & _)]; eauto.
Qed.

Lemma after_first_call_returns (user_prompt : string) (show : bool)
    (suggested : list string) (st : Main.State World)
    (first : outcome Main.ApiMessage * World) :
  (forall response_message w' tool_call,
      first = (Ret response_message, w') ->
      In tool_call (Main.am_tool_calls response_message) ->
      exists d, json_loads (Main.tc_arguments tool_call) = Ret (Main.Dict d)) ->
  (forall response_message w',
      first = (Ret response_message, w') ->
      Main.am_tool_calls response_message = [] ->
      exists content, Main.am_content response_message = Some content) ->
  exists answer,
    Main.response (Turns.after_first_call create json_loads registry user_prompt show
                     suggested st first) = Ret answer.
Proof.
  intros Hloads Hcontent. unfold Turns.after_first_call.
  destruct first as [[response_message|e] w2]; [|eexists; reflexivity].
  cbv zeta.
  destruct (Main.am_tool_calls response_message) as [|tool_call rest] eqn:Hcalls.
  - destruct (Hcontent response_message w2 eq_refl Hcalls) as [content Hc]. rewrite Hc.
    destruct (detect_with_cases registry ToolManager.patterns content) as [Hd|Hd];
      fold (ToolManager.detect_tool_call registry content) in Hd.
    + destruct (text_detected_shape World create registry show _
                  (Main.set_world st w2) Hd)
        as (name & st' & call_id & args & result & Htruthy & Hbranch & _).
      rewrite Htruthy, Hbranch. apply second_call_returns.
    + rewrite Hd. simpl Main.truthy. cbv iota.
      unfold Main.undetected_branch, Main.direct_answer.
      destruct suggested as [|primary others]; [eexists; reflexivity|].
      destruct (String.eqb primary "web_search");
        [apply second_call_returns | eexists; reflexivity].
  - pose proof (process_tool_calls_returns show (tool_call :: rest)
                  (fun other Hin => Hloads response_message w2 other eq_refl
                                      (eq_ind_r (fun l => In other l) Hin Hcalls))
                  (Main.append_message (Main.set_world st w2)
                     (Main.as_message response_message))) as Hloop.
    destruct (Main.process_tool_calls json_loads registry show (tool_call :: rest) _)
      as [[e|] st']; simpl in Hloop; [discriminate|].
    apply second_call_returns.
Qed.
End ReturnFacts.

(** X14.  When the arguments of every tool call that a response of the API
    carries decode to an object, and every response without a tool call
    carries a text, no exception leaves a turn: whatever the API, the
    router, the registry and the tools do, also when they raise, and
    whatever the decoder does on other texts, the turn returns an answer. *)
Theorem turn_returns :
  forall (World : Type)
         (create : Main.Request -> World -> outcome Main.ApiMessage * World)
         (json_loads : string -> outcome Main.decoded)
         (registry : ToolManager.Registry (Main.Tool World))
         (user_prompt : string) (history : option (list Main.Message)) (show : bool)
         (w : World),
    (forall request w0 response_message w' tool_call,
        create request w0 = (Ret response_message, w') ->
        In tool_call (Main.am_tool_calls response_message) ->
        exists d, json_loads (Main.tc_arguments tool_call) = Ret (Main.Dict d)) ->
    (forall request w0 response_message w',
        create request w0 = (Ret response_message, w') ->
        Main.am_tool_calls response_message = [] ->
        exists content, Main.am_content response_message = Some content) ->
    exists answer,
      Main.response (Main.run_conversation create json_loads registry user_prompt history
                       show w) = Ret answer.
Proof.
  intros World create json_loads registry user_prompt history show w Hloads Hcontent.
  rewrite run_conversation_split.
  destruct (Main.route_query create user_prompt w) as [suggested w1]. cbv zeta.
  apply after_first_call_returns.
  - intros response_message w' tool_call Hfirst. apply (Hloads _ _ _ _ _ Hfirst).
  - intros response_message w' Hfirst. apply (Hcontent _ _ _ _ Hfirst).
Qed.

Lemma turn_returns_witness :
  exists answer,
    Main.response
      (Main.run_conversation (World := unit)
         (fun request w =>
            match Main.req_tools request with
            | Some _ =>
                (Ret {| Main.am_content := None;
                        Main.am_tool_calls :=
                          [ {| Main.tc_id := "call_1"; Main.tc_name := "web_search";
                               Main.tc_arguments := "{}" |} ] |}, w)
            | None => (Main.says "TOOL: WEB_SEARCH", w)
            end)
         (fun text => if String.eqb text "{}" then Ret (Main.Dict [])
                      else Raise "Expecting value: line 1 column 1 (char 0)")
         (ToolManager.load_tools (fun _ w => (Raise "timed out", w))
            (fun _ w => (Raise "overflow", w)))
         "news today?" None true tt) = Ret answer.
Proof.
  apply turn_returns.
  - intros request w0 response_message w' tool_call H Hin.
    destruct (Main.req_tools request); inversion H; subst; simpl in Hin.
    + destruct Hin as [Hin|[]]. subst tool_call. exists []. reflexivity.
    + destruct Hin.
  - intros request w0 response_message w' H Hcalls.
    destruct (Main.req_tools request); inversion H; subst.
    + discriminate Hcalls.
    + exists "TOOL: WEB_SEARCH". reflexivity.
Defined.

(** ** The loop over the structured tool calls *)
Section StructuredFacts.
Variable World : Type.
Variable json_loads : string -> outcome Main.decoded.
Variable registry : ToolManager.Registry (Main.Tool World).

(** A tool call that raises nothing appends one tool message when its name
    is registered and none when it is not. *)
Lemma process_tool_call_appends (show : bool) (tool_call : Main.ToolCall)
    (st : Main.State World) :
  fst (Main.process_tool_call json_loads registry show tool_call st) = None ->
  exists added,
    Main.conversation_history
      (snd (Main.process_tool_call json_loads registry show tool_call st))
    = (Main.conversation_history st ++ added)%list
    /\ map (fun m => (Main.role m, Main.tool_call_id m, Main.name m)) added
       = if ToolManager.has (ToolManager._tools registry) (Main.tc_name tool_call)
         then [(Main.tool, Some (Main.tc_id tool_call), Some (Main.tc_name tool_call))]
         else [].
Proof.
  unfold Main.process_tool_call, ToolManager.get_tool_function, ToolManager.has.
  destruct (ToolManager.get (ToolManager._tools registry) (Main.tc_name tool_call))
    as [f|].
  2: { intros _. exists []. simpl. rewrite history_feedback, app_nil_r. auto. }
  destruct (json_loads (Main.tc_arguments tool_call)) as [function_args|e];
    [|discriminate].
  destruct (String.eqb (Main.tc_name tool_call) "web_search").
  { destruct (Main.args_get function_args "query") as [query|e]; [|discriminate].
    intros _. split_call_caught r s' Hc. simpl in *.
    eexists [_]. rewrite Hc, history_feedback. split; reflexivity. }
  destruct (String.eqb (Main.tc_name tool_call) "calculate").
  { destruct (Main.args_get function_args "expression") as [expression|e];
      [|discriminate].
    intros _. split_call_caught r s' Hc. simpl in *.
    eexists [_]. rewrite Hc, history_feedback. split; reflexivity. }
  intros _. simpl. eexists [_]. rewrite history_feedback. split; reflexivity.
Qed.
End StructuredFacts.

(** X15.  When the loop over the structured tool calls ends without an
    exception, it has appended one tool message for each call whose name is
    registered, in the order of the calls and carrying the id and the name
    of its call, and nothing for a call whose name is not registered. *)
Theorem tool_messages_follow_tool_calls :
  forall (World : Type) (json_loads : string -> outcome Main.decoded)
         (registry : ToolManager.Registry (Main.Tool World)) (show : bool)
         (tool_calls : list Main.ToolCall) (st st' : Main.State World),
    Main.process_tool_calls json_loads registry show tool_calls st = (None, st') ->
    exists added,
      Main.conversation_history st' = (Main.conversation_history st ++ added)%list
      /\ map (fun m => (Main.role m, Main.tool_call_id m, Main.name m)) added
         = map (fun tool_call =>
                  (Main.tool, Some (Main.tc_id tool_call), Some (Main.tc_name tool_call)))
               (filter (fun tool_call =>
                          ToolManager.has (ToolManager._tools registry)
                            (Main.tc_name tool_call))
                       tool_calls).
Proof.
  intros World json_loads registry show tool_calls.
  induction tool_calls as [|tool_call rest IH]; intros st st' H; simpl in H.
  - inversion H; subst. exists []. rewrite app_nil_r. auto.
  - pose proof (process_tool_call_appends World json_loads registry show tool_call st)
      as H1.
    destruct (Main.process_tool_call json_loads registry show tool_call st)
      as [[e|] st1]; [discriminate|].
    destruct (H1 eq_refl) as (added1 & Hh1 & Hm1). simpl in Hh1.
    destruct (IH st1 st' H) as (added2 & Hh2 & Hm2).
    exists (added1 ++ added2)%list. split.
    + rewrite Hh2, Hh1, app_assoc. reflexivity.
    + rewrite map_app, Hm1, Hm2. simpl.
      destruct (ToolManager.has _ (Main.tc_name tool_call)); reflexivity.
Qed.

Lemma tool_messages_follow_tool_calls_witness :
  exists added,
    Main.conversation_history
      (snd (Main.process_tool_calls (fun _ => Ret (Main.Dict [])) Main.scripted_registry
              true
              [ {| Main.tc_id := "call_1"; Main.tc_name := "calculate";
                   Main.tc_arguments := "{}" |};
                {| Main.tc_id := "call_2"; Main.tc_name := "translate";
                   Main.tc_arguments := "{}" |};
                {| Main.tc_id := "call_3"; Main.tc_name := "web_search";
                   Main.tc_arguments := "{}" |} ]
              {| Main.world := []; Main.conversation_history := [];
                 Main.feedback_messages := [] |}))
    = ([] ++ added)%list
    /\ map (fun m => (Main.role m, Main.tool_call_id m, Main.name m)) added
       = [ (Main.tool, Some "call_1", Some "calculate");
           (Main.tool, Some "call_3", Some "web_search") ].
Proof.
  exact (tool_messages_follow_tool_calls Main.Script (fun _ => Ret (Main.Dict []))
           Main.scripted_registry true
           [ {| Main.tc_id := "call_1"; Main.tc_name := "calculate";
                Main.tc_arguments := "{}" |};
             {| Main.tc_id := "call_2"; Main.tc_name := "translate";
                Main.tc_arguments := "{}" |};
             {| Main.tc_id := "call_3"; Main.tc_name := "web_search";
                Main.tc_arguments := "{}" |} ]
           {| Main.world := []; Main.conversation_history := [];
              Main.feedback_messages := [] |}
           _ eq_refl).
Defined.

(** X16.  A tool that raises does not end the turn: for a web search or a
    calculator call with decodable arguments the tool message carries the
    JSON object whose error is Search failed, or Calculation failed,
    followed by the message of the exception.  A registered tool of another
    name is not called at all: its tool message carries the error Unknown
    function and the world is left as it was. *)
Theorem raising_tool_is_reported :
  forall (World : Type) (json_loads : string -> outcome Main.decoded)
         (registry : ToolManager.Registry (Main.Tool World)) (show : bool)
         (tool_call : Main.ToolCall) (st : Main.State World)
         (tool_function : Main.Tool World) (d : ToolManager.dict Main.pyval),
    ToolManager.get_tool_function registry (Main.tc_name tool_call) = Some tool_function ->
    json_loads (Main.tc_arguments tool_call) = Ret (Main.Dict d) ->
    let value key := match ToolManager.get d key with
                     | Some v => v
                     | None => Main.PyNone
                     end in
    let st' := snd (Main.process_tool_call json_loads registry show tool_call st) in
    let reported text :=
      fst (Main.process_tool_call json_loads registry show tool_call st) = None
      /\ Main.conversation_history st'
         = (Main.conversation_history st
              ++ [Main.tool_message (Main.tc_id tool_call) (Main.tc_name tool_call)
                    (Json.dumps_obj1 "error" (Json.dumps_str text))])%list in
    (forall e w',
        Main.tc_name tool_call = "web_search" ->
        tool_function (value "query") (Main.world st) = (Raise e, w') ->
        reported ("Search failed: " ++ e) /\ Main.world st' = w')
    /\ (forall e w',
           Main.tc_name tool_call = "calculate" ->
           tool_function (value "expression") (Main.world st) = (Raise e, w') ->
           reported ("Calculation failed: " ++ e) /\ Main.world st' = w')
    /\ (Main.tc_name tool_call <> "web_search" ->
        Main.tc_name tool_call <> "calculate" ->
        reported ("Unknown function: " ++ Main.tc_name tool_call)
        /\ Main.world st' = Main.world st).
Proof.
  intros World json_loads registry show tool_call st tool_function d Hget Hloads.
  cbv zeta. unfold Main.process_tool_call. rewrite Hget, Hloads.
  assert (Hw : forall (s : Main.State World) text,
             Main.world (Main.feedback show s text) = Main.world s)
    by (intros; destruct show; reflexivity).
  split; [|split].
  - intros e w' Hname Hraise. rewrite Hname. simpl.
    unfold Main.call_caught, Main.call_tool. rewrite Hw, Hraise. simpl.
    rewrite history_feedback. auto.
  - intros e w' Hname Hraise. rewrite Hname. simpl.
    unfold Main.call_caught, Main.call_tool. rewrite Hw, Hraise. simpl.
    rewrite history_feedback. auto.
  - intros Hws Hcalc.
    destruct (String.eqb (Main.tc_name tool_call) "web_search") eqn:E1;
      [apply String.eqb_eq in E1; contradiction|].
    destruct (String.eqb (Main.tc_name tool_call) "calculate") eqn:E2;
      [apply String.eqb_eq in E2; contradiction|].
    simpl. rewrite history_feedback, Hw. auto.
Qed.

Lemma raising_tool_is_reported_witness :
  Main.conversation_history
    (snd (Main.process_tool_call (World := unit)
            (fun _ => Ret (Main.Dict [("query", Main.PyStr "rocq")]))
            (ToolManager.load_tools (fun _ w => (Raise "timed out", w))
               (fun _ w => (Ret "4", w)))
            false
            {| Main.tc_id := "call_1"; Main.tc_name := "web_search";
               Main.tc_arguments := "{}" |}
            {| Main.world := tt; Main.conversation_history := [];
               Main.feedback_messages := [] |}))
  = [Main.tool_message "call_1" "web_search"
       (Json.dumps_obj1 "error" (Json.dumps_str "Search failed: timed out"))].
Proof.
  exact (proj2 (proj1 (proj1 (raising_tool_is_reported unit
                                (fun _ => Ret (Main.Dict [("query", Main.PyStr "rocq")]))
                                (ToolManager.load_tools (fun _ w => (Raise "timed out", w))
                                   (fun _ w => (Ret "4", w)))
                                false
                                {| Main.tc_id := "call_1"; Main.tc_name := "web_search";
                                   Main.tc_arguments := "{}" |}
                                {| Main.world := tt; Main.conversation_history := [];
                                   Main.feedback_messages := [] |}
                                (fun _ w => (Raise "timed out", w))
                                [("query", Main.PyStr "rocq")] eq_refl eq_refl)
                         "timed out" tt eq_refl eq_refl))).
Defined.

(** ** The turn of a text-detected tool call *)
Section DetectedFacts.
Variable World : Type.
Variable create : Main.Request -> World -> outcome Main.ApiMessage * World.
Variable registry : ToolManager.Registry (Main.Tool World).

(** Lines 307-344 and 346-383 spelled out: the registered function is called
    on the detected value in the world of the state; the synthetic tool call
    and then what the function returned, or the error object of the handler,
    are appended. *)
Lemma run_detected_tool_spelled (show : bool)
    (tool_name display parameter failed call_id value : string)
    (st : Main.State World) (tool_outcome : outcome string) (w3 : World) :
  match ToolManager.get_tool_function registry tool_name with
  | Some tool_function => tool_function (Main.PyStr value) (Main.world st)
  | None => (Raise "'NoneType' object is not callable", Main.world st)
  end = (tool_outcome, w3) ->
  Main.world (Main.run_detected_tool registry show tool_name display parameter failed
                call_id value st) = w3
  /\ Main.conversation_history
       (Main.run_detected_tool registry show tool_name display parameter failed
          call_id value st)
     = (Main.conversation_history st
          ++ [Main.tool_call_message call_id tool_name
                (Json.dumps_obj1 parameter (Json.dumps_str value));
              Main.tool_message call_id tool_name
                match tool_outcome with
                | Ret results => results
                | Raise e => Json.dumps_obj1 "error" (Json.dumps_str (failed ++ ": " ++ e))
                end])%list.
Proof.
  intros Hcall.
  unfold Main.run_detected_tool, Main.call_caught, Main.call_tool.
  rewrite !world_feedback.
  destruct (ToolManager.get_tool_function registry tool_name) as [tool_function|].
  - rewrite Hcall. destruct tool_outcome as [results|e];
      simpl; rewrite ?history_feedback; simpl;
      rewrite <- ?app_assoc; split; reflexivity.
  - inversion Hcall; subst.
    simpl; rewrite ?history_feedback; simpl;
      rewrite <- ?app_assoc; split; reflexivity.
Qed.
End DetectedFacts.

(** X17.  When the first response has no structured tool call and the
    detector finds a tool in its text, the text itself is not appended,
    whatever the router had suggested.  The registered function of the
    detected tool is called on the detected value; the turn appends a
    synthetic tool call with the id manual_web_search_call or
    manual_calculate_call, whose arguments are the JSON of that value, then
    the tool message with what the function returned (or the error object
    when it raised), and makes the second call on exactly that history; its
    answer is appended and returned, or the apology is returned when it
    fails. *)
Theorem text_detected_turn :
  forall (World : Type)
         (create : Main.Request -> World -> outcome Main.ApiMessage * World)
         (json_loads : string -> outcome Main.decoded)
         (registry : ToolManager.Registry (Main.Tool World))
         (user_prompt : string) (history : option (list Main.Message)) (show : bool)
         (w : World) (suggested : list string) (w1 : World)
         (response_message : Main.ApiMessage) (w2 : World) (content name : string),
    Main.route_query create user_prompt w = (suggested, w1) ->
    create (Main.first_request (ToolManager.get_all_tool_definitions registry) suggested
              (Main.initial_history history
                 ++ [Main.text_message Main.user (Some user_prompt)])) w1
    = (Ret response_message, w2) ->
    Main.am_tool_calls response_message = [] ->
    Main.am_content response_message = Some content ->
    ToolManager.tool_name (ToolManager.detect_tool_call registry content) = Some name ->
    let t := Main.run_conversation create json_loads registry user_prompt history show w in
    exists parameter value failed,
      ToolManager.arguments (ToolManager.detect_tool_call registry content)
      = Some [(parameter, value)]
      /\ In (name, parameter, failed)
            [ ("web_search", "query", "Search failed");
              ("calculate", "expression", "Calculation failed") ]
      /\ forall (tool_outcome : outcome string) (w3 : World)
                (second : outcome Main.ApiMessage) (w4 : World),
          match ToolManager.get_tool_function registry name with
          | Some tool_function => tool_function (Main.PyStr value) w2
          | None => (Raise "'NoneType' object is not callable", w2)
          end = (tool_outcome, w3) ->
          let detected_history :=
            (Main.initial_history history
               ++ [Main.text_message Main.user (Some user_prompt);
                   Main.tool_call_message ("manual_" ++ name ++ "_call") name
                     (Json.dumps_obj1 parameter (Json.dumps_str value));
                   Main.tool_message ("manual_" ++ name ++ "_call") name
                     match tool_outcome with
                     | Ret results => results
                     | Raise e =>
                         Json.dumps_obj1 "error" (Json.dumps_str (failed ++ ": " ++ e))
                     end])%list in
          create {| Main.req_model := Main.MODEL; Main.req_messages := detected_history;
                    Main.req_tools := None; Main.req_tool_choice := None |} w3
          = (second, w4) ->
          Main.world (Main.final t) = w4
          /\ match second with
             | Ret second_response =>
                 Main.exit t = Main.TextDetected
                 /\ Main.response t = Ret (Main.am_content second_response)
                 /\ Main.conversation_history (Main.final t)
                    = (detected_history
                         ++ [Main.text_message Main.assistant
                               (Main.am_content second_response)])%list
             | Raise _ =>
                 Main.exit t = Main.TextSecondFailed
                 /\ Main.response t
                    = Ret (Some "I encountered an error processing the results. Please try again.")
                 /\ Main.conversation_history (Main.final t) = detected_history
             end.
Proof.
  intros World create json_loads registry user_prompt history show w suggested w1
         response_message w2 content name Hroute Hfirst Hcalls Hcontent Hname.
  set (st := Main.set_world
               (Turns.before_first_call user_prompt history show suggested w1) w2).
  assert (Hrun :
    Main.run_conversation create json_loads registry user_prompt history show w
    = match Main.truthy (ToolManager.tool_name
                           (ToolManager.detect_tool_call registry content)) with
      | Some tool_name =>
          Main.text_detected_branch create registry show tool_name
            (ToolManager.arguments (ToolManager.detect_tool_call registry content)) st
      | None =>
          Main.undetected_branch create registry show user_prompt suggested content st
      end).
  { rewrite run_conversation_split, Hroute. cbv zeta.
    simpl Main.conversation_history at 1. rewrite Hfirst.
    unfold Turns.after_first_call. rewrite Hcalls, Hcontent. reflexivity. }
  cbv zeta. rewrite Hrun. clear Hrun.
  destruct (detect_with_cases registry ToolManager.patterns content) as [Hd|Hd];
    fold (ToolManager.detect_tool_call registry content) in Hd.
  2: { rewrite Hd in Hname. discriminate. }
  destruct Hd as [value m | value m]; simpl in Hname; inversion Hname; subst name;
    [exists "query", value, "Search failed"
    | exists "expression", value, "Calculation failed"];
    (split; [reflexivity|]); (split; [simpl; auto|]);
    intros tool_outcome w3 second w4 Htool Hsecond;
    simpl Main.truthy; cbv iota;
    unfold Main.text_detected_branch; simpl Main.detected_get; cbv iota;
    [ change (String.eqb "web_search" "web_search") with true
    | change (String.eqb "calculate" "web_search") with false;
      change (String.eqb "calculate" "calculate") with true ];
    cbv iota;
    change w2 with (Main.world st) in Htool;
    match goal with
    | |- context [Main.run_detected_tool registry show ?n ?d ?p ?f ?c ?v st] =>
        destruct (run_detected_tool_spelled World registry show n d p f c v st
                    tool_outcome w3 Htool) as (Hw3 & Hh3);
        pose proof (second_call_spelled World create show
                      "Error in second API call after text tool detection"
                      Main.apology_results Main.TextDetected Main.TextSecondFailed
                      (Main.run_detected_tool registry show n d p f c v st) second w4)
          as Hspelled
    end;
    simpl in Hh3; rewrite <- app_assoc in Hh3; simpl in Hh3;
    rewrite Hh3, Hw3 in Hspelled; exact (Hspelled Hsecond).
Qed.

Lemma text_detected_turn_witness :
  let t := Main.run_conversation Main.scripted_create (fun _ => Ret (Main.Dict []))
             Main.scripted_registry "six times seven?" None true
             [Main.says "NO TOOL"; Main.says "Let me calculate '6*7'"; Main.says "42"] in
  exists parameter value failed,
    ToolManager.arguments
      (ToolManager.detect_tool_call Main.scripted_registry "Let me calculate '6*7'")
    = Some [(parameter, value)]
    /\ In ("calculate", parameter, failed)
          [ ("web_search", "query", "Search failed");
            ("calculate", "expression", "Calculation failed") ]
    /\ forall (tool_outcome : outcome string) (w3 : Main.Script)
              (second : outcome Main.ApiMessage) (w4 : Main.Script),
        match ToolManager.get_tool_function Main.scripted_registry "calculate" with
        | Some tool_function => tool_function (Main.PyStr value) [Main.says "42"]
        | None => (Raise "'NoneType' object is not callable", [Main.says "42"])
        end = (tool_outcome, w3) ->
        let detected_history :=
          (Main.initial_history None
             ++ [Main.text_message Main.user (Some "six times seven?");
                 Main.tool_call_message ("manual_" ++ "calculate" ++ "_call") "calculate"
                   (Json.dumps_obj1 parameter (Json.dumps_str value));
                 Main.tool_message ("manual_" ++ "calculate" ++ "_call") "calculate"
                   match tool_outcome with
                   | Ret results => results
                   | Raise e =>
                       Json.dumps_obj1 "error" (Json.dumps_str (failed ++ ": " ++ e))
                   end])%list in
        Main.scripted_create
          {| Main.req_model := Main.MODEL; Main.req_messages := detected_history;
             Main.req_tools := None; Main.req_tool_choice := None |} w3
        = (second, w4) ->
        Main.world (Main.final t) = w4
        /\ match second with
           | Ret second_response =>
               Main.exit t = Main.TextDetected
               /\ Main.response t = Ret (Main.am_content second_response)
               /\ Main.conversation_history (Main.final t)
                  = (detected_history
                       ++ [Main.text_message Main.assistant
                             (Main.am_content second_response)])%list
           | Raise _ =>
               Main.exit t = Main.TextSecondFailed
               /\ Main.response t
                  = Ret (Some "I encountered an error processing the results. Please try again.")
               /\ Main.conversation_history (Main.final t) = detected_history
           end.
Proof.
  exact (text_detected_turn Main.Script Main.scripted_create (fun _ => Ret (Main.Dict []))
           Main.scripted_registry "six times seven?" None true
           [Main.says "NO TOOL"; Main.says "Let me calculate '6*7'"; Main.says "42"]
           [] [Main.says "Let me calculate '6*7'"; Main.says "42"]
           {| Main.am_content := Some "Let me calculate '6*7'"; Main.am_tool_calls := [] |}
           [Main.says "42"] "Let me calculate '6*7'" "calculate"
           eq_refl eq_refl eq_refl eq_refl eq_refl).
Defined.

(** ** The terminal loop *)
Section CliFacts.
Variable World : Type.
Variable create : Main.Request -> World -> outcome Main.ApiMessage * World.
Variable json_loads : string -> outcome Main.decoded.
Variable registry : ToolManager.Registry (Main.Tool World).

Lemma loop_stops_at_exit (before : list string) (word : string) (after : list string) :
  Cli.is_exit word = true ->
  forall (h : list Main.Message) (out : list Cli.output) (w : World),
    Cli.loop create json_loads registry (before ++ word :: after) h out w
    = Cli.loop create json_loads registry (before ++ [word]) h out w.
Proof.
  intros Hexit. induction before as [|user_input rest IH]; intros h out w; simpl.
  - rewrite Hexit. reflexivity.
  - destruct (Cli.is_exit user_input); [reflexivity|].
    destruct (Main.response _); [apply IH | reflexivity].
Qed.

Lemma loop_ends_on_exit (inputs : list string) :
  forall (h : list Main.Message) (out : list Cli.output) (w : World),
    Cli.ending (Cli.loop create json_loads registry inputs h out w) = Ret tt ->
    exists before word after earlier,
      inputs = (before ++ word :: after)%list
      /\ Cli.is_exit word = true
      /\ Forall (fun line => Cli.is_exit line = false) before
      /\ Cli.written (Cli.loop create json_loads registry inputs h out w)
         = (earlier ++ [Cli.Print "Assistant: Goodbye!"])%list.
Proof.
  induction inputs as [|user_input rest IH]; intros h out w; simpl; [discriminate|].
  destruct (Cli.is_exit user_input) eqn:E.
  - intros _. exists [], user_input, rest. eexists. simpl. auto.
  - destruct (Main.response _) as [answer|e]; [|discriminate].
    intros Hend. destruct (IH _ _ _ Hend) as (before & word & after & earlier & H).
    destruct H as (Hin & Hword & Hbefore & Hwritten).
    exists (user_input :: before), word, after, earlier. subst rest.
    split; [reflexivity|]. split; [exact Hword|]. split; [|exact Hwritten].
    constructor; assumption.
Qed.

Lemma loop_keeps_linked (inputs : list string) :
  forall (h : list Main.Message) (out : list Cli.output) (w : World),
    Main.linked h = true ->
    Main.linked (Cli.session_history (Cli.loop create json_loads registry inputs h out w))
    = true.
Proof.
  induction inputs as [|user_input rest IH]; intros h out w Hh; simpl; [exact Hh|].
  destruct (Cli.is_exit user_input); [exact Hh|].
  pose proof (turn_keeps_linked World create json_loads registry user_input (Some h) true
                w Hh) as Hturn.
  destruct (Main.response _) as [answer|e]; [apply IH|]; exact Hturn.
Qed.
End CliFacts.

(** X18.  The terminal loop stops at the first line that is exit, quit or
    bye in any letter case: it writes the goodbye, reads no line after it,
    and when that line is the first one it has called neither the API nor a
    tool. *)
Theorem main_stops_at_exit_word :
  forall (World : Type)
         (create : Main.Request -> World -> outcome Main.ApiMessage * World)
         (json_loads : string -> outcome Main.decoded)
         (registry : ToolManager.Registry (Main.Tool World))
         (before : list string) (word : string) (after : list string) (w : World),
    Cli.is_exit word = true ->
    Cli.main create json_loads registry (before ++ word :: after) w
    = Cli.main create json_loads registry (before ++ [word]) w
    /\ Cli.main create json_loads registry (word :: after) w
       = {| Cli.written :=
              [ Cli.Print "Welcome to Groq Assistant CLI! Type 'exit' to quit.";
                Cli.Print "Assistant: Hello! How can I assist you today?";
                Cli.Prompt "You: ";
                Cli.Print "Assistant: Goodbye!" ];
            Cli.ending := Ret tt;
            Cli.session_history :=
              [Main.text_message Main.system (Some Cli.cli_system_prompt)];
            Cli.session_world := w |}.
Proof.
  intros World create json_loads registry before word after w Hexit. split.
  - unfold Cli.main. apply loop_stops_at_exit. exact Hexit.
  - unfold Cli.main. simpl. rewrite Hexit. reflexivity.
Qed.

Lemma main_stops_at_exit_word_witness :
  Cli.main Main.scripted_create (fun _ => Ret (Main.Dict [])) Main.scripted_registry
    (["hello"] ++ "QUIT" :: ["what is 2+2?"]) [Main.says "NO TOOL"; Main.says "Hi."]
  = Cli.main Main.scripted_create (fun _ => Ret (Main.Dict [])) Main.scripted_registry
      (["hello"] ++ ["QUIT"]) [Main.says "NO TOOL"; Main.says "Hi."].
Proof.
  exact (proj1 (main_stops_at_exit_word Main.Script Main.scripted_create
                  (fun _ => Ret (Main.Dict [])) Main.scripted_registry
                  ["hello"] "QUIT" ["what is 2+2?"]
                  [Main.says "NO TOOL"; Main.says "Hi."] eq_refl)).
Defined.

(** X19.  However a session of the terminal loop ends, every tool message of
    its history answers a tool call of an earlier assistant message; and it
    ends without an exception only by an exit word, before which no line was
    one, the goodbye being the last thing written. *)
Theorem main_session :
  forall (World : Type)
         (create : Main.Request -> World -> outcome Main.ApiMessage * World)
         (json_loads : string -> outcome Main.decoded)
         (registry : ToolManager.Registry (Main.Tool World))
         (inputs : list string) (w : World),
    Main.linked (Cli.session_history (Cli.main create json_loads registry inputs w)) = true
    /\ (Cli.ending (Cli.main create json_loads registry inputs w) = Ret tt ->
        exists before word after earlier,
          inputs = (before ++ word :: after)%list
          /\ Cli.is_exit word = true
          /\ Forall (fun line => Cli.is_exit line = false) before
          /\ Cli.written (Cli.main create json_loads registry inputs w)
             = (earlier ++ [Cli.Print "Assistant: Goodbye!"])%list).
Proof.
  intros World create json_loads registry inputs w. split.
  - unfold Cli.main. apply loop_keeps_linked. reflexivity.
  - unfold Cli.main. apply loop_ends_on_exit.
Qed.

Lemma main_session_witness :
  exists before word after earlier,
    ["hello"; "Bye"; "more"] = (before ++ word :: after)%list
    /\ Cli.is_exit word = true
    /\ Forall (fun line => Cli.is_exit line = false) before
    /\ Cli.written
         (Cli.main Main.scripted_create (fun _ => Ret (Main.Dict []))
            Main.scripted_registry ["hello"; "Bye"; "more"]
            [Main.says "NO TOOL"; Main.says "Hi."])
       = (earlier ++ [Cli.Print "Assistant: Goodbye!"])%list.
Proof.
  exact (proj2 (main_session Main.Script Main.scripted_create
                  (fun _ => Ret (Main.Dict [])) Main.scripted_registry
                  ["hello"; "Bye"; "more"] [Main.says "NO TOOL"; Main.says "Hi."])
           eq_refl).
Defined.

(** ** Matching a call written out *)
Section StartFacts.
Context {A : Type}.

(** A pattern that begins with a literal fails where the text does not
    begin with it. *)
Lemma run_fails_at_start (icase : bool) (r : Re.regex) (c : ascii) :
  Starts.starts_with r = Some c ->
  forall pos s caps (k : nat -> string -> Re.captures -> option A),
    (forall d s', s = String d s' -> Re.chr_eq icase c d = false) ->
    Re.run icase r pos s caps k = None.
Proof.
  induction r as [c' | neg p | | r1 IH1 r2 IH2 | r1 IH1 r2 IH2 | greedy neg p
                  | g r1 IH1 | | ];
    simpl; intros Hstart pos s caps k Hs; try discriminate.
  - inversion Hstart; subst. destruct s as [|d s]; [reflexivity|].
    rewrite (Hs d s eq_refl). reflexivity.
  - apply IH1; assumption.
  - apply IH1; assumption.
Qed.

(** A greedy repetition takes all of a prefix made of the class when the
    rest does not go on with the class and the continuation accepts. *)
Lemma star_greedy_max (p : ascii -> bool) (k : nat -> string -> option A)
    (a b : string) (x : A) :
  Py.all_chars p a = true ->
  (forall d b', b = String d b' -> p d = false) ->
  forall pos,
    k (pos + String.length a) b = Some x ->
    Re.star_greedy p k pos (a ++ b) = Some x.
Proof.
  intros Ha Hb. induction a as [|c a IH]; intros pos Hk; simpl in *.
  - rewrite Nat.add_0_r in Hk. destruct b as [|d b']; simpl; [exact Hk|].
    rewrite (Hb d b' eq_refl). exact Hk.
  - apply andb_prop in Ha. destruct Ha as [Hc Ha]. rewrite Hc.
    rewrite (IH Ha (S pos)); [reflexivity|].
    rewrite Nat.add_succ_r in Hk. exact Hk.
Qed.
End StartFacts.

Lemma search_fails_without_start (icase : bool) (r : Re.regex) (c : ascii) (text : string) :
  Starts.starts_with r = Some c ->
  Starts.lacks icase c text = true ->
  Re.search icase r text = None.
Proof.
  intros Hstart. unfold Re.search, Starts.lacks. generalize 0.
  induction text as [|d text IH]; intros pos Hlacks; simpl.
  - unfold Re.match_at. rewrite (run_fails_at_start icase r c Hstart); [reflexivity|].
    intros d s' H. discriminate.
  - simpl in Hlacks. apply andb_prop in Hlacks. destruct Hlacks as [Hd Hlacks].
    unfold Re.match_at. rewrite (run_fails_at_start icase r c Hstart).
    + apply IH. exact Hlacks.
    + intros d' s' H. inversion H; subst. apply negb_true_iff in Hd. exact Hd.
Qed.

Lemma lacks_append (icase : bool) (c : ascii) (a b : string) :
  Starts.lacks icase c (a ++ b) = Starts.lacks icase c a && Starts.lacks icase c b.
Proof. apply all_chars_append. Qed.

Lemma all_chars_impl (p q : ascii -> bool) (s : string) :
  (forall c, p c = true -> q c = true) ->
  Py.all_chars p s = true -> Py.all_chars q s = true.
Proof.
  intros Hpq. induction s as [|c s IH]; simpl; [reflexivity|].
  intros H. apply andb_prop in H. destruct H as [Hc Hs].
  rewrite (Hpq c Hc), (IH Hs). reflexivity.
Qed.

(** What the characters of a flat expression are not. *)
Lemma flat_char (c : ascii) :
  Sandbox.flat c = true ->
  Re.cls_in true true (Re.one_of ")") c = true
  /\ Re.chr_eq true "<" c = false
  /\ Re.chr_eq true "f" c = false
  /\ Re.chr_eq false "034" c = false.
Proof.
  destruct c as [[] [] [] [] [] [] [] []]; vm_compute; intros H;
    try discriminate; repeat split; reflexivity.
Qed.

Lemma flat_lacks (icase : bool) (c : ascii) (e : string) :
  (forall d, Sandbox.flat d = true -> Re.chr_eq icase c d = false) ->
  Py.all_chars Sandbox.flat e = true ->
  Starts.lacks icase c e = true.
Proof.
  intros Hc. apply all_chars_impl. intros d Hd. rewrite (Hc d Hd). reflexivity.
Qed.

Lemma substring_all (s : string) : substring 0 (String.length s) s = s.
Proof. induction s as [|c s IH]; simpl; [reflexivity | rewrite IH; reflexivity]. Qed.

Section GroupFacts.
Context {A : Type}.

(** A group of a greedy class* captures all of a prefix made of the class,
    when the rest does not go on with it and the continuation accepts. *)
Lemma run_group_star (icase neg : bool) (p : ascii -> bool) (n : nat)
    (a b : string) (pos : nat) (caps : Re.captures)
    (k : nat -> string -> Re.captures -> option A) (x : A) :
  Py.all_chars (Re.cls_in icase neg p) a = true ->
  (forall d b', b = String d b' -> Re.cls_in icase neg p d = false) ->
  k (pos + String.length a) b ((n, a) :: caps) = Some x ->
  Re.run icase (Re.Group n (Re.Star true neg p)) pos (a ++ b) caps k = Some x.
Proof.
  intros Ha Hb Hk. simpl.
  apply (star_greedy_max (Re.cls_in icase neg p)
           (fun pos' s' => k pos' s' ((n, substring 0 (pos' - pos) (a ++ b)) :: caps))
           a b x Ha Hb pos).
  replace (pos + String.length a - pos) with (String.length a) by lia.
  rewrite substring_prefix. exact Hk.
Qed.

(** The same for class+, whose first character is taken first. *)
Lemma run_group_plus (icase neg : bool) (p : ascii -> bool) (n : nat)
    (c : ascii) (a b : string) (pos : nat) (caps : Re.captures)
    (k : nat -> string -> Re.captures -> option A) (x : A) :
  Py.all_chars (Re.cls_in icase neg p) (String c a) = true ->
  (forall d b', b = String d b' -> Re.cls_in icase neg p d = false) ->
  k (pos + String.length (String c a)) b ((n, String c a) :: caps) = Some x ->
  Re.run icase (Re.Group n (Re.plus true neg p)) pos (String c a ++ b) caps k = Some x.
Proof.
  intros Ha Hb Hk. simpl in Ha. apply andb_prop in Ha. destruct Ha as [Hc Ha].
  simpl. rewrite Hc.
  apply (star_greedy_max (Re.cls_in icase neg p)
           (fun pos' s' =>
              k pos' s' ((n, substring 0 (pos' - pos) (String c (a ++ b))) :: caps))
           a b x Ha Hb (S pos)).
  replace (S pos + String.length a - pos) with (S (String.length a)) by lia.
  change (String c (a ++ b)) with (String c a ++ b).
  change (S (String.length a)) with (String.length (String c a)).
  rewrite substring_prefix.
  simpl in Hk. rewrite Nat.add_succ_r in Hk. exact Hk.
Qed.
End GroupFacts.

Lemma search_at_start (icase : bool) (r : Re.regex) (s : string) (m : Re.rmatch) :
  Re.match_at icase r 0 s = Some m -> Re.search icase r s = Some m.
Proof.
  intros H. unfold Re.search. destruct s; simpl; rewrite H; reflexivity.
Qed.

(** The name(args) pattern on a call that is the whole text. *)
Lemma p_call_matches (name e : string) :
  name <> "" ->
  Py.all_chars Py.isword name = true ->
  Py.all_chars Sandbox.flat e = true ->
  Re.search true (ToolManager.re ToolManager.p_call) (name ++ "(" ++ e ++ ")")
  = Some {| Re.m_start := 0;
            Re.m_whole := name ++ "(" ++ e ++ ")";
            Re.m_caps := [(2, e); (1, name)] |}.
Proof.
  intros Hname Hword Hflat.
  destruct name as [|c name]; [congruence|].
  assert (Hmatch :
    Re.match_at true (ToolManager.re ToolManager.p_call) 0
      (String c name ++ "(" ++ e ++ ")")
    = Some {| Re.m_start := 0;
              Re.m_whole := String c name ++ "(" ++ e ++ ")";
              Re.m_caps := [(2, e); (1, String c name)] |}).
  { unfold Re.match_at.
    set (finish := fun (pos' : nat) (_ : string) (caps : Re.captures) =>
                     Some {| Re.m_start := 0;
                             Re.m_whole :=
                               substring 0 (pos' - 0) (String c name ++ "(" ++ e ++ ")");
                             Re.m_caps := caps |}).
    change (Re.run true (Re.Group 1 (Re.plus true false Py.isword)) 0
              (String c name ++ ("(" ++ e ++ ")")) []
              (fun pos' s' caps' =>
                 Re.run true
                   (Re.Cat (Re.Chr "(")
                      (Re.Cat (Re.Group 2 (Re.Star true true (Re.one_of ")")))
                         (Re.Cat (Re.Chr ")") Re.Eps)))
                   pos' s' caps' finish)
            = Some {| Re.m_start := 0;
                      Re.m_whole := String c name ++ "(" ++ e ++ ")";
                      Re.m_caps := [(2, e); (1, String c name)] |}).
    apply run_group_plus.
    - revert Hword. apply all_chars_impl. intros d Hd.
      unfold Re.cls_in. rewrite Hd. reflexivity.
    - intros d b' H. inversion H; subst. reflexivity.
    - change (Re.run true (Re.Group 2 (Re.Star true true (Re.one_of ")")))
                (S (0 + String.length (String c name))) (e ++ ")")
                [(1, String c name)]
                (fun pos' s' caps' =>
                   Re.run true (Re.Cat (Re.Chr ")") Re.Eps) pos' s' caps' finish)
              = Some {| Re.m_start := 0;
                        Re.m_whole := String c name ++ "(" ++ e ++ ")";
                        Re.m_caps := [(2, e); (1, String c name)] |}).
      apply run_group_star.
      + revert Hflat. apply all_chars_impl. intros d Hd.
        apply (flat_char d Hd).
      + intros d b' H. inversion H; subst. reflexivity.
      + change (finish (S (S (0 + String.length (String c name)) + String.length e))
                  "" [(2, e); (1, String c name)]
                = Some {| Re.m_start := 0;
                          Re.m_whole := String c name ++ "(" ++ e ++ ")";
                          Re.m_caps := [(2, e); (1, String c name)] |}).
        unfold finish. f_equal. f_equal.
        replace (S (S (0 + String.length (String c name)) + String.length e) - 0)
          with (String.length (String c name ++ "(" ++ e ++ ")")).
        * apply substring_all.
        * rewrite !length_append. simpl. lia. }
  apply search_at_start. exact Hmatch.
Qed.

Lemma all_chars_lower (p : ascii -> bool) (s : string) :
  Py.all_chars p (Py.lower s) = Py.all_chars (fun c => p (Py.lower_char c)) s.
Proof.
  induction s as [|c s IH]; simpl; [reflexivity|].
  unfold Py.lower in IH. rewrite IH. reflexivity.
Qed.

Lemma isword_lower (c : ascii) : Py.isword (Py.lower_char c) = Py.isword c.
Proof. destruct c as [[] [] [] [] [] [] [] []]; reflexivity. Qed.

Lemma chr_eq_lower (c d : ascii) :
  Re.chr_eq true c (Py.lower_char d) = Re.chr_eq true c d.
Proof.
  unfold Re.chr_eq. f_equal.
  destruct d as [[] [] [] [] [] [] [] []]; reflexivity.
Qed.

Lemma lacks_lower (c : ascii) (s : string) :
  Starts.lacks true c (Py.lower s) = Starts.lacks true c s.
Proof.
  unfold Starts.lacks. rewrite all_chars_lower.
  induction s as [|d s IH]; cbn [Py.all_chars]; [reflexivity|].
  rewrite chr_eq_lower, IH. reflexivity.
Qed.

(** What the three spellings of the calculator's name have in common. *)
Lemma calculator_name (name : string) :
  In (Py.lower name) ["calc"; "calculator"; "calculate"] ->
  name <> ""
  /\ Py.all_chars Py.isword name = true
  /\ Starts.lacks true "<" name = true
  /\ Starts.lacks true "f" name = true
  /\ (if existsb (String.eqb (Py.lower name)) ["websearch"; "search"; "googlesearch"]
      then "web_search"
      else if existsb (String.eqb (Py.lower name)) ["calc"; "calculator"]
      then "calculate"
      else Py.lower name) = "calculate".
Proof.
  intros Hin.
  assert (Hword : Py.all_chars Py.isword name = true).
  { transitivity (Py.all_chars Py.isword (Py.lower name)).
    - rewrite all_chars_lower. clear Hin.
      induction name as [|c name IH]; simpl; [reflexivity|].
      rewrite isword_lower, IH. reflexivity.
    - simpl in Hin. destruct Hin as [H | [H | [H | []]]]; rewrite <- H; reflexivity. }
  split; [|split; [exact Hword|]].
  - intros E. subst name. simpl in Hin.
    destruct Hin as [H | [H | [H | []]]]; discriminate.
  - rewrite <- (lacks_lower "<" name), <- (lacks_lower "f" name).
    simpl in Hin. destruct Hin as [H | [H | [H | []]]]; rewrite <- H;
      repeat split; reflexivity.
Qed.

(** X6. A text that is exactly one call of the calculator, name(expression)
    with the name spelled calc, calculator or calculate in any case and an
    expression of digits, operators and white space, is detected by the
    name(args) pattern whenever calculate is registered: the tool is
    calculate, the expression is the text between the parentheses stripped of
    surrounding spaces, and the matched text is the whole text. *)
Theorem written_calculation_is_detected {F : Type} (registry : ToolManager.Registry F)
    (name e : string) :
  In (Py.lower name) ["calc"; "calculator"; "calculate"] ->
  ToolManager.has (ToolManager._tools registry) "calculate" = true ->
  Py.all_chars Sandbox.flat e = true ->
  ToolManager.detect_tool_call registry (name ++ "(" ++ e ++ ")")
  = {| ToolManager.tool_name := Some "calculate";
       ToolManager.arguments :=
         Some [("expression", Py.strip_chars (dq ++ "'{}[] ") e)];
       ToolManager.original_text := Some (name ++ "(" ++ e ++ ")") |}.
Proof.
  intros Hname Hreg Hflat.
  destruct (calculator_name name Hname) as (Hne & Hword & Hlt & Hf & Hnorm).
  set (text := name ++ "(" ++ e ++ ")").
  assert (Htext : forall icase c,
            Starts.lacks icase c name = true ->
            (forall d, Sandbox.flat d = true -> Re.chr_eq icase c d = false) ->
            Re.chr_eq icase c "(" = false -> Re.chr_eq icase c ")" = false ->
            Starts.lacks icase c text = true).
  { intros icase c Hn Hc Ho Hcl. unfold text.
    rewrite lacks_append, Hn. simpl.
    change (Starts.lacks icase c (String "(" (e ++ ")")))
      with (negb (Re.chr_eq icase c "(") && Starts.lacks icase c (e ++ ")")).
    rewrite Ho, lacks_append, (flat_lacks icase c e Hc Hflat).
    unfold Starts.lacks. simpl. rewrite Hcl. reflexivity. }
  assert (Hno_lt : Starts.lacks true "<" text = true).
  { apply Htext; try reflexivity; [exact Hlt|].
    intros d Hd. apply (flat_char d Hd). }
  assert (Hno_f : Starts.lacks true "f" text = true).
  { apply Htext; try reflexivity; [exact Hf|].
    intros d Hd. apply (flat_char d Hd). }
  unfold ToolManager.detect_tool_call, ToolManager.detect_with. fold text.
  rewrite (first_return_nth (ToolManager.try_pattern registry text) ToolManager.patterns
             4 ToolManager.p_call
             {| ToolManager.tool_name := Some "calculate";
                ToolManager.arguments :=
                  Some [("expression", Py.strip_chars (dq ++ "'{}[] ") e)];
                ToolManager.original_text := Some text |}).
  - reflexivity.
  - reflexivity.
  - unfold ToolManager.try_pattern. unfold text.
    rewrite (p_call_matches name e Hne Hword Hflat).
    change (String.eqb (ToolManager.source ToolManager.p_call)
              (ToolManager.source ToolManager.p_ill_search)) with false.
    change (String.eqb (ToolManager.source ToolManager.p_call)
              (ToolManager.source ToolManager.p_let_me)) with false.
    cbv iota. unfold ToolManager.standard_case.
    change (Nat.leb 2 (Re.ngroups (ToolManager.re ToolManager.p_call))) with true.
    cbv iota zeta.
    change (Re.group {| Re.m_start := 0; Re.m_whole := name ++ "(" ++ e ++ ")";
                        Re.m_caps := [(2, e); (1, name)] |} 1) with name.
    change (Re.group {| Re.m_start := 0; Re.m_whole := name ++ "(" ++ e ++ ")";
                        Re.m_caps := [(2, e); (1, name)] |} 2) with e.
    rewrite Hnorm, Hreg.
    change (String.eqb "calculate" "web_search") with false.
    change (String.eqb "calculate" "calculate") with true.
    cbv iota. unfold ToolManager.detected, ToolManager.extract_argument.
    rewrite (search_fails_without_start false (ToolManager.keyed_value "expression")
               "034" e eq_refl).
    + rewrite (search_fails_without_start false ToolManager.first_quoted "034" e eq_refl).
      * reflexivity.
      * apply flat_lacks; [|exact Hflat]. intros d Hd. apply (flat_char d Hd).
    + apply flat_lacks; [|exact Hflat]. intros d Hd. apply (flat_char d Hd).
  - intros j y Hj Hy. unfold ToolManager.try_pattern.
    destruct j as [|[|[|[|j]]]]; [| | | |lia]; inversion Hy; subst y.
    + rewrite (search_fails_without_start true
                 (ToolManager.re ToolManager.p_function_bracket) "<" text eq_refl Hno_lt).
      reflexivity.
    + rewrite (search_fails_without_start true
                 (ToolManager.re ToolManager.p_function_bracket_closed) "<" text
                 eq_refl Hno_lt).
      reflexivity.
    + rewrite (search_fails_without_start true
                 (ToolManager.re ToolManager.p_function_brace) "<" text eq_refl Hno_lt).
      reflexivity.
    + rewrite (search_fails_without_start true
                 (ToolManager.re ToolManager.p_function_call) "f" text eq_refl Hno_f).
      reflexivity.
Qed.

Lemma written_calculation_is_detected_witness :
  ToolManager.detect_tool_call
    (ToolManager.load_tools (F := nat) 0 1) ("Calc" ++ "(" ++ " 2 + 2*3 " ++ ")")
  = {| ToolManager.tool_name := Some "calculate";
       ToolManager.arguments :=
         Some [("expression", Py.strip_chars (dq ++ "'{}[] ") " 2 + 2*3 ")];
       ToolManager.original_text := Some ("Calc" ++ "(" ++ " 2 + 2*3 " ++ ")") |}.
Proof.
  apply (written_calculation_is_detected (ToolManager.load_tools (F := nat) 0 1)
           "Calc" " 2 + 2*3 ").
  - simpl. left. reflexivity.
  - reflexivity.
  - reflexivity.
Defined.

(** ** What the detector reads of the registry *)
Lemma first_return_ext {X R : Type} (f g : X -> option R) (xs : list X) :
  (forall x, f x = g x) ->
  ToolManager.first_return f xs = ToolManager.first_return g xs.
Proof.
  intros H. induction xs as [|x xs IH]; simpl; [reflexivity|].
  rewrite H, IH. reflexivity.
Qed.

Lemma standard_case_two_names {F1 F2 : Type}
    (r1 : ToolManager.Registry F1) (r2 : ToolManager.Registry F2)
    (p : ToolManager.pattern) (m : Re.rmatch) :
  ToolManager.has (ToolManager._tools r1) "web_search"
  = ToolManager.has (ToolManager._tools r2) "web_search" ->
  ToolManager.has (ToolManager._tools r1) "calculate"
  = ToolManager.has (ToolManager._tools r2) "calculate" ->
  ToolManager.standard_case r1 p m = ToolManager.standard_case r2 p m.
Proof.
  intros Hsearch Hcalc. unfold ToolManager.standard_case.
  destruct (Nat.leb 2 (Re.ngroups (ToolManager.re p))); [|reflexivity].
  cbv zeta.
  set (tool_name :=
         if existsb (String.eqb (Py.lower (Re.group m 1)))
              ["websearch"; "search"; "googlesearch"]
         then "web_search"
         else if existsb (String.eqb (Py.lower (Re.group m 1))) ["calc"; "calculator"]
         then "calculate"
         else Py.lower (Re.group m 1)).
  destruct (String.eqb tool_name "web_search") eqn:Ew.
  - apply String.eqb_eq in Ew. rewrite Ew, Hsearch. reflexivity.
  - destruct (String.eqb tool_name "calculate") eqn:Ec.
    + apply String.eqb_eq in Ec. rewrite Ec, Hcalc. reflexivity.
    + destruct (ToolManager.has (ToolManager._tools r1) tool_name),
        (ToolManager.has (ToolManager._tools r2) tool_name); reflexivity.
Qed.

(** X7. The detector consults the registry for one thing only: whether the
    names web_search and calculate are registered.  Two registries that
    agree on these two names, whatever functions and other tools they hold,
    give the same detection on every text. *)
Theorem detector_reads_two_names {F1 F2 : Type}
    (r1 : ToolManager.Registry F1) (r2 : ToolManager.Registry F2) (text : string) :
  ToolManager.has (ToolManager._tools r1) "web_search"
  = ToolManager.has (ToolManager._tools r2) "web_search" ->
  ToolManager.has (ToolManager._tools r1) "calculate"
  = ToolManager.has (ToolManager._tools r2) "calculate" ->
  ToolManager.detect_tool_call r1 text = ToolManager.detect_tool_call r2 text.
Proof.
  intros Hsearch Hcalc.
  unfold ToolManager.detect_tool_call, ToolManager.detect_with.
  rewrite (first_return_ext (ToolManager.try_pattern r1 text)
             (ToolManager.try_pattern r2 text)); [reflexivity|].
  intros p. unfold ToolManager.try_pattern.
  destruct (Re.search true (ToolManager.re p) text) as [m|]; [|reflexivity].
  rewrite (standard_case_two_names r1 r2 p m Hsearch Hcalc). reflexivity.
Qed.

Lemma detector_reads_two_names_witness :
  ToolManager.detect_tool_call (ToolManager.load_tools (F := nat) 0 1) "search(cats)"
  = ToolManager.detect_tool_call
      (ToolManager.register_tool (ToolManager.load_tools (F := bool) true false)
         "weather" true ToolManager.calculate_definition)
      "search(cats)".
Proof.
  apply (detector_reads_two_names
           (ToolManager.load_tools (F := nat) 0 1)
           (ToolManager.register_tool (ToolManager.load_tools (F := bool) true false)
              "weather" true ToolManager.calculate_definition)
           "search(cats)").
  - reflexivity.
  - reflexivity.
Defined.

(** ** All definitions *)
Lemma get_tool_definitions_cons {F : Type} (tools : ToolManager.dict F)
    (k : string) (v : ToolManager.ToolDefinition)
    (d : ToolManager.dict ToolManager.ToolDefinition) (tools' : ToolManager.dict F)
    (names : list string) :
  ~ In k names ->
  ToolManager.get_tool_definitions
    {| ToolManager._tools := tools; ToolManager._tool_definitions := (k, v) :: d |} names
  = ToolManager.get_tool_definitions
      {| ToolManager._tools := tools'; ToolManager._tool_definitions := d |} names.
Proof.
  unfold ToolManager.get_tool_definitions. simpl.
  induction names as [|n names IH]; intros Hk; simpl; [reflexivity|].
  destruct (String.eqb n k) eqn:E.
  - apply String.eqb_eq in E. subst. exfalso. apply Hk. left. reflexivity.
  - rewrite IH; [reflexivity|]. intros Hin. apply Hk. right. exact Hin.
Qed.

(** X20. For a registry whose names are distinct, as every registry built by
    register_tool is, asking get_tool_definitions for every registered name
    gives what get_all_tool_definitions gives, in the same order. *)
Theorem all_definitions_by_name {F : Type} (r : ToolManager.Registry F) :
  Names.consistent r ->
  ToolManager.get_tool_definitions r (Names.keys (ToolManager._tools r))
  = ToolManager.get_all_tool_definitions r.
Proof.
  intros [Hsame Hnodup]. rewrite Hsame in *. clear Hsame.
  destruct r as [tools definitions]. simpl in *.
  unfold ToolManager.get_all_tool_definitions, ToolManager.values. simpl.
  induction definitions as [|[k v] d IH]; [reflexivity|].
  simpl in Hnodup. inversion Hnodup as [|? ? Hk Hd]; subst.
  change (Names.keys ((k, v) :: d)) with (k :: Names.keys d).
  unfold ToolManager.get_tool_definitions at 1.
  cbn [flat_map ToolManager._tool_definitions ToolManager.get map snd].
  rewrite String.eqb_refl. cbn [List.app]. f_equal.
  rewrite <- (IH Hd).
  apply (get_tool_definitions_cons tools k v d tools (Names.keys d) Hk).
Qed.

Lemma all_definitions_by_name_witness :
  ToolManager.get_tool_definitions (ToolManager.load_tools (F := nat) 0 1)
    (Names.keys (ToolManager._tools (ToolManager.load_tools (F := nat) 0 1)))
  = ToolManager.get_all_tool_definitions (ToolManager.load_tools (F := nat) 0 1).
Proof.
  apply (all_definitions_by_name (ToolManager.load_tools (F := nat) 0 1)).
  split; [reflexivity|].
  repeat constructor; simpl; intros H; repeat destruct H as [H|H]; try discriminate; exact H.
Defined.
